(** * The expert panel chatbot: collection, synthesis, registry and config snapshots

    A shallow embedding of [chatbot.py], [chatbot2.py], [chatbot3.py]
    and [chatbot4.py] (the CLI variant, the first web variant, the web
    variant with an editable roster, and the web variant with an
    editable model configuration), and the properties of the fan-out /
    fan-in pipeline, of the import / export code and of whole runs of
    [main].

    Python values are modelled as the code handles them: a [dict] is an
    insertion-ordered association list with unique keys, a coroutine is
    a tree of suspension points, and what the code awaits from LangChain
    (the model behind [LLMChain.arun]) and the arguments Streamlit
    checks are interfaces the development is parametric in. *)

From Stdlib Require Import String Ascii List ZArith QArith Lia Permutation.
From stdpp Require Import base list strings.

Set Warnings "-register-all".

Local Open Scope string_scope.
Local Open Scope list_scope.

(* ===================================================================== *)
(** * Part I: the embedding                                               *)
(* ===================================================================== *)

(** ** Python values, dictionaries and the operations the code uses *)

Module Py.

(** The exceptions the modelled code can meet. [InvokerError] stands for
    whatever the model client raises (timeout, quota, authentication),
    [StreamlitAPIException] for Streamlit's refusal of an argument. *)
Inductive exn : Type :=
| KeyError (key : string)
| TypeError
| AttributeError
| ValueError
| JSONDecodeError
| InvokerError (msg : string)
| StreamlitAPIException.

(** A computation that returns or raises. *)
Inductive result (A : Type) : Type :=
| Ok (a : A)
| Raise (e : exn).
Arguments Ok {A} a.
Arguments Raise {A} e.

Definition rbind {A B} (r : result A) (f : A -> result B) : result B :=
  match r with
  | Ok a => f a
  | Raise e => Raise e
  end.

#[export] Instance result_ret : MRet result := fun A a => Ok a.
#[export] Instance result_mbind : MBind result := fun A B f r => rbind r f.

(** [for x in xs: ...] collecting one value per element, stopping at the
    first exception (a dict or list comprehension). *)
Fixpoint rmap {A B} (f : A -> result B) (xs : list A) : result (list B) :=
  match xs with
  | [] => Ok []
  | x :: xs' =>
      rbind (f x) (fun y => rbind (rmap f xs') (fun ys => Ok (y :: ys)))
  end.

(** *** Strings *)

(** [sep.join(parts)] *)
Fixpoint join (sep : string) (parts : list string) : string :=
  match parts with
  | [] => ""
  | [p] => p
  | p :: rest => p +:+ sep +:+ join sep rest
  end.

(** [s.startswith(a)], returning what follows [a]. *)
Fixpoint strip_prefix (a s : string) : option string :=
  match a, s with
  | EmptyString, _ => Some s
  | String x a', String y s' =>
      if Ascii.eqb x y then strip_prefix a' s' else None
  | String _ _, EmptyString => None
  end.

(** [a in s] for two strings: [a] occurs in [s]. *)
Fixpoint substringb (a s : string) : bool :=
  match strip_prefix a s with
  | Some _ => true
  | None =>
      match s with
      | EmptyString => false
      | String _ s' => substringb a s'
      end
  end.

(** [str.upper] is CPython's Unicode case mapping; the development is
    parametric in it. *)
Class StrMethods : Type := { upper : string -> string }.

(** Some occurrence of [a] in [s] is followed, after its end, by an
    occurrence of [b]. *)
Fixpoint precedesb (a b s : string) : bool :=
  match strip_prefix a s with
  | Some rest => substringb b rest
  | None => false
  end
  || match s with
     | EmptyString => false
     | String _ s' => precedesb a b s'
     end.

(** The line feed, and the blank line ["\n\n"] between two blocks. *)
Definition LF : string := String (ascii_of_nat 10) EmptyString.
Definition blank_line : string := LF +:+ LF.

(** *** Dictionaries

    A Python [dict] keeps its keys unique and iterates in insertion
    order: an association list whose keys have no duplicate. *)
Definition dict (V : Type) : Type := list (string * V).

Definition keys {V} (d : dict V) : list string := map fst d.

(** [d.get(k)] *)
Fixpoint dict_get {V} (k : string) (d : dict V) : option V :=
  match d with
  | [] => None
  | (k', v) :: d' => if String.eqb k' k then Some v else dict_get k d'
  end.

(** [d[k]] *)
Definition dict_item {V} (k : string) (d : dict V) : result V :=
  match dict_get k d with
  | Some v => Ok v
  | None => Raise (KeyError k)
  end.

(** [d[k] = v]: an existing key keeps its position, a new key goes last. *)
Fixpoint dict_set {V} (k : string) (v : V) (d : dict V) : dict V :=
  match d with
  | [] => [(k, v)]
  | (k', v') :: d' =>
      if String.eqb k' k then (k', v) :: d' else (k', v') :: dict_set k v d'
  end.

(** [del d[k]] on a key of the dict. *)
Fixpoint dict_del {V} (k : string) (d : dict V) : dict V :=
  match d with
  | [] => []
  | (k', v') :: d' =>
      if String.eqb k' k then d' else (k', v') :: dict_del k d'
  end.

(** [dict(pairs)]: the pairs are inserted from left to right. *)
Definition dict_of_pairs {V} (pairs : list (string * V)) : dict V :=
  fold_left (fun d kv => dict_set (fst kv) (snd kv) d) pairs [].

(** *** Values

    The values the session state can hold: what the widgets produce
    (strings, numbers) and what [json.load] returns. *)
Inductive pyval : Type :=
| PNone
| PBool (b : bool)
| PNum (q : Q)
| PStr (s : string)
| PList (xs : list pyval)
| PDict (d : list (string * pyval)).

(** Every dictionary inside a value has unique keys. *)
Inductive wf : pyval -> Prop :=
| wf_none : wf PNone
| wf_bool b : wf (PBool b)
| wf_num q : wf (PNum q)
| wf_str s : wf (PStr s)
| wf_list xs : Forall wf xs -> wf (PList xs)
| wf_dict d : NoDup (map fst d) -> Forall (fun kv => wf (snd kv)) d -> wf (PDict d).

(** Induction on a value together with the values inside it. *)
Fixpoint pyval_nested_ind (P : pyval -> Prop)
    (Hnone : P PNone) (Hbool : forall b, P (PBool b)) (Hnum : forall q, P (PNum q))
    (Hstr : forall s, P (PStr s))
    (Hlist : forall xs, Forall P xs -> P (PList xs))
    (Hdict : forall d, Forall (fun kv => P (snd kv)) d -> P (PDict d))
    (v : pyval) {struct v} : P v :=
  match v with
  | PNone => Hnone
  | PBool b => Hbool b
  | PNum q => Hnum q
  | PStr s => Hstr s
  | PList xs =>
      Hlist xs
        ((fix all (l : list pyval) : Forall P l :=
            match l with
            | [] => List.Forall_nil P
            | x :: l' =>
                @List.Forall_cons _ P x l'
                  (pyval_nested_ind P Hnone Hbool Hnum Hstr Hlist Hdict x) (all l')
            end) xs)
  | PDict d =>
      Hdict d
        ((fix all (l : list (string * pyval)) : Forall (fun kv => P (snd kv)) l :=
            match l with
            | [] => List.Forall_nil _
            | kv :: l' =>
                @List.Forall_cons _ (fun kv => P (snd kv)) kv l'
                  (pyval_nested_ind P Hnone Hbool Hnum Hstr Hlist Hdict (snd kv)) (all l')
            end) d)
  end.

(** [bool(v)], as in [if not v:] *)
Definition truthy (v : pyval) : bool :=
  match v with
  | PNone => false
  | PBool b => b
  | PNum q => negb (Qeq_bool q 0)
  | PStr s => negb (String.eqb s "")
  | PList xs => match xs with [] => false | _ => true end
  | PDict d => match d with [] => false | _ => true end
  end.

(** [v[k]] with a string subscript. *)
Definition getitem (v : pyval) (k : string) : result pyval :=
  match v with
  | PDict d =>
      match dict_get k d with
      | Some x => Ok x
      | None => Raise (KeyError k)
      end
  | _ => Raise TypeError
  end.

(** [v.get(k, default)] *)
Definition get (v : pyval) (k : string) (default : pyval) : result pyval :=
  match v with
  | PDict d =>
      match dict_get k d with
      | Some x => Ok x
      | None => Ok default
      end
  | _ => Raise AttributeError
  end.

(** [v.items()] and [v.keys()] *)
Definition items (v : pyval) : result (list (string * pyval)) :=
  match v with
  | PDict d => Ok d
  | _ => Raise AttributeError
  end.

Definition pykeys (v : pyval) : result (list string) :=
  match v with
  | PDict d => Ok (keys d)
  | _ => Raise AttributeError
  end.

(** [k in v] for a string [k]: a key of a dict, an element of a list, a
    substring of a string; the other values are not containers. *)
Definition contains (k : string) (v : pyval) : result bool :=
  match v with
  | PDict d => Ok (match dict_get k d with Some _ => true | None => false end)
  | PList xs =>
      Ok (existsb (fun x => match x with PStr s => String.eqb s k | _ => false end) xs)
  | PStr s => Ok (substringb k s)
  | _ => Raise TypeError
  end.

(** [v[k] = x] with a string subscript: only a dict takes it. *)
Definition setitem (v : pyval) (k : string) (x : pyval) : result pyval :=
  match v with
  | PDict d => Ok (PDict (dict_set k x d))
  | _ => Raise TypeError
  end.

(** [del v[k]] with a string subscript. *)
Definition delitem (v : pyval) (k : string) : result pyval :=
  match v with
  | PDict d =>
      match dict_get k d with
      | Some _ => Ok (PDict (dict_del k d))
      | None => Raise (KeyError k)
      end
  | _ => Raise TypeError
  end.

(** [s != v] and [q != v] for a string [s], a float [q] and any value
    [v], negated: a string equals only the same string; a float equals
    a number of the same value, and [True] and [False] as [1] and
    [0]. *)
Definition eq_str (s : string) (v : pyval) : bool :=
  match v with
  | PStr s' => String.eqb s s'
  | _ => false
  end.

Definition eq_num (q : Q) (v : pyval) : bool :=
  match v with
  | PNum q' => Qeq_bool q q'
  | PBool b => Qeq_bool q (if b then 1 else 0)
  | _ => false
  end.

(** [xs.index(v)] on a list of strings: the position of the first
    element equal to [v]; only a string equals a string. *)
Fixpoint list_index (xs : list string) (v : pyval) : result nat :=
  match xs with
  | [] => Raise ValueError
  | x :: xs' =>
      if match v with PStr s => String.eqb x s | _ => false end
      then Ok 0
      else n ← list_index xs' v; mret (S n)
  end.

End Py.

(** ** JSON documents: [json.dumps] and [json.load]

    The text layer of JSON (indentation, escapes, number syntax) is
    CPython's; a document is modelled by its syntax tree. An object of a
    document is a sequence of members and may repeat a name. *)

Module Json.
Import Py.

Inductive doc : Type :=
| JNull
| JBool (b : bool)
| JNum (q : Q)
| JStr (s : string)
| JArr (xs : list doc)
| JObj (members : list (string * doc)).

(** [json.dumps(v, indent=2, ensure_ascii=False)]: a dict is written as
    an object whose members follow the dict's iteration order. *)
Fixpoint dumps (v : pyval) : doc :=
  match v with
  | PNone => JNull
  | PBool b => JBool b
  | PNum q => JNum q
  | PStr s => JStr s
  | PList xs => JArr (map dumps xs)
  | PDict d => JObj (map (fun kv => (fst kv, dumps (snd kv))) d)
  end.

(** The value [json.load] builds from a document: an object becomes the
    dict of its members, so a repeated name keeps its first position and
    its last value. *)
Fixpoint value_of (j : doc) : pyval :=
  match j with
  | JNull => PNone
  | JBool b => PBool b
  | JNum q => PNum q
  | JStr s => PStr s
  | JArr xs => PList (map value_of xs)
  | JObj ms => PDict (dict_of_pairs (map (fun kv => (fst kv, value_of (snd kv))) ms))
  end.

(** Induction on a document together with the documents inside it. *)
Fixpoint doc_nested_ind (P : doc -> Prop)
    (Hnull : P JNull) (Hbool : forall b, P (JBool b)) (Hnum : forall q, P (JNum q))
    (Hstr : forall s, P (JStr s))
    (Harr : forall xs, Forall P xs -> P (JArr xs))
    (Hobj : forall ms, Forall (fun kv => P (snd kv)) ms -> P (JObj ms))
    (j : doc) {struct j} : P j :=
  match j with
  | JNull => Hnull
  | JBool b => Hbool b
  | JNum q => Hnum q
  | JStr s => Hstr s
  | JArr xs =>
      Harr xs
        ((fix all (l : list doc) : Forall P l :=
            match l with
            | [] => List.Forall_nil P
            | x :: l' =>
                @List.Forall_cons _ P x l'
                  (doc_nested_ind P Hnull Hbool Hnum Hstr Harr Hobj x) (all l')
            end) xs)
  | JObj ms =>
      Hobj ms
        ((fix all (l : list (string * doc)) : Forall (fun kv => P (snd kv)) l :=
            match l with
            | [] => List.Forall_nil _
            | kv :: l' =>
                @List.Forall_cons _ (fun kv => P (snd kv)) kv l'
                  (doc_nested_ind P Hnull Hbool Hnum Hstr Harr Hobj (snd kv)) (all l')
            end) ms)
  end.

(** Some member of an object has the name [field]. *)
Definition names (field : string) (members : list (string * doc)) : bool :=
  existsb (fun kv => String.eqb (fst kv) field) members.


(** An uploaded or downloaded file: its content is a JSON document, or
    is not JSON at all. *)
Definition file : Type := option doc.

(** [json.load(f)] *)
Definition load (f : file) : result pyval :=
  match f with
  | Some j => Ok (value_of j)
  | None => Raise JSONDecodeError
  end.

End Json.

(** ** LangChain: prompt templates, chains and the model behind them *)

Module LangChain.
Import Py.

Record PromptTemplate : Type :=
  { template : string; input_variables : list string }.

Definition lbrace : ascii := ascii_of_nat 123.
Definition rbrace : ascii := ascii_of_nat 125.

(** [PromptTemplate.format] on string arguments: a replacement field
    [{name}] is replaced by the argument of that name, doubled braces
    stand for one brace, and the text of an argument is not scanned
    again. [name] is [Some n] inside a field whose name read so far is
    [n]. Positional fields, conversions and format specifications are
    not modelled: no template of the program has one. *)
Fixpoint format_from (t : string) (name : option string) (kwargs : dict string)
  : result string :=
  match t with
  | EmptyString =>
      match name with
      | None => Ok ""
      | Some _ => Raise ValueError
      end
  | String c t' =>
      match name with
      | Some n =>
          if Ascii.eqb c rbrace then
            match dict_get n kwargs with
            | Some v => rbind (format_from t' None kwargs) (fun r => Ok (v +:+ r))
            | None => Raise (KeyError n)
            end
          else format_from t' (Some (n +:+ String c "")) kwargs
      | None =>
          if Ascii.eqb c lbrace then
            match t' with
            | String c' t'' =>
                if Ascii.eqb c' lbrace
                then rbind (format_from t'' None kwargs) (fun r => Ok (String lbrace r))
                else format_from t' (Some "") kwargs
            | EmptyString => Raise ValueError
            end
          else if Ascii.eqb c rbrace then
            match t' with
            | String c' t'' =>
                if Ascii.eqb c' rbrace
                then rbind (format_from t'' None kwargs) (fun r => Ok (String rbrace r))
                else Raise ValueError
            | EmptyString => Raise ValueError
            end
          else rbind (format_from t' None kwargs) (fun r => Ok (String c r))
      end
  end.

Definition format (p : PromptTemplate) (kwargs : dict string) : result string :=
  format_from (template p) None kwargs.

(** What an awaited [arun] delivers: the generated text, or an exception. *)
Inductive response : Type :=
| Text (s : string)
| Fails (e : exn).

Definition text_of (r : response) : string :=
  match r with
  | Text s => s
  | Fails _ => ""
  end.

(** The model client. [ChatOpenAI] builds it from a model name, a
    temperature and an API key, and may refuse them; [generate] is the
    remote call behind [LLMChain.arun]: it receives the chain's prompt
    and the keyword arguments of the call. The program treats both as
    opaque, and so does the development. *)
Class Backend : Type :=
  { llm : Type;
    ChatOpenAI : pyval -> pyval -> string -> result llm;
    generate : llm -> PromptTemplate -> dict pyval -> response }.

(** [LLMChain(llm=..., prompt=...)] *)
Record LLMChain `{Backend} : Type :=
  { chain_llm : llm; prompt : PromptTemplate }.

End LangChain.

(** ** Streamlit: the arguments it checks

    Two calls of the program hand a value of the session state to
    Streamlit, which accepts it or raises: [st.chat_message] with the
    avatar of an expert (an emoji, an image or one of a few names is
    accepted) and [st.slider] with the temperature as its value
    (a number of the type and within the bounds of the slider is
    accepted). The checks are Streamlit's, and the development is
    parametric in them. The literal arguments of the program
    (["user"], ["assistant"], the robot emoji, the bounds of the slider)
    are ones Streamlit accepts. *)

Module Streamlit.
Import Py.

Class Checks : Type :=
  { (** [st.chat_message("assistant", avatar=v)] *)
    chat_message : pyval -> result unit;
    (** [st.slider(label, min_value=0.0, max_value=2.0, value=v, step=0.1)] *)
    slider : pyval -> result unit }.

End Streamlit.

(** ** asyncio: coroutines, [await] and [asyncio.gather] *)

Module Asyncio.
Import Py LangChain.

(** What the program displays or records: [print]; the Streamlit calls
    that write a text, an error or a success box; [Append], a message
    appended to the transcript [st.session_state.messages]. [Announce]
    is a line about an expert and [Opinion] an opinion under such a
    line: their text is built from a fixed label and the title-cased
    expert id. [WriteVal] is a text built from a label and [str(v)]. *)
Inductive output : Type :=
| Print (s : string)
| Write (s : string)
| Announce (label expert_id : string)
| Opinion (expert_id response : string)
| WriteVal (label : string) (v : pyval)
| Append (role content : string)
| Error (msg : string)
| ErrorExn (label : string) (e : exn)
| Success (msg : string).

Section Loop.
Context `{Backend}.

(** The observable trace of a run: a call to the model starts when the
    chain's [arun] is entered and is finished when its answer (or its
    exception) is delivered to the coroutine that awaits it. *)
Inductive event : Type :=
| Started (ch : LLMChain) (kwargs : dict pyval)
| Finished (ch : LLMChain) (kwargs : dict pyval) (r : response)
| Shown (o : output).

(** A coroutine: it returns, raises, displays something, or suspends on
    a call to the model and goes on with the generated text. An
    exception of the awaited call is raised at the [await]; the program
    has no handler around any of them. *)
Inductive coro (A : Type) : Type :=
| Ret (a : A)
| Throw (e : exn)
| Await (ch : LLMChain) (kwargs : dict pyval) (k : string -> coro A)
| Out (o : output) (k : coro A).
Arguments Ret {A} a.
Arguments Throw {A} e.
Arguments Await {A} ch kwargs k.
Arguments Out {A} o k.

Fixpoint coro_bind {A B} (f : A -> coro B) (t : coro A) : coro B :=
  match t with
  | Ret a => f a
  | Throw e => Throw e
  | Await ch kwargs k => Await ch kwargs (fun s => coro_bind f (k s))
  | Out o k => Out o (coro_bind f k)
  end.

#[export] Instance coro_ret : MRet coro := fun A a => Ret a.
#[export] Instance coro_mbind : MBind coro := fun A B f t => coro_bind f t.

(** [await chain.arun(...)] *)
Definition arun (ch : LLMChain) (kwargs : dict pyval) : coro string :=
  Await ch kwargs Ret.

Definition show (o : output) : coro unit := Out o (Ret tt).

(** An expression of the coroutine's body that may raise. *)
Definition eval {A} (r : result A) : coro A :=
  match r with
  | Ok a => Ret a
  | Raise e => Throw e
  end.

(** A run of the controlling task: its result and its trace. *)
Definition M (A : Type) : Type := (result A * list event)%type.

#[export] Instance M_ret : MRet M := fun A a => (Ok a, []).
#[export] Instance M_mbind : MBind M := fun A B f m =>
  match m with
  | (Ok a, l) => let '(r, l') := f a in (r, l ++ l')
  | (Raise e, l) => (Raise e, l)
  end.

Definition raise {A} (e : exn) : M A := (Raise e, []).
Definition lift {A} (r : result A) : M A := (r, []).
Definition log (l : list event) : M unit := (Ok tt, l).
Definition emit (o : output) : M unit := log [Shown o].

(** [for x in xs: ...] threading the loop's variables. *)
Fixpoint for_each {X S} (xs : list X) (body : S -> X -> M S) (s : S) : M S :=
  match xs with
  | [] => mret s
  | x :: xs' => s' ← body s x; for_each xs' body s'
  end.

(** The answer to a pending call is delivered and the coroutine goes on
    sequentially; [await] of a coroutine by the controlling task. *)
Fixpoint await {A} (t : coro A) : M A :=
  match t with
  | Ret a => (Ok a, [])
  | Throw e => (Raise e, [])
  | Await ch kwargs k =>
      match generate (chain_llm ch) (prompt ch) kwargs with
      | Text s =>
          let '(r, l) := await (k s) in
          (r, Started ch kwargs :: Finished ch kwargs (Text s) :: l)
      | Fails e => (Raise e, [Started ch kwargs; Finished ch kwargs (Fails e)])
      end
  | Out o k => let '(r, l) := await k in (r, Shown o :: l)
  end.

(** *** [asyncio.gather]

    Each awaitable becomes a task. The tasks first run, in the order
    they were passed, up to their first suspension; from then on the
    answers arrive in an order the program does not control. The
    [completion] list names the tasks in the order their pending calls
    are answered; tasks it leaves pending are answered afterwards in
    task order. The first exception is raised to the caller of
    [gather] at once; otherwise the results are returned in the order of
    the tasks. *)
Inductive task (A : Type) : Type :=
| Done (a : A)
| Failed (e : exn)
| Waiting (ch : LLMChain) (kwargs : dict pyval) (k : string -> coro A).
Arguments Done {A} a.
Arguments Failed {A} e.
Arguments Waiting {A} ch kwargs k.

(** Run a coroutine up to its next suspension. *)
Fixpoint advance {A} (t : coro A) : task A * list event :=
  match t with
  | Ret a => (Done a, [])
  | Throw e => (Failed e, [])
  | Await ch kwargs k => (Waiting ch kwargs k, [Started ch kwargs])
  | Out o k => let '(st, l) := advance k in (st, Shown o :: l)
  end.

(** The answer to the pending call of a waiting task arrives. *)
Definition deliver {A} (ch : LLMChain) (kwargs : dict pyval) (k : string -> coro A)
  : task A * list event :=
  match generate (chain_llm ch) (prompt ch) kwargs with
  | Text s => let '(st, l) := advance (k s) in (st, Finished ch kwargs (Text s) :: l)
  | Fails e => (Failed e, [Finished ch kwargs (Fails e)])
  end.

Fixpoint start_all {A} (ts : list (coro A)) : list (task A) * list event :=
  match ts with
  | [] => ([], [])
  | t :: ts' =>
      let '(st, l) := advance t in
      let '(sts, l') := start_all ts' in
      (st :: sts, l ++ l')
  end.

Fixpoint first_failure {A} (pool : list (task A)) : option exn :=
  match pool with
  | [] => None
  | Failed e :: _ => Some e
  | _ :: pool' => first_failure pool'
  end.

Fixpoint complete {A} (completion : list nat) (pool : list (task A))
  : M (list (task A)) :=
  match completion with
  | [] => (Ok pool, [])
  | i :: rest =>
      match pool !! i with
      | Some (Waiting ch kwargs k) =>
          let '(st, l) := deliver ch kwargs k in
          match st with
          | Failed e => (Raise e, l)
          | _ => let '(r, l') := complete rest (<[i := st]> pool) in (r, l ++ l')
          end
      | _ => complete rest pool
      end
  end.

(** A task left pending is answered and runs to its end. *)
Definition finish {A} (st : task A) : M A :=
  match st with
  | Done a => (Ok a, [])
  | Failed e => (Raise e, [])
  | Waiting ch kwargs k =>
      match generate (chain_llm ch) (prompt ch) kwargs with
      | Text s => let '(r, l) := await (k s) in (r, Finished ch kwargs (Text s) :: l)
      | Fails e => (Raise e, [Finished ch kwargs (Fails e)])
      end
  end.

Fixpoint finish_all {A} (pool : list (task A)) : M (list A) :=
  match pool with
  | [] => mret []
  | st :: pool' => a ← finish st; rest ← finish_all pool'; mret (a :: rest)
  end.

Definition gather {A} (completion : list nat) (ts : list (coro A)) : M (list A) :=
  let '(pool, started) := start_all ts in
  _ ← log started;
  match first_failure pool with
  | Some e => raise e
  | None => pool' ← complete completion pool; finish_all pool'
  end.

(** *** Reading a trace

    A call is told by the input variables of its chain's prompt: the
    expert chains ask for a role and a question, the summary chain for
    the question and the opinions. *)
Definition expert_variables : list string := ["expert_role"; "question"].
Definition summary_variables : list string := ["original_question"; "expert_opinions"].

Definition started (variables : list string) (e : event) : bool :=
  match e with
  | Started ch _ => bool_decide (input_variables (prompt ch) = variables)
  | _ => false
  end.

Definition finished (variables : list string) (e : event) : bool :=
  match e with
  | Finished ch _ _ => bool_decide (input_variables (prompt ch) = variables)
  | _ => false
  end.

Fixpoint count {X} (f : X -> bool) (l : list X) : nat :=
  match l with
  | [] => 0
  | x :: l' => (if f x then 1 else 0) + count f l'
  end.

End Loop.

Arguments Ret {_ A} a.
Arguments Throw {_ A} e.
Arguments Await {_ A} ch kwargs k.
Arguments Out {_ A} o k.
Arguments Done {_ A} a.
Arguments Failed {_ A} e.
Arguments Waiting {_ A} ch kwargs k.

End Asyncio.

(** ** [chatbot.py]: the command-line variant *)

Module Chatbot.
Import Py LangChain Asyncio.

Definition expert_prompt_template : string :=
  "
        あなたは{expert_role}として、以下の質問/トピックについて専門的な意見を提供してください。
        
        質問/トピック: {question}
        
        回答の際は以下の点に注意してください：
        - あなたの専門分野の観点からの分析を提供すること
        - 具体的な根拠や例を示すこと
        - 潜在的な課題や機会を指摘すること
        
        専門家としての意見:
        ".

Definition summary_prompt_template : string :=
  "
        以下は異なる専門家から提供された意見です。これらの意見を統合し、バランスの取れた包括的な結論を導き出してください。
        
        元の質問/トピック: {original_question}
        
        専門家の意見:
        {expert_opinions}
        
        統合された結論:
        1. 主な合意点
        2. 重要な懸念事項
        3. 推奨されるアクション
        4. 追加で検討が必要な点
        
        結論:
        ".

(** The two [PromptTemplate] objects the class builds. *)
Definition expert_prompt : PromptTemplate :=
  {| template := expert_prompt_template;
     input_variables := ["expert_role"; "question"] |}.

Definition summary_prompt : PromptTemplate :=
  {| template := summary_prompt_template;
     input_variables := ["original_question"; "expert_opinions"] |}.

Section Chatbot.
Context `{Backend} `{StrMethods}.

Record ExpertPanelChatbot : Type :=
  { self_llm : llm;
    experts : dict pyval;
    expert_chains : dict LLMChain;
    summary_chain : LLMChain }.

(** [_initialize_expert_chains]: one chain per expert id, all built from
    the same template. *)
Definition initialize_expert_chains (l : llm) (experts : dict pyval) : dict LLMChain :=
  fold_left
    (fun expert_chains '(expert_id, expert_desc) =>
       let prompt := expert_prompt in
       dict_set expert_id {| chain_llm := l; prompt := prompt |} expert_chains)
    experts [].

(** [_initialize_summary_chain] *)
Definition initialize_summary_chain (l : llm) : LLMChain :=
  {| chain_llm := l; prompt := summary_prompt |}.

(** The roster of [__init__]. *)
Definition default_experts : dict pyval :=
  [ ("business_analyst", PStr "ビジネスアナリスト。市場分析、収益性、ビジネス戦略の観点から分析を行う。");
    ("tech_expert", PStr "技術専門家。技術的な実現可能性、必要なリソース、開発期間について分析を行う。");
    ("risk_manager", PStr "リスクマネージャー。法的リスク、セキュリティリスク、運用リスクを評価する。");
    ("customer_advocate", PStr "カスタマーアドボケイト。顧客視点での価値、使いやすさ、需要を評価する。") ].

(** [ExpertPanelChatbot.__init__] *)
Definition init (openai_api_key : string) : result ExpertPanelChatbot :=
  l ← ChatOpenAI (PStr "gpt-4o-mini") (PNum (7 # 10)) openai_api_key;
  mret {| self_llm := l;
          experts := default_experts;
          expert_chains := initialize_expert_chains l default_experts;
          summary_chain := initialize_summary_chain l |}.

(** The block handed to the summary chain: one entry per opinion, in the
    iteration order of the mapping. *)
Definition formatted_opinions (expert_opinions : dict string) : string :=
  join blank_line
    (map (fun '(expert_id, opinion) => upper expert_id +:+ "の意見:" +:+ LF +:+ opinion)
       expert_opinions).

Definition get_expert_opinions (self : ExpertPanelChatbot) (question : string)
  : M (dict string) :=
  for_each (experts self)
    (fun opinions '(expert_id, expert_desc) =>
       chain ← lift (dict_item expert_id (expert_chains self));
       response ← await (arun chain [("expert_role", expert_desc);
                                     ("question", PStr question)]);
       mret (dict_set expert_id response opinions))
    [].

Definition get_integrated_response (self : ExpertPanelChatbot) (question : string)
  : M string :=
  expert_opinions ← get_expert_opinions self question;
  let formatted := formatted_opinions expert_opinions in
  emit (Print formatted);;
  final_response ← await (arun (summary_chain self)
                            [("original_question", PStr question);
                             ("expert_opinions", PStr formatted)]);
  mret final_response.

End Chatbot.
End Chatbot.

(** ** [chatbot2.py]: the first web variant

    Its class has the constructor, the roster, the templates and the
    chains of [chatbot.py]; [get_integrated_response] prints nothing and
    returns the opinions with the conclusion. *)

Module Chatbot2.
Import Py LangChain Asyncio.

Section Chatbot2.
Context `{Backend} `{StrMethods}.

Definition get_expert_opinions (self : Chatbot.ExpertPanelChatbot) (question : string)
  : M (dict string) :=
  for_each (Chatbot.experts self)
    (fun opinions '(expert_id, expert_desc) =>
       chain ← lift (dict_item expert_id (Chatbot.expert_chains self));
       response ← await (arun chain [("expert_role", expert_desc);
                                     ("question", PStr question)]);
       mret (dict_set expert_id response opinions))
    [].

Definition get_integrated_response (self : Chatbot.ExpertPanelChatbot) (question : string)
  : M (string * dict string) :=
  expert_opinions ← get_expert_opinions self question;
  let formatted := Chatbot.formatted_opinions expert_opinions in
  final_response ← await (arun (Chatbot.summary_chain self)
                            [("original_question", PStr question);
                             ("expert_opinions", PStr formatted)]);
  mret (final_response, expert_opinions).

End Chatbot2.
End Chatbot2.

(** ** [chatbot3.py]: the web variant with an editable roster *)

Module Chatbot3.
Import Py LangChain Asyncio.

Section Chatbot3.
Context `{Backend} `{StrMethods}.

Record ExpertPanelChatbot : Type :=
  { self_llm : llm;
    experts : pyval;
    expert_chains : dict LLMChain;
    summary_chain : LLMChain }.

(** [_initialize_expert_chains]; the templates are those of [chatbot.py]. *)
Definition initialize_expert_chains (l : llm) (experts : pyval)
  : result (dict LLMChain) :=
  its ← items experts;
  mret (fold_left
          (fun expert_chains '(expert_id, expert_desc) =>
             let prompt := Chatbot.expert_prompt in
             dict_set expert_id {| chain_llm := l; prompt := prompt |} expert_chains)
          its []).

(** [ExpertPanelChatbot.__init__] *)
Definition init (openai_api_key : string) (experts : pyval) : result ExpertPanelChatbot :=
  l ← ChatOpenAI (PStr "gpt-4o-mini") (PNum (7 # 10)) openai_api_key;
  chains ← initialize_expert_chains l experts;
  mret {| self_llm := l;
          experts := experts;
          expert_chains := chains;
          summary_chain := Chatbot.initialize_summary_chain l |}.

Definition get_expert_opinion (self : ExpertPanelChatbot)
    (expert_id : string) (expert_desc : pyval) (question : string) : coro string :=
  chain ← eval (dict_item expert_id (expert_chains self));
  response ← arun chain [("expert_role", expert_desc); ("question", PStr question)];
  show (Announce "💡 の意見:" expert_id);;
  show (Write response);;
  mret response.

(** [get_integrated_response]. [completion] is the order in which the
    event loop sees the gathered calls answered. *)
Definition get_integrated_response (completion : list nat)
    (self : ExpertPanelChatbot) (question : string) : M (string * dict string) :=
  its ← lift (items (experts self));
  let tasks :=
    map (fun '(expert_id, expert_desc) =>
           get_expert_opinion self expert_id expert_desc question) its in
  opinions ← gather completion tasks;
  ks ← lift (pykeys (experts self));
  let expert_opinions := dict_of_pairs (zip ks opinions) in
  let formatted := Chatbot.formatted_opinions expert_opinions in
  emit (Write "📊 **統合された結論を生成中...**");;
  final_response ← await (arun (summary_chain self)
                            [("original_question", PStr question);
                             ("expert_opinions", PStr formatted)]);
  mret (final_response, expert_opinions).

(** [expert_manager], the export: the document offered for download. *)
Definition export_data (experts : pyval) : Json.file :=
  Some (Json.dumps experts).

(** [expert_manager], the import: the new value of
    [st.session_state.experts] and what is displayed. *)
Definition import_experts (uploaded_file : option Json.file) (experts : pyval)
  : pyval * list output :=
  match uploaded_file with
  | None => (experts, [])
  | Some f =>
      match Json.load f with
      | Ok imported_experts => (imported_experts, [Success "設定がインポートされました！"])
      | Raise e => (experts, [ErrorExn "インポートエラー: " e])
      end
  end.

(** [expert_manager], the state of the roster. What the widgets return
    in one run of the script is given: the form that adds an expert, and
    for every expert id the text area and the two buttons of its
    entry. The roster is mutated in place, so what was done before an
    exception stays done: the functions return the roster and the
    exception that ended the run, if any. What is displayed is left
    out. *)
Record add_form : Type :=
  { new_expert_id : string; new_expert_desc : string; add_clicked : bool }.

Record expert_form : Type :=
  { new_desc : string; update_clicked : bool; delete_clicked : bool }.

Definition add_expert (f : add_form) (experts : pyval) : result pyval :=
  if add_clicked f then
    if truthy (PStr (new_expert_id f)) && truthy (PStr (new_expert_desc f))
    then setitem experts (new_expert_id f) (PStr (new_expert_desc f))
    else Ok experts
  else Ok experts.

(** The entry of one expert: the update button, then the delete button. *)
Definition manage_expert (f : expert_form) (experts : pyval) (expert_id : string)
  : pyval * option exn :=
  match (if update_clicked f
         then setitem experts expert_id (PStr (new_desc f))
         else Ok experts) with
  | Raise e => (experts, Some e)
  | Ok updated =>
      if delete_clicked f then
        match delitem updated expert_id with
        | Ok deleted => (deleted, None)
        | Raise e => (updated, Some e)
        end
      else (updated, None)
  end.

(** [for expert_id, expert_desc in list(st.session_state.experts.items())]:
    the loop runs over a copy of the entries. *)
Fixpoint manage_experts (forms : string -> expert_form) (its : list (string * pyval))
    (experts : pyval) : pyval * option exn :=
  match its with
  | [] => (experts, None)
  | entry :: rest =>
      match manage_expert (forms (fst entry)) experts (fst entry) with
      | (experts', None) => manage_experts forms rest experts'
      | stopped => stopped
      end
  end.

(** The whole of [expert_manager]: the form, the entries, then the
    import of the uploaded file. *)
Definition expert_manager (add : add_form) (forms : string -> expert_form)
    (uploaded_file : option Json.file) (experts : pyval) : pyval * option exn :=
  match add_expert add experts with
  | Raise e => (experts, Some e)
  | Ok added =>
      match items added with
      | Raise e => (added, Some e)
      | Ok its =>
          match manage_experts forms its added with
          | (managed, None) => (fst (import_experts uploaded_file managed), None)
          | stopped => stopped
          end
      end
  end.

(** [main], the transcript: the messages of
    [st.session_state.messages] are those [main] appends, each a role
    and a content; it is drawn again at every run, and both roles are
    drawn by writing the content. *)
Definition message : Type := (string * string)%type.

Definition render (messages : list message) : M unit :=
  for_each messages (fun _ m => emit (Write (snd m))) tt.

(** What the widgets return in one run of the script. *)
Record widgets : Type :=
  { api_key : string;
    add : add_form;
    forms : string -> expert_form;
    uploaded_file : option Json.file;
    chat_input : option string }.

(** [main], the body of [if prompt := st.chat_input(...)], with the
    API key of the sidebar and the roster of the session state. *)
Definition on_prompt (completion : list nat) (api_key : string) (experts : pyval)
    (prompt : string) : M unit :=
  if negb (truthy (PStr api_key)) then
    emit (Error "OpenAI APIキーを設定してください！")
  else if negb (truthy experts) then
    emit (Error "少なくとも1人の専門家を設定してください！")
  else
    emit (Append "user" prompt);;
    emit (Write prompt);;
    chatbot ← lift (init api_key experts);
    '(response, expert_opinions) ← get_integrated_response completion chatbot prompt;
    emit (Write "🎯 **最終的な統合結論:**");;
    emit (Write response);;
    emit (Append "assistant" response).

(** [main]: one run of the script over the session state
    [init_session_state] has filled, that is, the roster [experts] and
    the transcript [messages]. The sidebar runs first, then the
    transcript is drawn, then the chat input is read; an exception ends
    the run where it is raised. The trace holds the box about the API
    key, what is written in the chat area, the messages appended to the
    transcript and the calls to the model; the title, the headings and
    what [expert_manager] displays are left out. The roster the run
    leaves in the session state is the one [expert_manager] leaves. *)
Definition main (completion : list nat) (w : widgets) (experts : pyval)
    (messages : list message) : M unit :=
  (if truthy (PStr (api_key w))
   then emit (Success "APIキーが設定されました！")
   else mret tt);;
  match expert_manager (add w) (forms w) (uploaded_file w) experts with
  | (_, Some e) => raise e
  | (experts, None) =>
      render messages;;
      match chat_input w with
      | None => mret tt
      | Some prompt =>
          if truthy (PStr prompt)
          then on_prompt completion (api_key w) experts prompt
          else mret tt
      end
  end.

End Chatbot3.
End Chatbot3.

(** ** [chatbot4.py]: the web variant with an editable model configuration *)

Module Chatbot4.
Import Py LangChain Asyncio.

Definition expert_prompt_template : string :=
  "
        あなたは{expert_role}として、以下の質問/トピックについて意見を提供してください。
        ユーザーの質問に対してあなたの立場・あなたの観点から徹底的に考察してください。
        わからない部分に関しては、素直に「わからない」と答えてください。
        
        質問/トピック: {question}
        ".

Definition summary_prompt_template : string :=
  "
        以下は異なる専門家から提供された意見です。これらの意見を統合し、バランスの取れた包括的な結論を導き出してください。
        元の質問/トピック: {original_question}
        
        専門家の意見:
        {expert_opinions}
        
        統合された結論:
        1. 主な合意点
        2. 重要な懸念事項
        3. 推奨されるアクション
        4. 追加で検討が必要な点
        
        結論:
        ".

Definition expert_prompt : PromptTemplate :=
  {| template := expert_prompt_template;
     input_variables := ["expert_role"; "question"] |}.

Definition summary_prompt : PromptTemplate :=
  {| template := summary_prompt_template;
     input_variables := ["original_question"; "expert_opinions"] |}.

Section Chatbot4.
Context `{Backend} `{StrMethods} `{Streamlit.Checks}.

Record ExpertPanelChatbot : Type :=
  { self_llm : llm;
    experts : dict pyval;
    expert_chains : dict LLMChain;
    summary_chain : LLMChain }.

Definition initialize_expert_chains (l : llm) (experts : dict pyval) : dict LLMChain :=
  fold_left
    (fun expert_chains '(expert_id, expert_desc) =>
       let prompt := expert_prompt in
       dict_set expert_id {| chain_llm := l; prompt := prompt |} expert_chains)
    experts [].

Definition initialize_summary_chain (l : llm) : LLMChain :=
  {| chain_llm := l; prompt := summary_prompt |}.

(** [ExpertPanelChatbot.__init__]: the client is built from the model
    configuration, then the roster is reduced to the descriptions,
    [{k: v["description"] for k, v in experts.items()}]. *)
Definition init (openai_api_key : string) (experts model_config : pyval)
  : result ExpertPanelChatbot :=
  model_name ← get model_config "model_name" (PStr "gpt-4o-mini");
  temperature ← get model_config "temperature" (PNum (7 # 10));
  l ← ChatOpenAI model_name temperature openai_api_key;
  its ← items experts;
  descriptions ← rmap (fun '(k, v) => d ← getitem v "description"; mret (k, d)) its;
  let self_experts := dict_of_pairs descriptions in
  mret {| self_llm := l;
          experts := self_experts;
          expert_chains := initialize_expert_chains l self_experts;
          summary_chain := initialize_summary_chain l |}.

Definition get_expert_opinion (self : ExpertPanelChatbot)
    (expert_id : string) (expert_desc : pyval) (question : string) : coro string :=
  show (Announce "🤔 が考えています..." expert_id);;
  chain ← eval (dict_item expert_id (expert_chains self));
  response ← arun chain [("expert_role", expert_desc); ("question", PStr question)];
  show (Opinion expert_id response);;
  mret response.

Definition get_integrated_response (self : ExpertPanelChatbot)
    (question : string) (expert_opinions : dict string) : M string :=
  let formatted := Chatbot.formatted_opinions expert_opinions in
  emit (Write "### 🔄 最終的な結論を生成中...");;
  final_response ← await (arun (summary_chain self)
                            [("original_question", PStr question);
                             ("expert_opinions", PStr formatted)]);
  mret final_response.

(** The model configuration the session starts with. *)
Definition default_model_config : pyval :=
  PDict [("model_name", PStr "gpt-4o-mini"); ("temperature", PNum (7 # 10))].

(** [model_config_manager], the select box: the models it offers, and
    the position it starts at,
    [available_models.index(st.session_state.model_config["model_name"])].
    It is evaluated at every run of the script, before the rest of the
    sidebar and before the chat input. *)
Definition available_models : list string := ["gpt-4o-mini"; "gpt-4o"].

Definition selected_index (model_config : pyval) : result nat :=
  model_name ← getitem model_config "model_name";
  list_index available_models model_name.

(** [model_config_manager], the import: the new value of
    [st.session_state.model_config] and what is displayed. The two
    membership tests are Python's [in]; whatever they or [json.load]
    raise is caught and reported. *)
Definition import_model_config (uploaded_file : option Json.file) (model_config : pyval)
  : pyval * list output :=
  match uploaded_file with
  | None => (model_config, [])
  | Some f =>
      let checked : result (pyval * bool) :=
        imported_config ← Json.load f;
        has_name ← contains "model_name" imported_config;
        if has_name : bool
        then has_temperature ← contains "temperature" imported_config;
             mret (imported_config, has_temperature)
        else mret (imported_config, false) in
      match checked with
      | Ok (imported_config, true) =>
          (imported_config, [Success "モデル設定がインポートされました！"])
      | Ok (_, false) => (model_config, [Error "無効な設定ファイルです"])
      | Raise e => (model_config, [ErrorExn "インポートエラー: " e])
      end
  end.

(** [model_config_manager], the state of the configuration. The select
    box and the slider return [selected_model] and [temperature]; both
    are drawn from the configuration first, which raises when the model
    name is not an offered one or Streamlit refuses the temperature.
    A choice that differs from the configuration is saved into it; the
    import comes last. What is displayed is left out. *)
Definition model_config_manager (selected_model : string) (temperature : Q)
    (uploaded_file : option Json.file) (model_config : pyval) : pyval * option exn :=
  let saved : result pyval :=
    _ ← selected_index model_config;
    value ← getitem model_config "temperature";
    _ ← Streamlit.slider value;
    model_name ← getitem model_config "model_name";
    if negb (eq_str selected_model model_name) || negb (eq_num temperature value)
    then named ← setitem model_config "model_name" (PStr selected_model);
         setitem named "temperature" (PNum temperature)
    else mret model_config in
  match saved with
  | Raise e => (model_config, Some e)
  | Ok saved => (fst (import_model_config uploaded_file saved), None)
  end.

(** [expert_manager], the export and the import, as in [chatbot3.py]. *)
Definition export_data (experts : pyval) : Json.file :=
  Some (Json.dumps experts).

Definition import_experts (uploaded_file : option Json.file) (experts : pyval)
  : pyval * list output :=
  match uploaded_file with
  | None => (experts, [])
  | Some f =>
      match Json.load f with
      | Ok imported_experts => (imported_experts, [Success "設定がインポートされました！"])
      | Raise e => (experts, [ErrorExn "インポートエラー: " e])
      end
  end.

(** [expert_manager], the state of the roster, as in [chatbot3.py]:
    the widgets' values of one run are given, the roster and the
    exception that ended the run are returned, and what is displayed is
    left out. An entry is a dict of a description, an avatar and a
    name; the loop reads the three fields of every entry before it
    looks at the buttons. *)
Record add_form : Type :=
  { new_expert_id : string; new_expert_name : string; new_expert_avatar : string;
    new_expert_desc : string; add_clicked : bool }.

Record expert_form : Type :=
  { new_name : string; new_avatar : string; new_desc : string;
    update_clicked : bool; delete_clicked : bool }.

Definition entry_of (desc avatar name : string) : pyval :=
  PDict [("description", PStr desc); ("avatar", PStr avatar); ("name", PStr name)].

Definition add_expert (f : add_form) (experts : pyval) : result pyval :=
  if add_clicked f then
    if forallb (fun s => truthy (PStr s))
         [new_expert_id f; new_expert_name f; new_expert_avatar f; new_expert_desc f]
    then setitem experts (new_expert_id f)
           (entry_of (new_expert_desc f) (new_expert_avatar f) (new_expert_name f))
    else Ok experts
  else Ok experts.

(** The fields the entry of an expert displays, in the order they are
    read. *)
Definition read_entry (expert_info : pyval) : result unit :=
  _ ← getitem expert_info "name";
  _ ← getitem expert_info "avatar";
  _ ← getitem expert_info "description";
  mret tt.

Definition manage_expert (f : expert_form) (experts : pyval) (entry : string * pyval)
  : pyval * option exn :=
  let '(expert_id, expert_info) := entry in
  match read_entry expert_info with
  | Raise e => (experts, Some e)
  | Ok _ =>
      match (if update_clicked f
             then setitem experts expert_id
                    (entry_of (new_desc f) (new_avatar f) (new_name f))
             else Ok experts) with
      | Raise e => (experts, Some e)
      | Ok updated =>
          if delete_clicked f then
            match delitem updated expert_id with
            | Ok deleted => (deleted, None)
            | Raise e => (updated, Some e)
            end
          else (updated, None)
      end
  end.

Fixpoint manage_experts (forms : string -> expert_form) (its : list (string * pyval))
    (experts : pyval) : pyval * option exn :=
  match its with
  | [] => (experts, None)
  | entry :: rest =>
      match manage_expert (forms (fst entry)) experts entry with
      | (experts', None) => manage_experts forms rest experts'
      | stopped => stopped
      end
  end.

Definition expert_manager (add : add_form) (forms : string -> expert_form)
    (uploaded_file : option Json.file) (experts : pyval) : pyval * option exn :=
  match add_expert add experts with
  | Raise e => (experts, Some e)
  | Ok added =>
      match items added with
      | Raise e => (added, Some e)
      | Ok its =>
          match manage_experts forms its added with
          | (managed, None) => (fst (import_experts uploaded_file managed), None)
          | stopped => stopped
          end
      end
  end.

(** The roster the session starts with. *)
Definition default_experts : dict pyval :=
  [ ("graph_specialist",
     entry_of "グラフ構造の専門家。アルゴリズムやネットワークに詳しくいつもその観点でものごとを考えて分析を行う。"
       "🕸️" "グラフ理論専門家");
    ("tech_expert",
     entry_of "技術専門家。技術的な実現可能性、必要なリソース、開発期間について分析を行う。"
       "👨‍💻" "技術アーキテクト");
    ("math_expert",
     entry_of "数学者。幅広い分野において習熟しており、とりわけ応用数学に強みがある。定式化が好き。数学の観点からものごとを分析する。"
       "📐" "応用数学者");
    ("money_hunter",
     entry_of "富豪かつ経済学者。常にそれが資産になるか、あるいはそれが資産になるために何をすべきかを考えて分析する。金融や経済が大好き。"
       "💰" "投資家兼経済学者");
    ("layman_takehashi",
     entry_of "ユーザーと仲のいい友達である竹橋。頭はいいがほとんどの場面において素人で、社会のことがよくわかっていないが、それでもユーザーの質問に対して一生懸命自分の立場から徹底的に考察してくれる。"
       "🙆" "マイフレンド竹橋") ].

(** [main], the transcript: it is drawn again at every run of the
    script, after the sidebar and before the chat input. The messages
    of [st.session_state.messages] are those [main] appends: the
    question, one message per expert with the expert's id, and the
    conclusion. An expert's message is drawn with the avatar and the
    name its id has in the roster now, the avatar being handed to
    [st.chat_message]; a conclusion is drawn with the model
    configuration of now. *)
Inductive message : Type :=
| UserMessage (content : string)
| ExpertMessage (expert_id content : string)
| SummaryMessage (content : string).

Definition render_message (experts model_config : pyval) (m : message) : M unit :=
  match m with
  | UserMessage content => emit (Write content)
  | ExpertMessage expert_id content =>
      expert_info ← lift (getitem experts expert_id);
      avatar ← lift (getitem expert_info "avatar");
      lift (Streamlit.chat_message avatar);;
      name ← lift (getitem expert_info "name");
      emit (WriteVal "の分析:" name);;
      emit (Write content)
  | SummaryMessage content =>
      emit (Write "**統合された結論:**");;
      emit (Write content);;
      used_model ← lift (getitem model_config "model_name");
      used_temperature ← lift (getitem model_config "temperature");
      emit (WriteVal "使用モデル:" used_model);;
      emit (WriteVal "Temperature:" used_temperature)
  end.

Definition render (experts model_config : pyval) (messages : list message) : M unit :=
  for_each messages (fun _ m => render_message experts model_config m) tt.

(** One turn of the loop of [main] over the roster: the expert's
    display fields are read, the avatar is handed to [st.chat_message],
    the opinion is awaited and recorded. *)
Definition ask_expert (chatbot : ExpertPanelChatbot) (prompt : string)
    (expert_opinions : dict string) (entry : string * pyval) : M (dict string) :=
  let '(expert_id, expert_info) := entry in
  name ← lift (getitem expert_info "name");
  avatar ← lift (getitem expert_info "avatar");
  lift (Streamlit.chat_message avatar);;
  emit (WriteVal "💭 が分析中..." name);;
  expert_desc ← lift (getitem expert_info "description");
  opinion ← await (get_expert_opinion chatbot expert_id expert_desc prompt);
  emit (WriteVal "の分析:" name);;
  emit (Write opinion);;
  emit (Append "expert" opinion);;
  mret (dict_set expert_id opinion expert_opinions).

(** What the widgets return in one run of the script. *)
Record widgets : Type :=
  { api_key : string;
    selected_model : string;
    temperature : Q;
    config_file : option Json.file;
    add : add_form;
    forms : string -> expert_form;
    experts_file : option Json.file;
    chat_input : option string }.

(** [main], the body of [if prompt := st.chat_input(...)], with the
    API key of the sidebar and the roster and the model configuration
    of the session state. *)
Definition on_prompt (api_key : string) (experts model_config : pyval)
    (prompt : string) : M unit :=
  if negb (truthy (PStr api_key)) then
    emit (Error "OpenAI APIキーを設定してください！")
  else if negb (truthy experts) then
    emit (Error "少なくとも1人の専門家を設定してください！")
  else
    emit (Append "user" prompt);;
    emit (Write prompt);;
    chatbot ← lift (init api_key experts model_config);
    its ← lift (items experts);
    expert_opinions ← for_each its (ask_expert chatbot prompt) [];
    final_response ← get_integrated_response chatbot prompt expert_opinions;
    emit (Append "summary" final_response);;
    emit (Write "**統合された結論:**");;
    emit (Write final_response);;
    used_model ← lift (getitem model_config "model_name");
    used_temperature ← lift (getitem model_config "temperature");
    emit (WriteVal "使用モデル:" used_model);;
    emit (WriteVal "Temperature:" used_temperature).

(** [main]: one run of the script over the session state
    [init_session_state] has filled, that is, the roster [experts], the
    configuration [model_config] and the transcript [messages]. The
    two tabs of the sidebar run first, then the transcript is drawn,
    then the chat input is read; an exception ends the run where it is
    raised. The trace holds the box about the API key, what is written
    in the chat area, the messages appended to the transcript and the
    calls to the model; the title, the headings and what the two
    managers display are left out. The configuration and the roster
    the run leaves in the session state are those the two managers
    leave. *)
Definition main (w : widgets) (experts model_config : pyval)
    (messages : list message) : M unit :=
  (if truthy (PStr (api_key w))
   then emit (Success "APIキーが設定されました！")
   else mret tt);;
  match model_config_manager (selected_model w) (temperature w) (config_file w)
          model_config with
  | (_, Some e) => raise e
  | (model_config, None) =>
      match expert_manager (add w) (forms w) (experts_file w) experts with
      | (_, Some e) => raise e
      | (experts, None) =>
          render experts model_config messages;;
          match chat_input w with
          | None => mret tt
          | Some prompt =>
              if truthy (PStr prompt)
              then on_prompt (api_key w) experts model_config prompt
              else mret tt
          end
      end
  end.

End Chatbot4.
End Chatbot4.

(** ** The vocabulary of the statements, and the conditions the
    specification words differently from the code *)

Module Spec.
Import Py LangChain Asyncio.

Section Vocabulary.
Context `{Backend} `{StrMethods}.


(** "The formatted block appears in the prompt preceding the question
    text": some occurrence of the block is followed by the question. *)
Definition precedes (block question prompt : string) : Prop :=
  exists before between after,
    prompt = before +:+ block +:+ between +:+ question +:+ after.

(** "Blocks, each headed by the uppercased identifier followed by the
    opinion text, separated by a blank line". *)
Definition block (entry : string * string) : string :=
  upper (fst entry) +:+ "の意見:" +:+ LF +:+ snd entry.

Fixpoint blocks (opinions : list (string * string)) : string :=
  match opinions with
  | [] => ""
  | [entry] => block entry
  | entry :: rest => block entry +:+ LF +:+ LF +:+ blocks rest
  end.

(** "The calls are launched concurrently, not awaited one after
    another": no expert call is started once an expert call has been
    answered. *)
Fixpoint launched_together (trace : list event) : bool :=
  match trace with
  | [] => true
  | e :: rest =>
      if finished expert_variables e
      then Nat.eqb (count (started expert_variables) rest) 0
      else launched_together rest
  end.

(** "Exactly N expert calls and exactly one synthesis call are made, and
    the synthesis call begins only after all N expert calls have
    completed": the trace splits into a part that holds the N answers
    and no start of the synthesis call, and a part in which no expert
    call is started. *)
Definition two_phases (n : nat) (trace : list event) : Prop :=
  count (started expert_variables) trace = n
  /\ count (started summary_variables) trace = 1
  /\ exists before after,
       trace = before ++ after
       /\ count (finished expert_variables) before = n
       /\ count (started summary_variables) before = 0
       /\ count (started expert_variables) after = 0.

(** An expert's call: the chain every expert id is given, the keyword
    arguments of the call for an entry of the roster, and the model's
    answer to it, the expert's own opinion. *)
Definition expert_chain (l : llm) : LLMChain :=
  {| chain_llm := l; prompt := Chatbot.expert_prompt |}.

Definition expert_kwargs (question : string) (entry : string * pyval) : dict pyval :=
  [("expert_role", snd entry); ("question", PStr question)].

Definition opinion_of (l : llm) (question : string) (entry : string * pyval)
  : response :=
  generate l Chatbot.expert_prompt (expert_kwargs question entry).

(** The model answers the call for an entry with a text. *)
Definition answers (l : llm) (question : string) (entry : string * pyval) : Prop :=
  exists s, opinion_of l question entry = Text s.

(** In [chatbot3.py] an expert's coroutine, once its call is answered,
    displays the opinion and returns it; [pending_expert] is its task
    while the call is pending and [delivery] the trace of the answer's
    arrival. A task of the pool is [settled] when it still waits for its
    answer or holds the text the model answered. *)
Definition display_opinion (entry : string * pyval) (response : string) : coro string :=
  Out (Announce "💡 の意見:" (fst entry)) (Out (Write response) (Ret response)).

Definition pending_expert (l : llm) (question : string) (entry : string * pyval)
  : task string :=
  Waiting (expert_chain l) (expert_kwargs question entry) (display_opinion entry).

Definition delivery (l : llm) (question : string) (entry : string * pyval)
  : list event :=
  [Finished (expert_chain l) (expert_kwargs question entry) (opinion_of l question entry);
   Shown (Announce "💡 の意見:" (fst entry));
   Shown (Write (text_of (opinion_of l question entry)))].

Definition failure (l : llm) (question : string) (entry : string * pyval)
  : list event :=
  [Finished (expert_chain l) (expert_kwargs question entry) (opinion_of l question entry)].

Definition settled (l : llm) (question : string)
    (entry : string * pyval) (st : task string) : Prop :=
  st = pending_expert l question entry
  \/ exists s, opinion_of l question entry = Text s /\ st = Done s.

Definition is_waiting {A} (st : task A) : bool :=
  match st with
  | Waiting _ _ _ => true
  | _ => false
  end.

(** The keyword arguments of the summary call and the model's answer. *)
Definition summary_kwargs (question block : string) : dict pyval :=
  [("original_question", PStr question); ("expert_opinions", PStr block)].

Definition summary_of (l : llm) (question block : string) : response :=
  generate l Chatbot.summary_prompt (summary_kwargs question block).

(** An entry of the collected opinions pairs the identifier of a roster
    entry with the text the model answered to that entry's call. *)
Definition own_opinion (l : llm) (question : string)
    (entry : string * pyval) (collected : string * string) : Prop :=
  fst collected = fst entry /\ opinion_of l question entry = Text (snd collected).

(** "An entry has the required description field". *)
Definition has_description (v : pyval) : Prop :=
  exists fields d, v = PDict fields /\ dict_get "description" fields = Some d.

End Vocabulary.

End Spec.

(** ** The vocabulary of the statements on the sidebar and on the
    panel of [chatbot4.py] *)

Module Roster.
Import Py LangChain Asyncio.

(** What the entry of an expert becomes in one run of the sidebar of
    [chatbot3.py]: dropped when its delete button is clicked, replaced
    by the text of its area when its update button is, kept
    otherwise. *)
Definition edited3 (forms : string -> Chatbot3.expert_form) (entry : string * pyval)
  : option (string * pyval) :=
  let f := forms (fst entry) in
  if Chatbot3.delete_clicked f then None
  else if Chatbot3.update_clicked f then Some (fst entry, PStr (Chatbot3.new_desc f))
  else Some entry.

(** The same for [chatbot4.py]. *)
Definition edited4 (forms : string -> Chatbot4.expert_form) (entry : string * pyval)
  : option (string * pyval) :=
  let f := forms (fst entry) in
  if Chatbot4.delete_clicked f then None
  else if Chatbot4.update_clicked f
       then Some (fst entry,
                  Chatbot4.entry_of (Chatbot4.new_desc f) (Chatbot4.new_avatar f)
                    (Chatbot4.new_name f))
  else Some entry.

(** An entry of the roster of [chatbot4.py] that has its three fields. *)
Definition complete_entry (v : pyval) : Prop :=
  exists fields d a n,
    v = PDict fields
    /\ dict_get "description" fields = Some d
    /\ dict_get "avatar" fields = Some a
    /\ dict_get "name" fields = Some n.

Definition complete (experts : dict pyval) : Prop :=
  Forall (fun kv => complete_entry (snd kv)) experts.

(** A field of an entry, [None] when the entry does not have it. *)
Definition field (key : string) (v : pyval) : pyval :=
  match getitem v key with
  | Ok x => x
  | Raise _ => PNone
  end.

(** The roster after the form that adds an expert was submitted:
    [k] holds [v]; it keeps its place if it was there and comes last
    otherwise; the other entries are as before. *)
Definition assigned (k : string) (v : pyval) (before after : dict pyval) : Prop :=
  dict_get k after = Some v
  /\ keys after = (if dict_get k before is Some _ then keys before else keys before ++ [k])
  /\ forall k', k' <> k -> dict_get k' after = dict_get k' before.

Section Panel.
Context `{Backend}.

(** The calls of [chatbot4.py]: the chain of every expert, the keyword
    arguments of the call for an entry of the roster, the model's
    answer to it, and the same for the summary. *)
Definition expert_chain (l : llm) : LLMChain :=
  {| chain_llm := l; prompt := Chatbot4.expert_prompt |}.

Definition expert_kwargs (question : string) (entry : string * pyval) : dict pyval :=
  [("expert_role", field "description" (snd entry)); ("question", PStr question)].

Definition opinion_of (l : llm) (question : string) (entry : string * pyval) : response :=
  generate l Chatbot4.expert_prompt (expert_kwargs question entry).

Definition answers (l : llm) (question : string) (entry : string * pyval) : Prop :=
  exists s, opinion_of l question entry = Text s.

Definition summary_chain (l : llm) : LLMChain :=
  {| chain_llm := l; prompt := Chatbot4.summary_prompt |}.

Definition summary_of (l : llm) (question block : string) : response :=
  generate l Chatbot4.summary_prompt (Spec.summary_kwargs question block).

(** The call of an expert and its answer, as the trace shows them. *)
Definition call (l : llm) (question : string) (entry : string * pyval) : list event :=
  [Started (expert_chain l) (expert_kwargs question entry);
   Finished (expert_chain l) (expert_kwargs question entry) (opinion_of l question entry)].

(** The turn of an answering expert in [main] of [chatbot4.py]: what
    is displayed around its call, and the message appended to the
    transcript. *)
Definition turn (l : llm) (question : string) (entry : string * pyval) : list event :=
  let opinion := text_of (opinion_of l question entry) in
  [Shown (WriteVal "💭 が分析中..." (field "name" (snd entry)));
   Shown (Announce "🤔 が考えています..." (fst entry))]
  ++ call l question entry
  ++ [Shown (Opinion (fst entry) opinion);
      Shown (WriteVal "の分析:" (field "name" (snd entry)));
      Shown (Write opinion);
      Shown (Append "expert" opinion)].

(** The events of a trace that are calls to the model or their
    answers. *)
Definition is_call (e : event) : bool :=
  match e with
  | Shown _ => false
  | _ => true
  end.

(** No event of the trace is a call to the model. *)
Definition silent (trace : list event) : Prop :=
  Forall (fun e => is_call e = false) trace.

(** The box [main] shows in the sidebar when an API key is typed in. *)
Definition key_box (api_key : string) : list event :=
  if String.eqb api_key "" then [] else [Shown (Success "APIキーが設定されました！")].

(** Streamlit accepts the avatar of an entry. *)
Definition presentable `{Streamlit.Checks} (entry : string * pyval) : Prop :=
  Streamlit.chat_message (field "avatar" (snd entry)) = Ok tt.

(** The messages a run appends to the transcript, as role and
    content. *)
Definition appended (trace : list event) : list (string * string) :=
  omap (fun e => match e with
                 | Shown (Append role content) => Some (role, content)
                 | _ => None
                 end) trace.

End Panel.

End Roster.

(** ** Stand-ins for the examples: a model that always answers, a model
    that fails for one persona, ASCII upper-casing, two small rosters *)

Module Stub.
Import Py LangChain Asyncio.

(** An expert's answer is its description followed by [": yes"]; the
    summary chain answers ["summary"]. *)
Definition yes_backend : Backend :=
  {| llm := unit;
     ChatOpenAI := fun _ _ _ => Ok tt;
     generate := fun _ _ kwargs =>
       match dict_get "expert_role" kwargs with
       | Some (PStr d) => Text (d +:+ ": yes")
       | Some _ => Text "yes"
       | None => Text "summary"
       end |}.

(** The same, but the call for the persona [persona] times out. *)
Definition failing_backend (persona : string) : Backend :=
  {| llm := unit;
     ChatOpenAI := fun _ _ _ => Ok tt;
     generate := fun _ _ kwargs =>
       match dict_get "expert_role" kwargs with
       | Some (PStr d) =>
           if String.eqb d persona then Fails (InvokerError "timeout")
           else Text (d +:+ ": yes")
       | Some _ => Text "yes"
       | None => Text "summary"
       end |}.

Definition upper_ascii (c : ascii) : ascii :=
  let n := nat_of_ascii c in
  if ((97 <=? n) && (n <=? 122))%nat then ascii_of_nat (n - 32) else c.

Fixpoint upper_string (s : string) : string :=
  match s with
  | EmptyString => EmptyString
  | String c s' => String (upper_ascii c) (upper_string s')
  end.

(** [str.upper] on ASCII text. *)
Definition ascii_upper : StrMethods := {| upper := upper_string |}.

(** The roster of the scenario: two experts. *)
Definition pets : dict pyval :=
  [("a", PStr "loves cats"); ("b", PStr "loves dogs")].

(** A roster in the format of [chatbot4.py]. *)
Definition pets4 : dict pyval :=
  [("a", PDict [("description", PStr "loves cats"); ("avatar", PStr "C"); ("name", PStr "Cat person")]);
   ("b", PDict [("description", PStr "loves dogs"); ("avatar", PStr "D"); ("name", PStr "Dog person")])].

(** The objects the constructors build from these, given the client. *)
Definition cli `{Backend} (l : llm) : Chatbot.ExpertPanelChatbot :=
  {| Chatbot.self_llm := l;
     Chatbot.experts := Chatbot.default_experts;
     Chatbot.expert_chains := Chatbot.initialize_expert_chains l Chatbot.default_experts;
     Chatbot.summary_chain := Chatbot.initialize_summary_chain l |}.

Definition web `{Backend} (l : llm) (es : dict pyval) : Chatbot3.ExpertPanelChatbot :=
  {| Chatbot3.self_llm := l;
     Chatbot3.experts := PDict es;
     Chatbot3.expert_chains := Chatbot.initialize_expert_chains l es;
     Chatbot3.summary_chain := Chatbot.initialize_summary_chain l |}.

(** One run of the sidebar: the form adds the expert ["c"], the delete
    button of ["a"] and the update button of ["b"] are clicked. *)
Definition add3 : Chatbot3.add_form :=
  {| Chatbot3.new_expert_id := "c"; Chatbot3.new_expert_desc := "loves fish";
     Chatbot3.add_clicked := true |}.

Definition forms3 (expert_id : string) : Chatbot3.expert_form :=
  {| Chatbot3.new_desc := "loves birds";
     Chatbot3.update_clicked := String.eqb expert_id "b";
     Chatbot3.delete_clicked := String.eqb expert_id "a" |}.

Definition add4 : Chatbot4.add_form :=
  {| Chatbot4.new_expert_id := "c"; Chatbot4.new_expert_name := "Fish person";
     Chatbot4.new_expert_avatar := "F"; Chatbot4.new_expert_desc := "loves fish";
     Chatbot4.add_clicked := true |}.

Definition forms4 (expert_id : string) : Chatbot4.expert_form :=
  {| Chatbot4.new_name := "Bird person"; Chatbot4.new_avatar := "B";
     Chatbot4.new_desc := "loves birds";
     Chatbot4.update_clicked := String.eqb expert_id "b";
     Chatbot4.delete_clicked := String.eqb expert_id "a" |}.

(** A form that is not submitted. *)
Definition idle4 : Chatbot4.add_form :=
  {| Chatbot4.new_expert_id := ""; Chatbot4.new_expert_name := "";
     Chatbot4.new_expert_avatar := ""; Chatbot4.new_expert_desc := "";
     Chatbot4.add_clicked := false |}.

(** A run of the sidebar in which only the delete button of ["a"] is
    clicked. *)
Definition drop4 (expert_id : string) : Chatbot4.expert_form :=
  {| Chatbot4.new_name := ""; Chatbot4.new_avatar := ""; Chatbot4.new_desc := "";
     Chatbot4.update_clicked := false;
     Chatbot4.delete_clicked := String.eqb expert_id "a" |}.

(** An entry without a name, and a roster that holds it. *)
Definition nameless : pyval :=
  PDict [("description", PStr "loves dogs"); ("avatar", PStr "D")].

Definition strays : dict pyval :=
  [("a", PDict [("description", PStr "loves cats"); ("avatar", PStr "C");
                ("name", PStr "Cat person")]);
   ("b", nameless);
   ("c", PDict [("description", PStr "loves fish"); ("avatar", PStr "F");
                ("name", PStr "Fish person")])].

(** The object the constructor of [chatbot4.py] builds from a roster. *)
Definition web4 `{Backend} (l : llm) (es : dict pyval) : Chatbot4.ExpertPanelChatbot :=
  let descriptions := map (fun e => (fst e, Roster.field "description" (snd e))) es in
  {| Chatbot4.self_llm := l;
     Chatbot4.experts := descriptions;
     Chatbot4.expert_chains := Chatbot4.initialize_expert_chains l descriptions;
     Chatbot4.summary_chain := Chatbot4.initialize_summary_chain l |}.

(** Streamlit's checks on the values of the examples: a few emoji and
    no avatar at all are accepted, a temperature between 0 and 2 is
    accepted. *)
Definition emoji : list string := ["🐱"; "🐶"; "🐟"].

Definition checks : Streamlit.Checks :=
  {| Streamlit.chat_message := fun avatar =>
       match avatar with
       | PNone => Ok tt
       | PStr s => if existsb (String.eqb s) emoji then Ok tt else Raise StreamlitAPIException
       | _ => Raise StreamlitAPIException
       end;
     Streamlit.slider := fun value =>
       match value with
       | PNum q => if Qle_bool 0 q && Qle_bool q 2 then Ok tt else Raise StreamlitAPIException
       | _ => Raise StreamlitAPIException
       end |}.

(** A roster in the format of [chatbot4.py] whose avatars are emoji. *)
Definition zoo : dict pyval :=
  [("a", PDict [("description", PStr "loves cats"); ("avatar", PStr "🐱");
                ("name", PStr "Cat person")]);
   ("b", PDict [("description", PStr "loves dogs"); ("avatar", PStr "🐶");
                ("name", PStr "Dog person")])].

(** A snapshot whose second entry has no description. *)
Definition undescribed : pyval := PDict [("name", PStr "Fish person"); ("avatar", PStr "🐟")].

Definition shoal : dict pyval :=
  [("a", PDict [("description", PStr "loves cats"); ("avatar", PStr "🐱");
                ("name", PStr "Cat person")]);
   ("c", undescribed)].

(** Runs of the script in which no button of the sidebar is clicked:
    the API key, the uploaded roster and the chat input are given. *)
Definition idle3 : Chatbot3.add_form :=
  {| Chatbot3.new_expert_id := ""; Chatbot3.new_expert_desc := "";
     Chatbot3.add_clicked := false |}.

Definition still3 (expert_id : string) : Chatbot3.expert_form :=
  {| Chatbot3.new_desc := ""; Chatbot3.update_clicked := false;
     Chatbot3.delete_clicked := false |}.

Definition still4 (expert_id : string) : Chatbot4.expert_form :=
  {| Chatbot4.new_name := ""; Chatbot4.new_avatar := ""; Chatbot4.new_desc := "";
     Chatbot4.update_clicked := false; Chatbot4.delete_clicked := false |}.

Definition run3 (api_key : string) (uploaded_file : option Json.file)
    (chat_input : option string) : Chatbot3.widgets :=
  {| Chatbot3.api_key := api_key; Chatbot3.add := idle3; Chatbot3.forms := still3;
     Chatbot3.uploaded_file := uploaded_file; Chatbot3.chat_input := chat_input |}.

Definition run4 (api_key : string) (experts_file : option Json.file)
    (chat_input : option string) : Chatbot4.widgets :=
  {| Chatbot4.api_key := api_key;
     Chatbot4.selected_model := "gpt-4o-mini"; Chatbot4.temperature := 7 # 10;
     Chatbot4.config_file := None;
     Chatbot4.add := idle4; Chatbot4.forms := still4;
     Chatbot4.experts_file := experts_file; Chatbot4.chat_input := chat_input |}.

(** The persona of the second expert of [chatbot.py]. *)
Definition tech_persona : string :=
  "技術専門家。技術的な実現可能性、必要なリソース、開発期間について分析を行う。".

End Stub.

(* ===================================================================== *)
(** * Part II: properties                                                 *)
(* ===================================================================== *)

Import Py LangChain Asyncio.

(** ** Dictionaries *)

Section DictFacts.
Context {V : Type}.
Implicit Types (d : dict V) (k : string) (v : V).

Lemma dict_set_fresh k v d : k ∉ keys d -> dict_set k v d = d ++ [(k, v)].
Proof.
  induction d as [|[k' v'] d IH]; simpl; [done|].
  intros Hn. destruct (String.eqb_spec k' k) as [->|Hne].
  - exfalso. apply Hn. left.
  - f_equal. apply IH. intros Hin. apply Hn. by right.
Qed.

Lemma fold_dict_set_fresh (l acc : dict V) :
  NoDup (keys (acc ++ l)) ->
  fold_left (fun d kv => dict_set (fst kv) (snd kv) d) l acc = acc ++ l.
Proof.
  revert acc. induction l as [|[k v] l IH]; intros acc Hnd; simpl.
  - by rewrite app_nil_r.
  - rewrite dict_set_fresh.
    + rewrite IH; rewrite <- app_assoc; [done | exact Hnd].
    + unfold keys in *. rewrite map_app in Hnd. simpl in Hnd.
      apply NoDup_app in Hnd as (_ & Hdisj & _).
      intros Hin. apply (Hdisj k Hin). left.
Qed.

(** Building a dict from pairs whose keys are already distinct changes
    neither the pairs nor their order. *)
Lemma dict_of_pairs_nodup (l : dict V) : NoDup (keys l) -> dict_of_pairs l = l.
Proof. intros Hnd. unfold dict_of_pairs. by rewrite fold_dict_set_fresh. Qed.

End DictFacts.

(** ** Snapshots: [json.dumps] then [json.load] *)

Lemma value_of_dumps (v : pyval) : wf v -> Json.value_of (Json.dumps v) = v.
Proof.
  induction v as [| | | |xs IH|d IH] using pyval_nested_ind; intros Hwf; simpl; try done.
  - f_equal. inversion Hwf as [| | | |? Hall|]; subst. clear Hwf.
    rewrite map_map.
    induction IH as [|x xs Hx _ IHxs]; simpl; [done|].
    apply Forall_cons in Hall as [Hwx Hall]. f_equal; auto.
  - f_equal. inversion Hwf as [| | | | |? Hnd Hall]; subst.
    rewrite map_map. simpl.
    assert (Hid : map (fun kv : string * pyval =>
                         (fst kv, Json.value_of (Json.dumps (snd kv)))) d = d).
    { clear Hnd Hwf. induction IH as [|[k x] d Hx _ IHd]; simpl; [done|].
      apply Forall_cons in Hall as [Hwx Hall]. simpl in *.
      f_equal; [f_equal|]; auto. }
    rewrite Hid. by apply dict_of_pairs_nodup.
Qed.

(** A file written by the export is read back as the value exported. *)
Lemma load_dumps (v : pyval) : wf v -> Json.load (Some (Json.dumps v)) = Ok v.
Proof. intros Hwf. simpl. by rewrite value_of_dumps. Qed.

(** C7. Importing the snapshot produced by exporting a roster yields
    that roster again: the same identifiers, the same descriptions and
    display fields, in the same iteration order, in [chatbot3.py] and in
    [chatbot4.py], whatever the session held before the import. The
    roster is any value of the session state whose dicts have unique
    keys, as every Python dict has. *)
Theorem import_export_roundtrip (experts before : pyval) :
  wf experts ->
  fst (Chatbot3.import_experts (Some (Chatbot3.export_data experts)) before) = experts
  /\ fst (Chatbot4.import_experts (Some (Chatbot4.export_data experts)) before) = experts.
Proof.
  intros Hwf.
  unfold Chatbot3.import_experts, Chatbot3.export_data,
    Chatbot4.import_experts, Chatbot4.export_data.
  rewrite (load_dumps _ Hwf). by split.
Qed.

(** The sample roster is a well-formed value. *)
Lemma wf_pets4 : wf (PDict Stub.pets4).
Proof.
  assert (Hfields : forall d a n : string,
            wf (PDict [("description", PStr d); ("avatar", PStr a); ("name", PStr n)])).
  { intros d a n. apply wf_dict.
    - apply (bool_decide_unpack _). vm_compute. exact I.
    - repeat (apply List.Forall_cons; [apply wf_str|]). apply List.Forall_nil. }
  apply wf_dict.
  - apply (bool_decide_unpack _). vm_compute. exact I.
  - repeat (apply List.Forall_cons; [apply Hfields|]). apply List.Forall_nil.
Defined.

(** The round trip on a roster in the format of [chatbot4.py]. *)
Lemma import_export_roundtrip_witness :
  wf (PDict Stub.pets4)
  /\ fst (Chatbot3.import_experts (Some (Chatbot3.export_data (PDict Stub.pets4))) PNone)
     = PDict Stub.pets4
  /\ fst (Chatbot4.import_experts (Some (Chatbot4.export_data (PDict Stub.pets4))) PNone)
     = PDict Stub.pets4.
Proof.
  split; [exact wf_pets4|].
  apply (import_export_roundtrip (PDict Stub.pets4) PNone). exact wf_pets4.
Defined.

(** ** Importing a roster *)

(** C8, as the code has it. The import of a roster is all-or-nothing:
    a file that is not JSON is reported and leaves the roster as it was;
    any JSON document replaces the whole roster by its value, whatever
    its structure. No structural check is made. *)
Theorem import_experts_all_or_nothing (f : Json.file) (before : pyval) :
  Chatbot3.import_experts (Some f) before =
    match f with
    | None => (before, [ErrorExn "インポートエラー: " JSONDecodeError])
    | Some j => (Json.value_of j, [Success "設定がインポートされました！"])
    end
  /\ Chatbot4.import_experts (Some f) before =
    match f with
    | None => (before, [ErrorExn "インポートエラー: " JSONDecodeError])
    | Some j => (Json.value_of j, [Success "設定がインポートされました！"])
    end.
Proof. by destruct f. Qed.

(** C8, as stated, fails: a snapshot whose entry has no description is
    imported without any error and replaces the roster. *)
Lemma import_experts_accepts_missing_description :
  let snapshot := Json.JObj [("a", Json.JObj [("name", Json.JStr "A"); ("avatar", Json.JStr "x")])] in
  let imported := PDict [("a", PDict [("name", PStr "A"); ("avatar", PStr "x")])] in
  Chatbot4.import_experts (Some (Some snapshot)) (PDict Stub.pets4)
    = (imported, [Success "設定がインポートされました！"])
  /\ imported <> PDict Stub.pets4
  /\ ~ Spec.has_description (PDict [("name", PStr "A"); ("avatar", PStr "x")]).
Proof.
  split; [reflexivity|]. split; [discriminate|].
  intros (fields & d & [= <-] & Hget). discriminate.
Qed.

(** ** Importing a model configuration *)

Lemma dict_get_set {V} (k k' : string) (v : V) (d : dict V) :
  dict_get k (dict_set k' v d) = if String.eqb k' k then Some v else dict_get k d.
Proof.
  induction d as [|[k0 v0] d IH]; simpl.
  - done.
  - destruct (String.eqb_spec k0 k') as [->|Hne]; simpl.
    + by destruct (String.eqb_spec k' k).
    + destruct (String.eqb_spec k0 k) as [->|Hne']; simpl.
      * by destruct (String.eqb_spec k' k) as [->|].
      * done.
Qed.

(** A name is bound in the dict of a document's members exactly when
    some member has that name. *)
Lemma dict_get_of_pairs_members {V} (k : string) (l acc : dict V) :
  match dict_get k (fold_left (fun d kv => dict_set (fst kv) (snd kv) d) l acc) with
  | Some _ => true
  | None => false
  end
  = existsb (fun kv => String.eqb (fst kv) k) l
    || match dict_get k acc with Some _ => true | None => false end.
Proof.
  revert acc. induction l as [|[k' v] l IH]; intros acc; simpl; [done|].
  rewrite IH, dict_get_set.
  destruct (String.eqb k' k); simpl; [by rewrite orb_true_r | done].
Qed.

Lemma contains_value_of_object (field : string) (members : list (string * Json.doc)) :
  contains field (Json.value_of (Json.JObj members)) = Ok (Json.names field members).
Proof.
  simpl. unfold dict_of_pairs. rewrite dict_get_of_pairs_members.
  simpl. rewrite orb_false_r. f_equal. unfold Json.names.
  induction members as [|[k j] members IH]; simpl; [done|]. by rewrite IH.
Qed.




(** ** The collector of [chatbot.py]: one call after another *)

Section Sequential.
Context `{Backend} `{StrMethods}.

Lemma await_arun (ch : LLMChain) (kwargs : dict pyval) :
  await (arun ch kwargs) =
    match generate (chain_llm ch) (prompt ch) kwargs with
    | Text s => (Ok s, [Started ch kwargs; Finished ch kwargs (Text s)])
    | Fails e => (Raise e, [Started ch kwargs; Finished ch kwargs (Fails e)])
    end.
Proof. reflexivity. Qed.

Lemma await_expert (l : llm) (question : string) (e : string * pyval) :
  await (arun (Spec.expert_chain l) (Spec.expert_kwargs question e)) =
    match Spec.opinion_of l question e with
    | Text s =>
        (Ok s, [Started (Spec.expert_chain l) (Spec.expert_kwargs question e);
                Finished (Spec.expert_chain l) (Spec.expert_kwargs question e) (Text s)])
    | Fails x =>
        (Raise x, [Started (Spec.expert_chain l) (Spec.expert_kwargs question e);
                   Finished (Spec.expert_chain l) (Spec.expert_kwargs question e) (Fails x)])
    end.
Proof. reflexivity. Qed.

Lemma expert_chains_lookup (l : llm) (es : dict pyval) (id : string) :
  id ∈ keys es ->
  dict_item id (Chatbot.initialize_expert_chains l es) = Ok (Spec.expert_chain l).
Proof.
  unfold Chatbot.initialize_expert_chains, dict_item.
  assert (Hgen : forall acc : dict LLMChain,
    (id ∈ keys es \/ dict_get id acc = Some (Spec.expert_chain l)) ->
    dict_get id (fold_left
      (fun expert_chains '(expert_id, _) =>
         let prompt := Chatbot.expert_prompt in
         dict_set expert_id {| chain_llm := l; prompt := prompt |} expert_chains) es acc)
    = Some (Spec.expert_chain l)).
  { induction es as [|[k v] es IH]; intros acc [Hin|Hacc]; simpl.
    - inversion Hin.
    - done.
    - apply IH. apply elem_of_cons in Hin as [->|Hin]; [right|by left].
      rewrite dict_get_set. by rewrite String.eqb_refl.
    - apply IH. right. rewrite dict_get_set.
      destruct (String.eqb k id); [done | exact Hacc]. }
  intros Hin. by rewrite Hgen; [|left].
Qed.

(** The loop of [get_expert_opinions] over a part of the roster, when
    every call of that part is answered. *)
Lemma collect_loop (chains : dict LLMChain) (l : llm) (question : string)
    (es : dict pyval) (acc : dict string) :
  (forall e, e ∈ es -> dict_item (fst e) chains = Ok (Spec.expert_chain l)) ->
  Forall (Spec.answers l question) es ->
  for_each es
    (fun opinions '(expert_id, expert_desc) =>
       chain ← lift (dict_item expert_id chains);
       response ← await (arun chain [("expert_role", expert_desc);
                                     ("question", PStr question)]);
       mret (dict_set expert_id response opinions)) acc
  = (Ok (fold_left (fun d kv => dict_set (fst kv) (snd kv) d)
           (map (fun e => (fst e, text_of (Spec.opinion_of l question e))) es) acc),
     concat (map (fun e =>
        [Started (Spec.expert_chain l) (Spec.expert_kwargs question e);
         Finished (Spec.expert_chain l) (Spec.expert_kwargs question e)
           (Spec.opinion_of l question e)]) es)).
Proof.
  revert acc. induction es as [|[id desc] es IH]; intros acc Hch Hans; [done|].
  apply Forall_cons in Hans as [[s Hs] Hans].
  cbn [for_each].
  pose proof (Hch (id, desc) ltac:(left)) as Hc. simpl in Hc. rewrite Hc. unfold lift.
  cbn [mbind M_mbind].
  change [("expert_role", desc); ("question", PStr question)]
    with (Spec.expert_kwargs question (id, desc)).
  rewrite await_expert, Hs. cbn [mbind M_mbind mret M_ret app].
  rewrite IH; [|intros e He; apply Hch; by right | done].
  cbn [map concat fold_left fst snd app]. by rewrite Hs.
Qed.

End Sequential.

(** ** The collector of [chatbot3.py]: the calls are gathered *)

Section Gathered.
Context `{Backend} `{StrMethods}.
Variables (l : llm) (question : string).

Local Abbreviation pending := (Spec.pending_expert l question).
Local Abbreviation settled := (Spec.settled l question).
Local Abbreviation delivery := (Spec.delivery l question).
Local Abbreviation failure := (Spec.failure l question).
Local Abbreviation opinion := (Spec.opinion_of l question).

Lemma M_bind_ok {A B} (a : A) (tr : list event) (f : A -> M B) :
  mbind f ((Ok a, tr) : M A) = (fst (f a), tr ++ snd (f a)).
Proof. unfold mbind, M_mbind. by destruct (f a). Qed.

Lemma M_bind_raise {A B} (x : exn) (tr : list event) (f : A -> M B) :
  mbind f ((Raise x, tr) : M A) = (Raise x, tr).
Proof. reflexivity. Qed.

Lemma count_app {X} (f : X -> bool) (a b : list X) :
  count f (a ++ b) = count f a + count f b.
Proof. induction a as [|x a IH]; simpl; [done|]. rewrite IH. lia. Qed.

Lemma waiting_insert_done (pool : list (task string)) (i : nat) ch kwargs k s :
  pool !! i = Some (Waiting ch kwargs k) ->
  S (count Spec.is_waiting (<[i := Done s]> pool)) = count Spec.is_waiting pool.
Proof.
  revert i. induction pool as [|st pool IH]; intros [|i] Hi; simpl in *; try done.
  - by injection Hi as ->.
  - rewrite <- (IH i Hi). lia.
Qed.

Lemma settled_lookup (es : dict pyval) (pool : list (task string)) i ch kwargs k :
  Forall2 settled es pool ->
  pool !! i = Some (Waiting ch kwargs k) ->
  exists e, es !! i = Some e /\ Waiting ch kwargs k = pending e.
Proof.
  intros Hall Hi.
  destruct (Forall2_lookup_r _ _ _ _ _ Hall Hi) as (e & He & [Hp | (s & _ & Hd)]).
  - by exists e.
  - discriminate.
Qed.

(** The answer to a pending expert's call arrives. *)
Lemma deliver_pending (e : string * pyval) :
  deliver (Spec.expert_chain l) (Spec.expert_kwargs question e) (Spec.display_opinion e)
  = match opinion e with
    | Text s => (Done s, delivery e)
    | Fails x => (Failed x, failure e)
    end.
Proof.
  unfold deliver, Spec.delivery, Spec.failure.
  change (generate (chain_llm (Spec.expert_chain l)) (prompt (Spec.expert_chain l))
            (Spec.expert_kwargs question e)) with (opinion e).
  by destruct (opinion e).
Qed.

(** The answers arrive in the order of [completion]: either every
    answer that arrived was a text, and the pool is settled again, or
    one of them was an exception, which is raised at once. *)
Lemma complete_settled (es : dict pyval) (completion : list nat) :
  forall pool : list (task string),
  Forall2 settled es pool ->
  (exists pool' ds,
      complete completion pool = (Ok pool', concat (map delivery ds))
      /\ Forall2 settled es pool'
      /\ length ds + count Spec.is_waiting pool' = count Spec.is_waiting pool)
  \/ (exists x e ds,
      complete completion pool = (Raise x, concat (map delivery ds) ++ failure e)
      /\ e ∈ es /\ opinion e = Fails x).
Proof.
  induction completion as [|i rest IH]; intros pool Hall.
  - left. exists pool, []. by split; [|split].
  - cbn [complete].
    destruct (pool !! i) as [[a|x|ch kwargs k]|] eqn:Hi; [by apply IH..| |by apply IH].
    destruct (settled_lookup _ _ _ _ _ _ Hall Hi) as (e & He & Heq).
    injection Heq as -> -> ->. rewrite deliver_pending.
    destruct (opinion e) as [s|x] eqn:Hop.
    + assert (Hall' : Forall2 settled es (<[i := Done s]> pool)).
      { rewrite <- (list_insert_id es i e He). apply Forall2_insert; [done|].
        right. by exists s. }
      destruct (IH _ Hall') as [(pool' & ds & Hc & Hs & Hn) | (x & e' & ds & Hc & He' & Hx)].
      * left. exists pool', (e :: ds). rewrite Hc. split; [|split; [done|]].
        -- done.
        -- cbn [length]. rewrite <- (waiting_insert_done _ _ _ _ _ s Hi). lia.
      * right. exists x, e', (e :: ds). rewrite Hc. split; [|by split].
        cbn [map concat]. by rewrite <- app_assoc.
    + right. exists x, e, []. split; [done|]. split; [|done].
      by eapply list_elem_of_lookup_2.
Qed.

(** The tasks still pending are answered in task order. *)
Lemma finish_all_settled (es : dict pyval) :
  forall pool : list (task string),
  Forall2 settled es pool ->
  (exists ds,
      finish_all pool = (Ok (map (fun e => text_of (opinion e)) es), concat (map delivery ds))
      /\ Forall (Spec.answers l question) es
      /\ length ds = count Spec.is_waiting pool)
  \/ (exists x e ds,
      finish_all pool = (Raise x, concat (map delivery ds) ++ failure e)
      /\ e ∈ es /\ opinion e = Fails x).
Proof.
  induction es as [|e es IH]; intros pool Hall.
  - apply Forall2_nil_inv_l in Hall as ->. left. exists []. by split; [|split].
  - apply Forall2_cons_inv_l in Hall as (st & pool' & Hst & Hall & ->).
    cbn [finish_all].
    destruct Hst as [-> | (s & Hs & ->)].
    + unfold Spec.pending_expert. cbn [finish].
      change (generate (chain_llm (Spec.expert_chain l)) (prompt (Spec.expert_chain l))
                (Spec.expert_kwargs question e)) with (opinion e).
      destruct (opinion e) as [s|x] eqn:Hop.
      * cbn [Spec.display_opinion await].
        destruct (IH _ Hall) as [(ds & Hf & Hans & Hn) | (x & e' & ds & Hf & He' & Hx)].
        -- left. exists (e :: ds). rewrite Hf. split; [|split].
           ++ rewrite !M_bind_ok. cbn [map concat mret M_ret fst snd].
              unfold Spec.delivery at 2. rewrite Hop. cbn [text_of].
              by rewrite app_nil_r.
           ++ apply Forall_cons. split; [by exists s | done].
           ++ cbn [length count Spec.is_waiting]. by rewrite Hn.
        -- right. exists x, e', (e :: ds). rewrite Hf. split; [|split; [by right | done]].
           rewrite M_bind_ok, M_bind_raise. cbn [map concat fst snd].
           unfold Spec.delivery at 2. rewrite Hop. cbn [text_of].
           by rewrite <- app_assoc.
      * right. exists x, e, []. split; [|split; [left | done]].
        unfold Spec.failure. by rewrite Hop.
    + cbn [finish].
      destruct (IH _ Hall) as [(ds & Hf & Hans & Hn) | (x & e' & ds & Hf & He' & Hx)].
      * left. exists ds. rewrite Hf. split; [|split].
        -- rewrite !M_bind_ok. cbn [map mret M_ret app fst snd].
           rewrite Hs. cbn [text_of]. by rewrite app_nil_r.
        -- apply Forall_cons. split; [by exists s | done].
        -- done.
      * right. exists x, e', ds. rewrite Hf. split; [|split; [by right | done]].
        by rewrite M_bind_ok, M_bind_raise.
Qed.

Lemma start_all_experts (self : Chatbot3.ExpertPanelChatbot) (es : dict pyval) :
  (forall e, e ∈ es ->
     dict_item (fst e) (Chatbot3.expert_chains self) = Ok (Spec.expert_chain l)) ->
  start_all (map (fun '(expert_id, expert_desc) =>
                    Chatbot3.get_expert_opinion self expert_id expert_desc question) es)
  = (map pending es,
     map (fun e => Started (Spec.expert_chain l) (Spec.expert_kwargs question e)) es).
Proof.
  induction es as [|[id desc] es IH]; intros Hch; [done|].
  cbn [map start_all]. rewrite IH by (intros e He; apply Hch; by right).
  unfold Chatbot3.get_expert_opinion.
  pose proof (Hch (id, desc) ltac:(left)) as Hc. simpl in Hc. rewrite Hc.
  reflexivity.
Qed.

Lemma no_failure_pending (es : dict pyval) : first_failure (map pending es) = None.
Proof. by induction es. Qed.

Lemma settled_pending (es : dict pyval) : Forall2 settled es (map pending es).
Proof. induction es; constructor; [by left | done]. Qed.

Lemma count_waiting_pending (es : dict pyval) :
  count Spec.is_waiting (map pending es) = length es.
Proof. induction es; simpl; [done | by f_equal]. Qed.

(** [gather] on the experts' coroutines: whatever the order of
    completion, all calls are started first; then either every call is
    answered and the texts are returned in the order of the roster, or
    the exception of a failed call is raised. *)
Lemma gather_experts (self : Chatbot3.ExpertPanelChatbot) (es : dict pyval)
    (completion : list nat) :
  (forall e, e ∈ es ->
     dict_item (fst e) (Chatbot3.expert_chains self) = Ok (Spec.expert_chain l)) ->
  let starts := map (fun e => Started (Spec.expert_chain l) (Spec.expert_kwargs question e)) es in
  let tasks := map (fun '(expert_id, expert_desc) =>
                      Chatbot3.get_expert_opinion self expert_id expert_desc question) es in
  (exists ds,
      gather completion tasks
      = (Ok (map (fun e => text_of (opinion e)) es), starts ++ concat (map delivery ds))
      /\ Forall (Spec.answers l question) es
      /\ length ds = length es)
  \/ (exists x e ds,
      gather completion tasks = (Raise x, starts ++ concat (map delivery ds) ++ failure e)
      /\ e ∈ es /\ opinion e = Fails x).
Proof.
  intros Hch starts tasks. unfold gather, tasks.
  rewrite (start_all_experts self es Hch). fold starts.
  rewrite no_failure_pending. unfold log. rewrite M_bind_ok.
  destruct (complete_settled es completion _ (settled_pending es))
    as [(pool' & ds & Hc & Hs & Hn) | (x & e & ds & Hc & He & Hx)].
  - rewrite Hc, M_bind_ok.
    destruct (finish_all_settled es pool' Hs)
      as [(ds' & Hf & Hans & Hn') | (x & e & ds' & Hf & He & Hx)].
    + left. exists (ds ++ ds'). rewrite Hf. cbn [fst snd]. split; [|split; [done|]].
      * by rewrite map_app, concat_app.
      * rewrite length_app, Hn'. rewrite count_waiting_pending in Hn. lia.
    + right. exists x, e, (ds ++ ds'). rewrite Hf. cbn [fst snd]. split; [|by split].
      by rewrite map_app, concat_app, <- app_assoc.
  - right. exists x, e, ds. rewrite Hc, M_bind_raise. by split.
Qed.


Lemma init3_inv (key : string) (es : dict pyval) (self : Chatbot3.ExpertPanelChatbot) :
  Chatbot3.init key (PDict es) = Ok self ->
  Chatbot3.experts self = PDict es
  /\ Chatbot3.expert_chains self = Chatbot.initialize_expert_chains (Chatbot3.self_llm self) es
  /\ Chatbot3.summary_chain self = Chatbot.initialize_summary_chain (Chatbot3.self_llm self).
Proof.
  unfold Chatbot3.init. destruct (ChatOpenAI _ _ key) as [l0|x]; [|discriminate].
  cbn. by intros [= <-].
Qed.

Lemma zip_keys_texts {A} (f : string * A -> string) (es : dict A) :
  zip (keys es) (map f es) = map (fun e => (fst e, f e)) es.
Proof. induction es as [|e es IH]; simpl; [done | by f_equal]. Qed.

End Gathered.

Section Panel.
Context `{Backend} `{StrMethods}.

(** The whole of [get_integrated_response] in [chatbot3.py]. *)
Lemma get_integrated_response3_run (key question : string) (es : dict pyval)
    (completion : list nat) (self : Chatbot3.ExpertPanelChatbot) :
  Chatbot3.init key (PDict es) = Ok self ->
  let l := Chatbot3.self_llm self in
  let starts :=
    map (fun e => Started (Spec.expert_chain l) (Spec.expert_kwargs question e)) es in
  let opinions :=
    dict_of_pairs (map (fun e => (fst e, text_of (Spec.opinion_of l question e))) es) in
  let block := Chatbot.formatted_opinions opinions in
  (exists ds,
      Chatbot3.get_integrated_response completion self question
      = (match Spec.summary_of l question block with
         | Text final => Ok (final, opinions)
         | Fails x => Raise x
         end,
         starts ++ concat (map (Spec.delivery l question) ds)
           ++ [Shown (Write "📊 **統合された結論を生成中...**");
               Started (Chatbot.initialize_summary_chain l) (Spec.summary_kwargs question block);
               Finished (Chatbot.initialize_summary_chain l) (Spec.summary_kwargs question block)
                 (Spec.summary_of l question block)])
      /\ Forall (Spec.answers l question) es
      /\ length ds = length es)
  \/ (exists x e ds,
      Chatbot3.get_integrated_response completion self question
      = (Raise x, starts ++ concat (map (Spec.delivery l question) ds)
                    ++ Spec.failure l question e)
      /\ e ∈ es /\ Spec.opinion_of l question e = Fails x).
Proof.
  intros Hinit l starts opinions block.
  destruct (init3_inv _ _ _ Hinit) as (Hexp & Hch & Hsum).
  destruct (gather_experts l question self es completion) as
    [(ds & Hg & Hans & Hn) | (x & e & ds & Hg & He & Hx)].
  { intros e He. rewrite Hch. apply expert_chains_lookup. unfold keys.
    apply list_elem_of_fmap. by exists e. }
  - left. exists ds. split; [|by split].
    unfold Chatbot3.get_integrated_response. rewrite Hexp, Hsum. fold l.
    unfold items, pykeys, lift. rewrite M_bind_ok. fold starts in Hg. rewrite Hg.
    rewrite !M_bind_ok. cbn [fst snd app].
    rewrite zip_keys_texts. fold opinions. fold block.
    unfold emit, log. rewrite M_bind_ok. rewrite await_arun.
    change (generate _ _ _) with (Spec.summary_of l question block).
    change [("original_question", PStr question); ("expert_opinions", PStr block)]
      with (Spec.summary_kwargs question block).
    destruct (Spec.summary_of l question block); cbn; by rewrite <- !app_assoc.
  - right. exists x, e, ds. split; [|by split].
    unfold Chatbot3.get_integrated_response. rewrite Hexp, Hsum. fold l.
    unfold items, pykeys, lift. rewrite M_bind_ok. fold starts in Hg. rewrite Hg.
    by rewrite M_bind_raise.
Qed.

End Panel.

(** ** Counting the calls of a trace *)

Section Counting.
Context `{Backend} `{StrMethods}.
Variables (l : llm) (question : string).

Local Abbreviation starts es :=
  (map (fun e => Started (Spec.expert_chain l) (Spec.expert_kwargs question e)) es).
Local Abbreviation calls es :=
  (concat (map (fun e =>
     [Started (Spec.expert_chain l) (Spec.expert_kwargs question e);
      Finished (Spec.expert_chain l) (Spec.expert_kwargs question e)
        (Spec.opinion_of l question e)]) es)).
Local Abbreviation deliveries ds := (concat (map (Spec.delivery l question) ds)).

Lemma count_starts (es : dict pyval) :
  count (started expert_variables) (starts es) = length es
  /\ count (started summary_variables) (starts es) = 0
  /\ count (finished expert_variables) (starts es) = 0.
Proof.
  induction es as [|e es (IH1 & IH2 & IH3)]; [done|].
  cbn [map count length]. rewrite IH1, IH2, IH3. done.
Qed.

Lemma count_deliveries (ds : dict pyval) :
  count (started expert_variables) (deliveries ds) = 0
  /\ count (started summary_variables) (deliveries ds) = 0
  /\ count (finished expert_variables) (deliveries ds) = length ds.
Proof.
  induction ds as [|e ds (IH1 & IH2 & IH3)]; [done|].
  cbn [map concat length]. rewrite !count_app, IH1, IH2, IH3. done.
Qed.

Lemma count_calls (es : dict pyval) :
  count (started expert_variables) (calls es) = length es
  /\ count (started summary_variables) (calls es) = 0
  /\ count (finished expert_variables) (calls es) = length es.
Proof.
  induction es as [|e es (IH1 & IH2 & IH3)]; [done|].
  cbn [map concat length]. rewrite !count_app, IH1, IH2, IH3. done.
Qed.

Lemma count_summary_call (o : output) (kwargs : dict pyval) (r : response) :
  let tail := [Shown o; Started (Chatbot.initialize_summary_chain l) kwargs;
               Finished (Chatbot.initialize_summary_chain l) kwargs r] in
  count (started expert_variables) tail = 0
  /\ count (started summary_variables) tail = 1.
Proof. done. Qed.

(** No expert call is started in the second part of a trace: its calls
    were launched together if no answer arrives in the first part. *)
Lemma launched_together_no_start (tr : list event) :
  count (started expert_variables) tr = 0 -> Spec.launched_together tr = true.
Proof.
  induction tr as [|e tr IH]; [done|]. cbn [count Spec.launched_together]. intros Hn.
  destruct (finished expert_variables e).
  - apply Nat.eqb_eq. lia.
  - apply IH. lia.
Qed.

Lemma launched_together_starts (es : dict pyval) (rest : list event) :
  count (started expert_variables) rest = 0 ->
  Spec.launched_together (starts es ++ rest) = true.
Proof.
  intros Hn. induction es as [|e es IH]; [by apply launched_together_no_start|].
  exact IH.
Qed.

End Counting.

(** ** The panel of [chatbot.py]; order, failure, phases and overlap of the calls *)

Section Collection.
Context `{Backend} `{StrMethods}.

Lemma init_inv (key : string) (self : Chatbot.ExpertPanelChatbot) :
  Chatbot.init key = Ok self ->
  Chatbot.experts self = Chatbot.default_experts
  /\ Chatbot.expert_chains self
     = Chatbot.initialize_expert_chains (Chatbot.self_llm self) Chatbot.default_experts
  /\ Chatbot.summary_chain self = Chatbot.initialize_summary_chain (Chatbot.self_llm self).
Proof.
  unfold Chatbot.init. destruct (ChatOpenAI _ _ key) as [l0|x]; [|discriminate].
  cbn. by intros [= <-].
Qed.

Lemma default_experts_nodup : NoDup (keys Chatbot.default_experts).
Proof. apply (bool_decide_unpack _). vm_compute. exact I. Qed.

Lemma keys_map_texts {A} (f : string * A -> string) (es : dict A) :
  keys (map (fun e => (fst e, f e)) es) = keys es.
Proof. unfold keys. rewrite map_map. done. Qed.

(** The opinions collected for a roster whose calls are all answered. *)
Lemma own_opinions (l : llm) (question : string) (es : dict pyval) :
  Forall (Spec.answers l question) es ->
  Forall2 (Spec.own_opinion l question) es
    (map (fun e => (fst e, text_of (Spec.opinion_of l question e))) es).
Proof.
  induction 1 as [|e es [s Hs] _ IH]; constructor; [|done].
  split; [done|]. cbn. by rewrite Hs.
Qed.

Lemma get_expert_opinions_run (key question : string) (self : Chatbot.ExpertPanelChatbot) :
  Chatbot.init key = Ok self ->
  let l := Chatbot.self_llm self in
  let es := Chatbot.experts self in
  Forall (Spec.answers l question) es ->
  Chatbot.get_expert_opinions self question
  = (Ok (map (fun e => (fst e, text_of (Spec.opinion_of l question e))) es),
     concat (map (fun e =>
       [Started (Spec.expert_chain l) (Spec.expert_kwargs question e);
        Finished (Spec.expert_chain l) (Spec.expert_kwargs question e)
          (Spec.opinion_of l question e)]) es)).
Proof.
  intros Hinit l es Hans. destruct (init_inv _ _ Hinit) as (Hexp & Hch & _).
  unfold Chatbot.get_expert_opinions. fold es. rewrite Hch. fold l.
  rewrite (collect_loop _ l question es []); [| |done].
  - f_equal. f_equal. apply dict_of_pairs_nodup. rewrite keys_map_texts.
    unfold es. rewrite Hexp. apply default_experts_nodup.
  - intros e He. apply expert_chains_lookup. unfold es in He. rewrite Hexp in He.
    unfold keys. apply list_elem_of_fmap. by exists e.
Qed.

Lemma get_integrated_response_run (key question : string) (self : Chatbot.ExpertPanelChatbot) :
  Chatbot.init key = Ok self ->
  let l := Chatbot.self_llm self in
  let es := Chatbot.experts self in
  let opinions := map (fun e => (fst e, text_of (Spec.opinion_of l question e))) es in
  let block := Chatbot.formatted_opinions opinions in
  Forall (Spec.answers l question) es ->
  Chatbot.get_integrated_response self question
  = (match Spec.summary_of l question block with
     | Text final => Ok final
     | Fails x => Raise x
     end,
     concat (map (fun e =>
       [Started (Spec.expert_chain l) (Spec.expert_kwargs question e);
        Finished (Spec.expert_chain l) (Spec.expert_kwargs question e)
          (Spec.opinion_of l question e)]) es)
     ++ [Shown (Print block);
         Started (Chatbot.initialize_summary_chain l) (Spec.summary_kwargs question block);
         Finished (Chatbot.initialize_summary_chain l) (Spec.summary_kwargs question block)
           (Spec.summary_of l question block)]).
Proof.
  intros Hinit l es opinions block Hans.
  unfold Chatbot.get_integrated_response.
  rewrite (get_expert_opinions_run key question self Hinit Hans).
  destruct (init_inv _ _ Hinit) as (_ & _ & Hsum). rewrite Hsum.
  fold l es opinions. rewrite M_bind_ok. fold block.
  unfold emit, log. rewrite M_bind_ok, await_arun.
  change (generate _ _ _) with (Spec.summary_of l question block).
  change [("original_question", PStr question); ("expert_opinions", PStr block)]
    with (Spec.summary_kwargs question block).
  by destruct (Spec.summary_of l question block).
Qed.

(** C1. When every expert's call is answered, the collected opinions
    pair each identifier of the roster with the text answered to that
    expert's own call, in the order of the roster: in
    [get_expert_opinions] of [chatbot.py], over the roster of its
    constructor, and, whatever the roster and whatever the order in
    which the gathered calls complete, in [get_integrated_response] of
    [chatbot3.py]. Each variant is stated under its own premises. *)
Theorem opinions_in_registration_order (key question : string) (es : dict pyval)
    (completion : list nat)
    (cli : Chatbot.ExpertPanelChatbot) (web : Chatbot3.ExpertPanelChatbot) :
  (Chatbot.init key = Ok cli ->
   Forall (Spec.answers (Chatbot.self_llm cli) question) (Chatbot.experts cli) ->
   exists opinions,
     fst (Chatbot.get_expert_opinions cli question) = Ok opinions
     /\ Forall2 (Spec.own_opinion (Chatbot.self_llm cli) question)
          (Chatbot.experts cli) opinions)
  /\ (Chatbot3.init key (PDict es) = Ok web ->
      NoDup (keys es) ->
      Forall (Spec.answers (Chatbot3.self_llm web) question) es ->
      exists opinions,
        Forall2 (Spec.own_opinion (Chatbot3.self_llm web) question) es opinions
        /\ fst (Chatbot3.get_integrated_response completion web question)
           = match Spec.summary_of (Chatbot3.self_llm web) question
                     (Chatbot.formatted_opinions opinions) with
             | Text final => Ok (final, opinions)
             | Fails x => Raise x
             end).
Proof.
  split; [intros Hcli Hans | intros Hweb Hnd Hans3].
  - eexists. rewrite (get_expert_opinions_run key question cli Hcli Hans).
    split; [reflexivity | by apply own_opinions].
  - exists (map (fun e => (fst e, text_of (Spec.opinion_of (Chatbot3.self_llm web) question e))) es).
    split; [by apply own_opinions|].
    destruct (get_integrated_response3_run key question es completion web Hweb)
      as [(ds & Hrun & _ & _) | (x & e & ds & _ & He & Hx)].
    + rewrite Hrun. cbn [fst]. rewrite dict_of_pairs_nodup; [done|].
      by rewrite keys_map_texts.
    + exfalso. rewrite Forall_forall in Hans3. destruct (Hans3 e He) as [s Hs].
      congruence.
Qed.

(** C2, as the code has it. When the call of some expert fails,
    [get_integrated_response] of [chatbot3.py] raises the exception of
    a failed call to its caller, whatever the order of completion: no
    opinion is returned for any expert and the summary chain is never
    called. *)
Theorem expert_failure_aborts_panel (key question : string) (es : dict pyval)
    (completion : list nat) (web : Chatbot3.ExpertPanelChatbot)
    (e : string * pyval) (x : exn) :
  Chatbot3.init key (PDict es) = Ok web ->
  e ∈ es ->
  Spec.opinion_of (Chatbot3.self_llm web) question e = Fails x ->
  exists x' e',
    e' ∈ es
    /\ Spec.opinion_of (Chatbot3.self_llm web) question e' = Fails x'
    /\ fst (Chatbot3.get_integrated_response completion web question) = Raise x'
    /\ count (started summary_variables)
         (snd (Chatbot3.get_integrated_response completion web question)) = 0.
Proof.
  intros Hweb He Hx.
  destruct (get_integrated_response3_run key question es completion web Hweb)
    as [(ds & _ & Hans & _) | (x' & e' & ds & Hrun & He' & Hx')].
  - exfalso. rewrite Forall_forall in Hans. destruct (Hans e He) as [s Hs]. congruence.
  - exists x', e'. rewrite Hrun. cbn [fst snd]. repeat split; try done.
    rewrite !count_app.
    destruct (count_starts (Chatbot3.self_llm web) question es) as (_ & -> & _).
    destruct (count_deliveries (Chatbot3.self_llm web) question ds) as (_ & -> & _).
    done.
Qed.

(** C3, as the code has it. When every expert's call is answered, a
    panel invocation over N experts makes exactly N expert calls and
    exactly one call of the summary chain, and that call starts after
    the N answers have arrived: in [chatbot.py], over the roster of its
    constructor, and, whatever the roster and the order of completion,
    in [chatbot3.py]. Each variant is stated under its own premises. *)
Theorem answered_panel_two_phases (key question : string) (es : dict pyval)
    (completion : list nat)
    (cli : Chatbot.ExpertPanelChatbot) (web : Chatbot3.ExpertPanelChatbot) :
  (Chatbot.init key = Ok cli ->
   Forall (Spec.answers (Chatbot.self_llm cli) question) (Chatbot.experts cli) ->
   Spec.two_phases (length (Chatbot.experts cli))
     (snd (Chatbot.get_integrated_response cli question)))
  /\ (Chatbot3.init key (PDict es) = Ok web ->
      Forall (Spec.answers (Chatbot3.self_llm web) question) es ->
      Spec.two_phases (length es)
        (snd (Chatbot3.get_integrated_response completion web question))).
Proof.
  split; [intros Hcli Hans | intros Hweb Hans3].
  - rewrite (get_integrated_response_run key question cli Hcli Hans). cbn [snd].
    destruct (count_calls (Chatbot.self_llm cli) question (Chatbot.experts cli))
      as (Hs & Hsum & Hf).
    match goal with
    | |- Spec.two_phases _ (_ ++ [Shown ?o; Started _ ?kw; Finished _ _ ?r]) =>
        destruct (count_summary_call (Chatbot.self_llm cli) o kw r) as (Ht & Ht')
    end.
    unfold Spec.two_phases. rewrite !count_app, Hs, Hsum, Ht, Ht'.
    split; [lia|]. split; [done|].
    eexists _, _. split; [reflexivity|]. by rewrite Hf, Hsum, Ht.
  - destruct (get_integrated_response3_run key question es completion web Hweb)
      as [(ds & Hrun & _ & Hn) | (x & e & ds & _ & He & Hx)].
    + rewrite Hrun. cbn [snd].
      destruct (count_starts (Chatbot3.self_llm web) question es) as (Hs & Hsum & Hf).
      destruct (count_deliveries (Chatbot3.self_llm web) question ds) as (Hs' & Hsum' & Hf').
      match goal with
      | |- Spec.two_phases _ (_ ++ _ ++ [Shown ?o; Started _ ?kw; Finished _ _ ?r]) =>
          destruct (count_summary_call (Chatbot3.self_llm web) o kw r) as (Ht & Ht')
      end.
      unfold Spec.two_phases. rewrite !count_app, Hs, Hsum, Hs', Hsum', Ht, Ht'.
      split; [lia|]. split; [done|].
      exists (map (fun e => Started (Spec.expert_chain (Chatbot3.self_llm web))
                              (Spec.expert_kwargs question e)) es
              ++ concat (map (Spec.delivery (Chatbot3.self_llm web) question) ds)).
      eexists. split; [by rewrite <- app_assoc|].
      rewrite !count_app, Hf, Hf', Hsum, Hsum'. split; [lia|]. by split.
    + exfalso. rewrite Forall_forall in Hans3. destruct (Hans3 e He) as [s Hs].
      congruence.
Qed.

(** C6, as the code has it. In [get_integrated_response] of
    [chatbot3.py] the calls of all the experts of the roster are started
    before any of them is answered, one call per expert and as many as
    the roster has experts, whatever the answers are and whatever the
    order of completion. *)
Theorem gathered_calls_launched_together (key question : string) (es : dict pyval)
    (completion : list nat) (web : Chatbot3.ExpertPanelChatbot) :
  Chatbot3.init key (PDict es) = Ok web ->
  let trace := snd (Chatbot3.get_integrated_response completion web question) in
  Spec.launched_together trace = true
  /\ exists rest,
       trace = map (fun e => Started (Spec.expert_chain (Chatbot3.self_llm web))
                               (Spec.expert_kwargs question e)) es ++ rest
       /\ count (started expert_variables) rest = 0.
Proof.
  intros Hweb trace. unfold trace.
  destruct (get_integrated_response3_run key question es completion web Hweb)
    as [(ds & Hrun & _ & _) | (x & e & ds & Hrun & _ & _)]; rewrite Hrun; cbn [snd];
    destruct (count_deliveries (Chatbot3.self_llm web) question ds) as (Hs' & _ & _).
  - match goal with
    | |- context [_ ++ [Shown ?o; Started _ ?kw; Finished _ _ ?r]] =>
        destruct (count_summary_call (Chatbot3.self_llm web) o kw r) as (Ht & _)
    end.
    cbv zeta in Ht.
    split; [apply launched_together_starts | eexists; split; [reflexivity|]];
      by rewrite count_app, Hs', Ht.
  - split; [apply launched_together_starts | eexists; split; [reflexivity|]];
      by rewrite count_app, Hs'.
Qed.

End Collection.

(** ** Collection at concrete panels *)

(** The sample rosters have distinct identifiers, and the stand-in model
    answers every call. *)
Lemma pets_nodup : NoDup (keys Stub.pets).
Proof. apply (bool_decide_unpack _). vm_compute. exact I. Defined.

Lemma yes_answers_default :
  Forall (@Spec.answers Stub.yes_backend tt "pick a pet") Chatbot.default_experts.
Proof. repeat (apply List.Forall_cons; [eexists; reflexivity|]). apply List.Forall_nil. Defined.

Lemma yes_answers_pets :
  Forall (@Spec.answers Stub.yes_backend tt "pick a pet") Stub.pets.
Proof. repeat (apply List.Forall_cons; [eexists; reflexivity|]). apply List.Forall_nil. Defined.

(** The two experts are answered also by the model that fails on the
    second persona of [chatbot.py]. *)
Lemma picky_answers_pets :
  Forall (@Spec.answers (Stub.failing_backend Stub.tech_persona) tt "pick a pet") Stub.pets.
Proof. repeat (apply List.Forall_cons; [eexists; reflexivity|]). apply List.Forall_nil. Defined.

(** C1 on the two-expert scenario, the second call completing first. *)
Lemma opinions_in_registration_order_witness :
  let B := Stub.yes_backend in
  let B3 := Stub.failing_backend Stub.tech_persona in
  let U := Stub.ascii_upper in
  let cli := @Stub.cli B tt in
  let web := @Stub.web B3 tt Stub.pets in
  (@Chatbot.init B "k" = Ok cli
   /\ Forall (@Spec.answers B tt "pick a pet") Chatbot.default_experts
   /\ exists opinions,
        fst (@Chatbot.get_expert_opinions B cli "pick a pet") = Ok opinions
        /\ Forall2 (@Spec.own_opinion B tt "pick a pet") Chatbot.default_experts opinions)
  /\ (@Chatbot3.init B3 "k" (PDict Stub.pets) = Ok web
      /\ NoDup (keys Stub.pets)
      /\ Forall (@Spec.answers B3 tt "pick a pet") Stub.pets
      /\ exists opinions,
           Forall2 (@Spec.own_opinion B3 tt "pick a pet") Stub.pets opinions
           /\ fst (@Chatbot3.get_integrated_response B3 U [1; 0] web "pick a pet")
              = match @Spec.summary_of B3 tt "pick a pet"
                        (@Chatbot.formatted_opinions U opinions) with
                | Text final => Ok (final, opinions)
                | Fails x => Raise x
                end).
Proof.
  intros B B3 U cli web. split.
  - split; [reflexivity|]. split; [exact yes_answers_default|].
    exact (proj1 (@opinions_in_registration_order B U "k" "pick a pet" Stub.pets [1; 0]
                    cli (@Stub.web B tt Stub.pets))
             eq_refl yes_answers_default).
  - split; [reflexivity|]. split; [exact pets_nodup|].
    split; [exact picky_answers_pets|].
    exact (proj2 (@opinions_in_registration_order B3 U "k" "pick a pet" Stub.pets [1; 0]
                    (@Stub.cli B3 tt) web)
             eq_refl pets_nodup picky_answers_pets).
Defined.

(** The amended C2 on the two-expert scenario whose second call times out. *)
Lemma expert_failure_aborts_panel_witness :
  let B := Stub.failing_backend "loves dogs" in
  let U := Stub.ascii_upper in
  let web := @Stub.web B tt Stub.pets in
  @Chatbot3.init B "k" (PDict Stub.pets) = Ok web
  /\ ("b", PStr "loves dogs") ∈ Stub.pets
  /\ @Spec.opinion_of B tt "pick a pet" ("b", PStr "loves dogs") = Fails (InvokerError "timeout")
  /\ exists x' e',
       e' ∈ Stub.pets
       /\ @Spec.opinion_of B tt "pick a pet" e' = Fails x'
       /\ fst (@Chatbot3.get_integrated_response B U [0; 1] web "pick a pet") = Raise x'
       /\ count (started summary_variables)
            (snd (@Chatbot3.get_integrated_response B U [0; 1] web "pick a pet")) = 0.
Proof.
  intros B U web.
  assert (Hin : ("b", PStr "loves dogs") ∈ Stub.pets) by (right; left).
  split; [reflexivity|]. split; [exact Hin|]. split; [reflexivity|].
  exact (@expert_failure_aborts_panel B U "k" "pick a pet" Stub.pets [0; 1] web
           ("b", PStr "loves dogs") (InvokerError "timeout") eq_refl Hin eq_refl).
Defined.

(** C2, as stated, fails: with two experts of which the second times
    out, nothing is returned, for the first expert either; the
    exception reaches the caller, in both orders of completion. *)
Lemma expert_failure_is_not_recorded :
  let B := Stub.failing_backend "loves dogs" in
  let U := Stub.ascii_upper in
  let web := @Stub.web B tt Stub.pets in
  @Chatbot3.init B "k" (PDict Stub.pets) = Ok web
  /\ @Spec.opinion_of B tt "pick a pet" ("a", PStr "loves cats") = Text "loves cats: yes"
  /\ fst (@Chatbot3.get_integrated_response B U [0; 1] web "pick a pet")
     = Raise (InvokerError "timeout")
  /\ fst (@Chatbot3.get_integrated_response B U [1; 0] web "pick a pet")
     = Raise (InvokerError "timeout")
  /\ ~ (exists result,
          fst (@Chatbot3.get_integrated_response B U [0; 1] web "pick a pet") = Ok result).
Proof.
  intros B U web. repeat (split; [reflexivity|]).
  intros [result Hr]. vm_compute in Hr. discriminate.
Qed.

(** The amended C3 on the four experts of [chatbot.py] and on the
    two-expert scenario. *)
Lemma answered_panel_two_phases_witness :
  let B := Stub.yes_backend in
  let B3 := Stub.failing_backend Stub.tech_persona in
  let U := Stub.ascii_upper in
  let cli := @Stub.cli B tt in
  let web := @Stub.web B3 tt Stub.pets in
  (@Chatbot.init B "k" = Ok cli
   /\ Forall (@Spec.answers B tt "pick a pet") Chatbot.default_experts
   /\ @Spec.two_phases B 4 (snd (@Chatbot.get_integrated_response B U cli "pick a pet")))
  /\ (@Chatbot3.init B3 "k" (PDict Stub.pets) = Ok web
      /\ Forall (@Spec.answers B3 tt "pick a pet") Stub.pets
      /\ @Spec.two_phases B3 2
           (snd (@Chatbot3.get_integrated_response B3 U [1; 0] web "pick a pet"))).
Proof.
  intros B B3 U cli web. split.
  - split; [reflexivity|]. split; [exact yes_answers_default|].
    exact (proj1 (@answered_panel_two_phases B U "k" "pick a pet" Stub.pets [1; 0]
                    cli (@Stub.web B tt Stub.pets))
             eq_refl yes_answers_default).
  - split; [reflexivity|]. split; [exact picky_answers_pets|].
    exact (proj2 (@answered_panel_two_phases B3 U "k" "pick a pet" Stub.pets [1; 0]
                    (@Stub.cli B3 tt) web)
             eq_refl picky_answers_pets).
Defined.

(** C3, as stated, fails: when the call of the second of the four
    experts of [chatbot.py] fails, two expert calls are made, not four,
    and the summary chain is not called. *)
Lemma failed_panel_has_no_synthesis :
  let B := Stub.failing_backend Stub.tech_persona in
  let U := Stub.ascii_upper in
  let cli := @Stub.cli B tt in
  let trace := snd (@Chatbot.get_integrated_response B U cli "pick a pet") in
  @Chatbot.init B "k" = Ok cli
  /\ length (Chatbot.experts cli) = 4
  /\ count (started expert_variables) trace = 2
  /\ count (started summary_variables) trace = 0
  /\ ~ @Spec.two_phases B 4 trace.
Proof.
  intros B U cli trace. repeat (split; [reflexivity|]).
  intros (Hn & _). vm_compute in Hn. discriminate.
Qed.

(** The amended C6 on the two-expert scenario. *)
Lemma gathered_calls_launched_together_witness :
  let B := Stub.yes_backend in
  let U := Stub.ascii_upper in
  let web := @Stub.web B tt Stub.pets in
  let trace := snd (@Chatbot3.get_integrated_response B U [1; 0] web "pick a pet") in
  @Chatbot3.init B "k" (PDict Stub.pets) = Ok web
  /\ @Spec.launched_together B trace = true
  /\ exists rest,
       trace = map (fun e => Started (@Spec.expert_chain B tt)
                               (Spec.expert_kwargs "pick a pet" e)) Stub.pets ++ rest
       /\ count (started expert_variables) rest = 0.
Proof.
  intros B U web trace. split; [reflexivity|].
  exact (@gathered_calls_launched_together B U "k" "pick a pet" Stub.pets [1; 0] web eq_refl).
Defined.

(** C6, as stated, fails for the collector of [chatbot.py]: its second
    call starts after the first has been answered. *)
Lemma sequential_calls_not_launched_together :
  let B := Stub.yes_backend in
  let cli := @Stub.cli B tt in
  let trace := snd (@Chatbot.get_expert_opinions B cli "pick a pet") in
  @Chatbot.init B "k" = Ok cli
  /\ @Spec.launched_together B trace = false
  /\ match trace with
     | e1 :: e2 :: e3 :: _ =>
         started expert_variables e1 && finished expert_variables e2
         && started expert_variables e3
     | _ => false
     end = true.
Proof. intros B cli trace. by repeat split. Qed.

(** ** Texts that are not empty *)

Lemma truthy_nonempty (s : string) : s <> "" -> truthy (PStr s) = true.
Proof. intros Hs. cbn. by apply negb_true_iff, String.eqb_neq. Qed.

(** ** The constructor of [chatbot4.py] *)

Section Constructor.
Context `{Backend} `{StrMethods}.

Lemma getitem_description (v : pyval) :
  (Spec.has_description v /\ exists d, getitem v "description" = Ok d)
  \/ (~ Spec.has_description v
      /\ getitem v "description"
         = Raise (match v with PDict _ => KeyError "description" | _ => TypeError end)).
Proof.
  destruct v as [| b | q | s | xs | fields];
    try (right; split; [intros (f & d & Hv & _); discriminate | reflexivity]).
  cbn. destruct (dict_get "description" fields) as [d|] eqn:Hd.
  - left. split; [by exists fields, d | by exists d].
  - right. split; [|done]. intros (f & d & [= <-] & Hd'). congruence.
Qed.

(** The comprehension stops at the first value it cannot subscript. *)
Lemma descriptions_raise (before after : dict pyval) (k : string) (v : pyval) (x : exn) :
  Forall (fun kv => Spec.has_description (snd kv)) before ->
  getitem v "description" = Raise x ->
  rmap (fun '(k, v) => d ← getitem v "description"; mret (k, d)) (before ++ (k, v) :: after)
  = Raise x.
Proof.
  intros Hbefore Hv. induction Hbefore as [|[k0 v0] before Hd _ IH]; cbn.
  - by rewrite Hv.
  - destruct (getitem_description v0) as [(_ & d & ->) | (Hn & _)]; [|done].
    cbn. cbn in IH. by rewrite IH.
Qed.

Lemma descriptions_ok (es : dict pyval) (ds : dict pyval) :
  rmap (fun '(k, v) => d ← getitem v "description"; mret (k, d)) es = Ok ds ->
  Forall (fun kv => Spec.has_description (snd kv)) es.
Proof.
  revert ds. induction es as [|[k v] es IH]; intros ds; cbn; [by constructor|].
  destruct (getitem_description v) as [(Hd & d & ->) | (_ & ->)]; [|done].
  cbn. destruct (rmap _ es) as [ds'|x] eqn:Hes; [|done].
  intros _. constructor; [done | by eapply IH].
Qed.

(** Construction over a roster that has a value without description. *)
Lemma init_raises_at (key : string) (model_config : dict pyval) (l : llm)
    (before after : dict pyval) (k : string) (v : pyval) :
  ChatOpenAI (default (PStr "gpt-4o-mini") (dict_get "model_name" model_config))
             (default (PNum (7 # 10)) (dict_get "temperature" model_config)) key = Ok l ->
  Forall (fun kv => Spec.has_description (snd kv)) before ->
  ~ Spec.has_description v ->
  Chatbot4.init key (PDict (before ++ (k, v) :: after)) (PDict model_config)
  = Raise (match v with PDict _ => KeyError "description" | _ => TypeError end).
Proof.
  intros Hllm Hbefore Hv.
  unfold Chatbot4.init. cbn [get items].
  destruct (dict_get "model_name" model_config), (dict_get "temperature" model_config);
    cbn in Hllm |- *; rewrite Hllm; cbn;
    (destruct (getitem_description v) as [(Hd & _) | (_ & Hx)]; [done|]);
    by rewrite (descriptions_raise before after k v _ Hbefore Hx).
Qed.

(** Construction returns only over a dict of described entries. *)
Lemma init_returns_described (key : string) (experts model_config : pyval)
    (self : Chatbot4.ExpertPanelChatbot) :
  Chatbot4.init key experts model_config = Ok self ->
  exists es, experts = PDict es
             /\ Forall (fun kv => Spec.has_description (snd kv)) es.
Proof.
  unfold Chatbot4.init.
  destruct (get model_config "model_name" _) as [name|]; simpl; [|discriminate].
  destruct (get model_config "temperature" _) as [temperature|]; simpl; [|discriminate].
  destruct (ChatOpenAI name temperature key) as [l'|]; simpl; [|discriminate].
  destruct experts as [| | | | |es]; simpl; try discriminate.
  destruct (rmap _ es) as [ds|] eqn:Hes; simpl; [|discriminate].
  intros _. exists es. split; [done | by eapply descriptions_ok].
Qed.

End Constructor.

(** C10, as stated, fails: over a roster whose first value is a text
    and whose second value is a dict without description, construction
    raises a [TypeError], not a [KeyError]. *)
Lemma init_raises_type_error :
  let B := Stub.yes_backend in
  let experts := PDict [("a", PStr "loves cats"); ("b", PDict [("name", PStr "B")])] in
  ~ Spec.has_description (PDict [("name", PStr "B")])
  /\ @Chatbot4.init B "k" experts Chatbot4.default_model_config = Raise TypeError
  /\ @Chatbot4.init B "k" experts Chatbot4.default_model_config
     <> Raise (KeyError "description").
Proof.
  intros B experts. split; [|split; [reflexivity | discriminate]].
  intros (f & d & [= <-] & Hd). discriminate.
Qed.

(** ** The prompt of the summary chain *)

Section Synthesis.
Context `{Backend} `{StrMethods}.

Lemma formatted_opinions_blocks (opinions : dict string) :
  Chatbot.formatted_opinions opinions = Spec.blocks opinions.
Proof.
  unfold Chatbot.formatted_opinions.
  induction opinions as [|[id op] opinions IH]; [done|].
  destruct opinions as [|[id' op'] opinions]; [done|].
  cbn [map join Spec.blocks] in IH |- *. by rewrite IH.
Qed.

(** The template puts the question first and the opinions after it. *)
Lemma summary_prompt_pieces :
  exists head middle tail, forall question block,
    format Chatbot.summary_prompt
      [("original_question", question); ("expert_opinions", block)]
    = Ok (head +:+ question +:+ middle +:+ block +:+ tail).
Proof.
  exists "
        以下は異なる専門家から提供された意見です。これらの意見を統合し、バランスの取れた包括的な結論を導き出してください。
        
        元の質問/トピック: ", "
        
        専門家の意見:
        ", "
        
        統合された結論:
        1. 主な合意点
        2. 重要な懸念事項
        3. 推奨されるアクション
        4. 追加で検討が必要な点
        
        結論:
        ".
  intros question block. reflexivity.
Qed.


(** If the loop of [get_expert_opinions] returns, every call was
    answered. *)
Lemma collect_loop_returns (chains : dict LLMChain) (l : llm) (question : string)
    (es : dict pyval) (acc r : dict string) (tr : list event) :
  (forall e, e ∈ es -> dict_item (fst e) chains = Ok (Spec.expert_chain l)) ->
  for_each es
    (fun opinions '(expert_id, expert_desc) =>
       chain ← lift (dict_item expert_id chains);
       response ← await (arun chain [("expert_role", expert_desc);
                                     ("question", PStr question)]);
       mret (dict_set expert_id response opinions)) acc = (Ok r, tr) ->
  Forall (Spec.answers l question) es.
Proof.
  revert acc tr. induction es as [|[id desc] es IH]; intros acc tr Hch Hrun; [constructor|].
  cbn [for_each] in Hrun.
  pose proof (Hch (id, desc) ltac:(left)) as Hc. simpl in Hc. rewrite Hc in Hrun.
  unfold lift in Hrun. rewrite M_bind_ok in Hrun.
  change [("expert_role", desc); ("question", PStr question)]
    with (Spec.expert_kwargs question (id, desc)) in Hrun.
  rewrite await_expert in Hrun.
  destruct (Spec.opinion_of l question (id, desc)) as [s|x] eqn:Hop.
  - rewrite !M_bind_ok in Hrun. cbn [fst snd mret M_ret] in Hrun.
    rewrite M_bind_ok in Hrun. cbn [fst snd] in Hrun.
    destruct (for_each es _ (dict_set id s acc)) as [r' tr'] eqn:Hrest.
    cbn [fst snd] in Hrun. injection Hrun as -> _.
    constructor; [by exists s|]. eapply IH; [|exact Hrest].
    intros e He. apply Hch. by right.
  - rewrite M_bind_raise in Hrun. cbn in Hrun. discriminate.
Qed.

(** C5, as the code has it. The block handed to the summary chain
    renders the collected opinions in the order of the roster, each
    under its upper-cased identifier, with a blank line between two
    blocks; the summary chain is called with the question and this
    block, and its prompt puts the question first and the block after
    it. *)
Theorem synthesis_prompt_layout (key question : string)
    (self : Chatbot.ExpertPanelChatbot) (opinions : dict string) :
  Chatbot.init key = Ok self ->
  fst (Chatbot.get_expert_opinions self question) = Ok opinions ->
  let block := Chatbot.formatted_opinions opinions in
  keys opinions = keys (Chatbot.experts self)
  /\ block = Spec.blocks opinions
  /\ (exists earlier answer,
        snd (Chatbot.get_integrated_response self question)
        = earlier ++ [Started (Chatbot.summary_chain self) (Spec.summary_kwargs question block);
                      Finished (Chatbot.summary_chain self) (Spec.summary_kwargs question block)
                        answer])
  /\ prompt (Chatbot.summary_chain self) = Chatbot.summary_prompt
  /\ exists head middle tail, forall q b,
       format Chatbot.summary_prompt [("original_question", q); ("expert_opinions", b)]
       = Ok (head +:+ q +:+ middle +:+ b +:+ tail).
Proof.
  intros Hinit Hops block.
  destruct (init_inv _ _ Hinit) as (Hexp & Hch & Hsum).
  assert (Hans : Forall (Spec.answers (Chatbot.self_llm self) question) (Chatbot.experts self)).
  { unfold Chatbot.get_expert_opinions in Hops.
    destruct (for_each _ _ _) as [r tr] eqn:Hrun. cbn in Hops. subst r.
    eapply collect_loop_returns; [|exact Hrun].
    intros e He. rewrite Hch. apply expert_chains_lookup. rewrite Hexp in He.
    unfold keys. apply list_elem_of_fmap. by exists e. }
  split.
  { rewrite (get_expert_opinions_run key question self Hinit Hans) in Hops.
    cbn in Hops. injection Hops as <-. apply keys_map_texts. }
  split; [apply formatted_opinions_blocks|]. split.
  { unfold Chatbot.get_integrated_response.
    destruct (Chatbot.get_expert_opinions self question) as [r tr]. cbn in Hops. subst r.
    rewrite M_bind_ok. fold block. unfold emit, log. rewrite M_bind_ok, await_arun.
    change [("original_question", PStr question); ("expert_opinions", PStr block)]
      with (Spec.summary_kwargs question block).
    destruct (generate _ _ _) as [final|x]; cbn [fst snd mbind M_mbind mret M_ret app].
    - exists (tr ++ [Shown (Print block)]), (Text final).
      by rewrite <- !app_assoc.
    - exists (tr ++ [Shown (Print block)]), (Fails x).
      by rewrite <- !app_assoc. }
  split; [by rewrite Hsum | apply summary_prompt_pieces].
Qed.

End Synthesis.

(** ** Occurrences in a text *)

Lemma strip_prefix_app (a r : string) : strip_prefix a (a +:+ r) = Some r.
Proof.
  induction a as [|c a IH]; [by destruct r|].
  simpl. by rewrite Ascii.eqb_refl.
Qed.

Lemma substringb_unfold (a s : string) :
  substringb a s =
    match strip_prefix a s with
    | Some _ => true
    | None => match s with EmptyString => false | String _ s' => substringb a s' end
    end.
Proof. by destruct s. Qed.

Lemma substringb_app (b m p : string) : substringb b (m +:+ b +:+ p) = true.
Proof.
  induction m as [|c m IH]; rewrite substringb_unfold.
  - change ("" +:+ b +:+ p) with (b +:+ p). by rewrite strip_prefix_app.
  - change (String c m +:+ b +:+ p) with (String c (m +:+ b +:+ p)).
    destruct (strip_prefix b _); [done | exact IH].
Qed.

Lemma precedesb_unfold (a b s : string) :
  precedesb a b s =
    match strip_prefix a s with
    | Some rest => substringb b rest
    | None => false
    end
    || match s with EmptyString => false | String _ s' => precedesb a b s' end.
Proof. by destruct s. Qed.

(** [precedesb] finds every occurrence of a text before another. *)
Lemma precedesb_complete (a b s : string) : Spec.precedes a b s -> precedesb a b s = true.
Proof.
  intros (before & between & after & ->).
  induction before as [|c before IH]; rewrite precedesb_unfold.
  - change ("" +:+ a +:+ between +:+ b +:+ after) with (a +:+ between +:+ b +:+ after).
    by rewrite strip_prefix_app, substringb_app.
  - change (String c before +:+ a +:+ between +:+ b +:+ after)
      with (String c (before +:+ a +:+ between +:+ b +:+ after)).
    apply orb_true_iff. right. exact IH.
Qed.

(** The amended C5 on the four experts of [chatbot.py]. *)
Lemma synthesis_prompt_layout_witness :
  let B := Stub.yes_backend in
  let U := Stub.ascii_upper in
  let cli := @Stub.cli B tt in
  let opinions :=
    map (fun e => (fst e, text_of (@Spec.opinion_of B tt "pick a pet" e)))
      Chatbot.default_experts in
  let block := @Chatbot.formatted_opinions U opinions in
  @Chatbot.init B "k" = Ok cli
  /\ fst (@Chatbot.get_expert_opinions B cli "pick a pet") = Ok opinions
  /\ keys opinions = keys (Chatbot.experts cli)
  /\ block = @Spec.blocks U opinions
  /\ (exists earlier answer,
        snd (@Chatbot.get_integrated_response B U cli "pick a pet")
        = earlier ++ [Started (Chatbot.summary_chain cli) (Spec.summary_kwargs "pick a pet" block);
                      Finished (Chatbot.summary_chain cli) (Spec.summary_kwargs "pick a pet" block)
                        answer])
  /\ prompt (Chatbot.summary_chain cli) = Chatbot.summary_prompt
  /\ exists head middle tail, forall q b,
       format Chatbot.summary_prompt [("original_question", q); ("expert_opinions", b)]
       = Ok (head +:+ q +:+ middle +:+ b +:+ tail).
Proof.
  intros B U cli opinions block.
  split; [reflexivity|]. split; [reflexivity|].
  exact (@synthesis_prompt_layout B U "k" "pick a pet" cli opinions eq_refl eq_refl).
Defined.

(** C5, as stated, fails: in the prompt of the summary chain the
    question comes before the block of opinions, and nowhere after
    it. *)
Lemma opinions_block_follows_question :
  let B := Stub.yes_backend in
  let U := Stub.ascii_upper in
  let cli := @Stub.cli B tt in
  let opinions :=
    map (fun e => (fst e, text_of (@Spec.opinion_of B tt "pick a pet" e)))
      Chatbot.default_experts in
  let block := @Chatbot.formatted_opinions U opinions in
  let sent := format Chatbot.summary_prompt
                [("original_question", "pick a pet"); ("expert_opinions", block)] in
  fst (@Chatbot.get_expert_opinions B cli "pick a pet") = Ok opinions
  /\ exists text,
       sent = Ok text
       /\ Spec.precedes "pick a pet" block text
       /\ ~ Spec.precedes block "pick a pet" text.
Proof.
  intros B U cli opinions block sent. split; [reflexivity|].
  destruct summary_prompt_pieces as (head & middle & tail & Hpieces).
  specialize (Hpieces "pick a pet" block). fold sent in Hpieces.
  exists (match sent with Ok text => text | Raise _ => "" end).
  split; [reflexivity|]. split.
  - exists head, middle, tail. by rewrite Hpieces.
  - intros Hp. apply precedesb_complete in Hp. vm_compute in Hp. discriminate.
Qed.

(* ===================================================================== *)
(** * Part III: further properties of the code                            *)
(* ===================================================================== *)

(** ** Assignment and deletion in a dict *)

Section DictEdits.
Context {V : Type}.
Implicit Types (d pre post : dict V) (k : string) (v : V).

Lemma keys_app pre post : keys (pre ++ post) = keys pre ++ keys post.
Proof. unfold keys. apply map_app. Qed.

Lemma dict_set_middle pre post k v v' :
  k ∉ keys pre ->
  dict_set k v' (pre ++ (k, v) :: post) = pre ++ (k, v') :: post.
Proof.
  induction pre as [|[k0 v0] pre IH]; simpl; intros Hn.
  - by rewrite String.eqb_refl.
  - destruct (String.eqb_spec k0 k) as [->|Hne].
    + exfalso. apply Hn. left.
    + f_equal. apply IH. intros Hin. apply Hn. by right.
Qed.

Lemma dict_del_middle pre post k v :
  k ∉ keys pre ->
  dict_del k (pre ++ (k, v) :: post) = pre ++ post.
Proof.
  induction pre as [|[k0 v0] pre IH]; simpl; intros Hn.
  - by rewrite String.eqb_refl.
  - destruct (String.eqb_spec k0 k) as [->|Hne].
    + exfalso. apply Hn. left.
    + f_equal. apply IH. intros Hin. apply Hn. by right.
Qed.

Lemma dict_get_middle pre post k v :
  k ∉ keys pre -> dict_get k (pre ++ (k, v) :: post) = Some v.
Proof.
  induction pre as [|[k0 v0] pre IH]; simpl; intros Hn.
  - by rewrite String.eqb_refl.
  - destruct (String.eqb_spec k0 k) as [->|Hne].
    + exfalso. apply Hn. left.
    + apply IH. intros Hin. apply Hn. by right.
Qed.

Lemma dict_get_None_fresh k d : dict_get k d = None <-> k ∉ keys d.
Proof.
  induction d as [|[k' v'] d IH]; simpl.
  - split; [intros _ Hin; inversion Hin | done].
  - destruct (String.eqb_spec k' k) as [->|Hne].
    + split; [done | intros Hn; exfalso; apply Hn; left].
    + rewrite IH. split.
      * intros Hn Hin. apply elem_of_cons in Hin as [->|Hin]; [done | auto].
      * intros Hn Hin. apply Hn. by right.
Qed.

(** A key of the dict splits it at its first occurrence. *)
Lemma dict_get_Some_split k v d :
  dict_get k d = Some v ->
  exists pre post, d = pre ++ (k, v) :: post /\ k ∉ keys pre.
Proof.
  induction d as [|[k' v'] d IH]; simpl; [done|].
  destruct (String.eqb_spec k' k) as [->|Hne].
  - intros [= ->]. exists [], d. split; [done | inversion 1].
  - intros Hg. destruct (IH Hg) as (pre & post & -> & Hn).
    exists ((k', v') :: pre), post. split; [done|].
    intros Hin. apply elem_of_cons in Hin as [->|Hin]; [done | auto].
Qed.

(** Assignment keeps the keys and their order when the key is there,
    and puts a new key last. *)
Lemma keys_dict_set k v d :
  keys (dict_set k v d) = if dict_get k d is Some _ then keys d else keys d ++ [k].
Proof.
  destruct (dict_get k d) as [v0|] eqn:Hg.
  - destruct (dict_get_Some_split _ _ _ Hg) as (pre & post & -> & Hn).
    rewrite dict_set_middle by done. by rewrite !keys_app.
  - apply dict_get_None_fresh in Hg. rewrite dict_set_fresh by done.
    by rewrite keys_app.
Qed.

Lemma dict_set_nodup k v d : NoDup (keys d) -> NoDup (keys (dict_set k v d)).
Proof.
  intros Hnd. rewrite keys_dict_set. destruct (dict_get k d) eqn:Hg; [done|].
  apply dict_get_None_fresh in Hg. apply NoDup_app. split; [done|]. split.
  - intros x Hx Hin. apply list_elem_of_singleton in Hin as ->. done.
  - apply NoDup_singleton.
Qed.

Lemma dict_del_sublist k d : keys (dict_del k d) `sublist_of` keys d.
Proof.
  induction d as [|[k' v'] d IH]; simpl; [done|].
  destruct (String.eqb k' k); simpl.
  - by apply sublist_cons.
  - by apply sublist_skip.
Qed.

Lemma dict_del_nodup k d : NoDup (keys d) -> NoDup (keys (dict_del k d)).
Proof. intros Hnd. eapply sublist_NoDup; [done | apply dict_del_sublist]. Qed.

Lemma dict_get_del k d : NoDup (keys d) -> dict_get k (dict_del k d) = None.
Proof.
  intros Hnd. destruct (dict_get k d) as [v|] eqn:Hg.
  - destruct (dict_get_Some_split _ _ _ Hg) as (pre & post & -> & Hn).
    rewrite dict_del_middle by done. apply dict_get_None_fresh.
    rewrite keys_app in Hnd |- *. cbn in Hnd.
    apply NoDup_app in Hnd as (_ & Hdisj & Hpost).
    apply NoDup_cons in Hpost as [Hk _].
    intros Hin. apply elem_of_app in Hin as [Hin|Hin]; done.
  - apply dict_get_None_fresh in Hg. apply dict_get_None_fresh.
    intros Hin. apply Hg. eapply elem_of_sublist; [done | apply dict_del_sublist].
Qed.

End DictEdits.

(** ** The sidebar of [chatbot3.py] *)

Lemma omap_keys_sublist {A} (f : string * A -> option (string * A)) (d : dict A) :
  (forall e e', f e = Some e' -> fst e' = fst e) ->
  keys (omap f d) `sublist_of` keys d.
Proof.
  intros Hf. induction d as [|e d IH]; [done|]. cbn.
  destruct (f e) as [e'|] eqn:He; cbn.
  - rewrite (Hf _ _ He). by apply sublist_skip.
  - by apply sublist_cons.
Qed.

Lemma edited3_key forms (e e' : string * pyval) :
  Roster.edited3 forms e = Some e' -> fst e' = fst e.
Proof.
  unfold Roster.edited3.
  destruct (Chatbot3.delete_clicked _); [done|].
  destruct (Chatbot3.update_clicked _); by intros [= <-].
Qed.

(** The loop over the entries, from any point of the roster on. *)
Lemma manage_experts3_from (forms : string -> Chatbot3.expert_form)
    (rest seen : dict pyval) :
  NoDup (keys (seen ++ rest)) ->
  Chatbot3.manage_experts forms rest (PDict (seen ++ rest))
  = (PDict (seen ++ omap (Roster.edited3 forms) rest), None).
Proof.
  revert seen. induction rest as [|[k v] rest IH]; intros seen Hnd; [done|].
  assert (Hk : k ∉ keys seen).
  { rewrite keys_app in Hnd. apply NoDup_app in Hnd as (_ & Hdisj & _).
    intros Hin. apply (Hdisj k Hin). left. }
  cbn [Chatbot3.manage_experts fst omap list_omap]. unfold Roster.edited3 at 1.
  unfold Chatbot3.manage_expert. cbn [fst setitem].
  destruct (Chatbot3.update_clicked (forms k)), (Chatbot3.delete_clicked (forms k));
    cbn [delitem].
  - rewrite dict_set_middle, dict_get_middle, dict_del_middle by done.
    apply IH. rewrite keys_app in Hnd |- *. cbn in Hnd.
    apply NoDup_app in Hnd as (H1 & H2 & H3). apply NoDup_cons in H3 as [_ H3].
    apply NoDup_app. split; [done|]. split; [|done].
    intros x Hx Hin. apply (H2 x Hx). by right.
  - rewrite dict_set_middle by done.
    rewrite (cons_middle _ seen rest), (cons_middle _ seen (omap _ rest)), !app_assoc.
    apply IH. rewrite <- app_assoc. cbn. rewrite keys_app in Hnd |- *. exact Hnd.
  - rewrite dict_get_middle, dict_del_middle by done.
    apply IH. rewrite keys_app in Hnd |- *. cbn in Hnd.
    apply NoDup_app in Hnd as (H1 & H2 & H3). apply NoDup_cons in H3 as [_ H3].
    apply NoDup_app. split; [done|]. split; [|done].
    intros x Hx Hin. apply (H2 x Hx). by right.
  - rewrite (cons_middle _ seen rest), (cons_middle _ seen (omap _ rest)), !app_assoc.
    apply IH. by rewrite <- app_assoc.
Qed.

(** X1. In [chatbot3.py], one run of the sidebar over a roster with
    distinct identifiers never raises. The form adds its expert first
    (the loop then sees it); the loop drops the entries whose delete
    button is clicked, replaces the description of those whose update
    button is clicked and keeps the others, all in the order of the
    roster; the identifiers stay distinct; the uploaded file, if any,
    is imported last. *)
Theorem expert_manager3_effect (add : Chatbot3.add_form)
    (forms : string -> Chatbot3.expert_form) (uploaded_file : option Json.file)
    (d : dict pyval) :
  NoDup (keys d) ->
  exists added,
    Chatbot3.add_expert add (PDict d) = Ok (PDict added)
    /\ NoDup (keys (omap (Roster.edited3 forms) added))
    /\ keys (omap (Roster.edited3 forms) added) `sublist_of` keys added
    /\ Chatbot3.expert_manager add forms uploaded_file (PDict d)
       = (fst (Chatbot3.import_experts uploaded_file
                 (PDict (omap (Roster.edited3 forms) added))), None).
Proof.
  intros Hnd.
  assert (Hadd : exists added, Chatbot3.add_expert add (PDict d) = Ok (PDict added)
                               /\ NoDup (keys added)).
  { unfold Chatbot3.add_expert.
    destruct (Chatbot3.add_clicked add); [|by exists d].
    destruct (_ && _); [|by exists d].
    eexists. split; [reflexivity|]. by apply dict_set_nodup. }
  destruct Hadd as (added & Hadd & Hnd'). exists added.
  assert (Hsub := omap_keys_sublist (Roster.edited3 forms) added (edited3_key forms)).
  split; [done|]. split; [by eapply sublist_NoDup|]. split; [done|].
  unfold Chatbot3.expert_manager. rewrite Hadd. cbn [items].
  pose proof (manage_experts3_from forms added [] Hnd') as Hm. cbn [app] in Hm.
  by rewrite Hm.
Qed.

Lemma expert_manager3_effect_witness :
  NoDup (keys Stub.pets)
  /\ exists added,
       Chatbot3.add_expert Stub.add3 (PDict Stub.pets) = Ok (PDict added)
       /\ NoDup (keys (omap (Roster.edited3 Stub.forms3) added))
       /\ keys (omap (Roster.edited3 Stub.forms3) added) `sublist_of` keys added
       /\ Chatbot3.expert_manager Stub.add3 Stub.forms3 None (PDict Stub.pets)
          = (fst (Chatbot3.import_experts None
                    (PDict (omap (Roster.edited3 Stub.forms3) added))), None).
Proof.
  split; [exact pets_nodup|].
  exact (expert_manager3_effect Stub.add3 Stub.forms3 None Stub.pets pets_nodup).
Defined.

(** ** The form that adds an expert *)

Lemma dict_set_assigned (k : string) (v : pyval) (d : dict pyval) :
  Roster.assigned k v d (dict_set k v d).
Proof.
  split; [|split].
  - rewrite dict_get_set. by rewrite String.eqb_refl.
  - apply keys_dict_set.
  - intros k' Hne. rewrite dict_get_set.
    destruct (String.eqb_spec k k') as [->|_]; [done|done].
Qed.

(** X2. The form that adds an expert changes the roster only when its
    button is clicked and none of its fields is the empty text (a field
    of blanks counts as filled). It then assigns the entry to the
    identifier: an identifier of the roster keeps its place and has its
    entry replaced without any warning, a new one goes last, and the
    other entries are untouched. On a roster that is not a dict the
    assignment raises [TypeError]. *)
Theorem add_expert_effect (f3 : Chatbot3.add_form) (f4 : Chatbot4.add_form)
    (d : dict pyval) (experts : pyval) :
  let submitted3 :=
    Chatbot3.add_clicked f3
    && negb (String.eqb (Chatbot3.new_expert_id f3) "")
    && negb (String.eqb (Chatbot3.new_expert_desc f3) "") in
  let submitted4 :=
    Chatbot4.add_clicked f4
    && negb (String.eqb (Chatbot4.new_expert_id f4) "")
    && negb (String.eqb (Chatbot4.new_expert_name f4) "")
    && negb (String.eqb (Chatbot4.new_expert_avatar f4) "")
    && negb (String.eqb (Chatbot4.new_expert_desc f4) "") in
  (if submitted3 then
     (exists d', Chatbot3.add_expert f3 (PDict d) = Ok (PDict d')
                 /\ Roster.assigned (Chatbot3.new_expert_id f3)
                      (PStr (Chatbot3.new_expert_desc f3)) d d')
     /\ ((forall d0, experts <> PDict d0) ->
         Chatbot3.add_expert f3 experts = Raise TypeError)
   else Chatbot3.add_expert f3 experts = Ok experts)
  /\ (if submitted4 then
        (exists d', Chatbot4.add_expert f4 (PDict d) = Ok (PDict d')
                    /\ Roster.assigned (Chatbot4.new_expert_id f4)
                         (PDict [("description", PStr (Chatbot4.new_expert_desc f4));
                                 ("avatar", PStr (Chatbot4.new_expert_avatar f4));
                                 ("name", PStr (Chatbot4.new_expert_name f4))]) d d')
        /\ ((forall d0, experts <> PDict d0) ->
            Chatbot4.add_expert f4 experts = Raise TypeError)
      else Chatbot4.add_expert f4 experts = Ok experts).
Proof.
  intros submitted3 submitted4. split.
  - subst submitted3. unfold Chatbot3.add_expert. cbn [truthy].
    destruct (Chatbot3.add_clicked f3); cbn [andb]; [|done].
    destruct (negb _ && negb _); [|done]. split.
    + eexists. split; [reflexivity | apply dict_set_assigned].
    + intros Hnd. destruct experts; try done. by destruct (Hnd d0).
  - subst submitted4. unfold Chatbot4.add_expert. cbn [truthy forallb].
    destruct (Chatbot4.add_clicked f4); cbn [andb]; [|done].
    rewrite andb_true_r, !andb_assoc.
    destruct (negb _ && negb _ && negb _ && negb _); [|done]. split.
    + eexists. split; [reflexivity | apply dict_set_assigned].
    + intros Hnd. destruct experts; try done. by destruct (Hnd d0).
Qed.

(** ** The sidebar of [chatbot4.py] *)

Local Ltac in_list :=
  solve [repeat first [apply list_elem_of_here | apply list_elem_of_further]].

Lemma read_entry_complete (v : pyval) :
  Chatbot4.read_entry v = Ok tt <-> Roster.complete_entry v.
Proof.
  unfold Chatbot4.read_entry. split.
  - destruct v as [| | | | |fields]; try done. cbn.
    destruct (dict_get "name" fields) as [n|] eqn:Hn; [|done]. cbn.
    destruct (dict_get "avatar" fields) as [a|] eqn:Ha; [|done]. cbn.
    destruct (dict_get "description" fields) as [d|] eqn:Hd; [|done].
    intros _. by exists fields, d, a, n.
  - intros (fields & d & a & n & -> & Hd & Ha & Hn). cbn.
    rewrite Hn. cbn. rewrite Ha. cbn. by rewrite Hd.
Qed.

Lemma read_entry_incomplete (v : pyval) :
  ~ Roster.complete_entry v ->
  exists x, Chatbot4.read_entry v = Raise x
            /\ (x = TypeError
                \/ x ∈ [KeyError "name"; KeyError "avatar"; KeyError "description"]).
Proof.
  intros Hv. destruct (Chatbot4.read_entry v) as [[]|x] eqn:Hr.
  { by apply read_entry_complete in Hr. }
  exists x. split; [done|]. unfold Chatbot4.read_entry in Hr.
  destruct v as [| | | | |fields]; try (left; cbn in Hr; congruence).
  right. cbn in Hr.
  destruct (dict_get "name" fields); cbn in Hr; [|injection Hr as <-; in_list].
  destruct (dict_get "avatar" fields); cbn in Hr; [|injection Hr as <-; in_list].
  destruct (dict_get "description" fields); cbn in Hr; [done|injection Hr as <-; in_list].
Qed.


Lemma edited4_key forms (e e' : string * pyval) :
  Roster.edited4 forms e = Some e' -> fst e' = fst e.
Proof.
  unfold Roster.edited4.
  destruct (Chatbot4.delete_clicked _); [done|].
  destruct (Chatbot4.update_clicked _); by intros [= <-].
Qed.



Lemma nodup_keys_drop {A} (seen rest tail : dict A) (e : string * A) :
  NoDup (keys (seen ++ (e :: rest) ++ tail)) -> NoDup (keys (seen ++ rest ++ tail)).
Proof.
  rewrite !keys_app. cbn. intros Hnd.
  apply NoDup_app in Hnd as (H1 & H2 & H3). apply NoDup_cons in H3 as [_ H3].
  apply NoDup_app. split; [done|]. split; [|done].
  intros x Hx Hin. apply (H2 x Hx). by right.
Qed.

(** The loop over a stretch of complete entries of the roster. *)
Lemma manage_experts4_from (forms : string -> Chatbot4.expert_form)
    (rest seen tail : dict pyval) :
  NoDup (keys (seen ++ rest ++ tail)) ->
  Roster.complete rest ->
  Chatbot4.manage_experts forms rest (PDict (seen ++ rest ++ tail))
  = (PDict (seen ++ omap (Roster.edited4 forms) rest ++ tail), None).
Proof.
  revert seen. induction rest as [|[k v] rest IH]; intros seen Hnd Hc; [done|].
  assert (Hk : k ∉ keys seen).
  { rewrite keys_app in Hnd. apply NoDup_app in Hnd as (_ & Hdisj & _).
    intros Hin. apply (Hdisj k Hin). left. }
  apply Forall_cons in Hc as [Hv Hc]. apply read_entry_complete in Hv.
  cbn [Chatbot4.manage_experts fst omap list_omap]. unfold Roster.edited4 at 1.
  unfold Chatbot4.manage_expert. cbn [fst snd] in *. rewrite Hv. cbn [setitem app].
  destruct (Chatbot4.update_clicked (forms k)), (Chatbot4.delete_clicked (forms k));
    cbn [delitem].
  - rewrite dict_set_middle, dict_get_middle, dict_del_middle by done.
    apply IH; [by eapply nodup_keys_drop | done].
  - rewrite dict_set_middle by done. cbn [app].
    rewrite (cons_middle _ seen (rest ++ tail)), (cons_middle _ seen (omap _ rest ++ tail)),
      !(app_assoc seen [_]).
    apply IH; [|done]. rewrite <- app_assoc. cbn. rewrite !keys_app in Hnd |- *. exact Hnd.
  - rewrite dict_get_middle, dict_del_middle by done.
    apply IH; [by eapply nodup_keys_drop | done].
  - cbn [app].
    rewrite (cons_middle _ seen (rest ++ tail)), (cons_middle _ seen (omap _ rest ++ tail)),
      !(app_assoc seen [_]).
    apply IH; [|done]. by rewrite <- app_assoc.
Qed.

Lemma manage_experts4_app (forms : string -> Chatbot4.expert_form)
    (a b : list (string * pyval)) (experts : pyval) :
  Chatbot4.manage_experts forms (a ++ b) experts
  = match Chatbot4.manage_experts forms a experts with
    | (experts', None) => Chatbot4.manage_experts forms b experts'
    | stopped => stopped
    end.
Proof.
  revert experts. induction a as [|e a IH]; intros experts; [done|].
  cbn [app Chatbot4.manage_experts].
  destruct (Chatbot4.manage_expert _ _ _) as [experts' [x|]]; [done | apply IH].
Qed.


Lemma pets4_nodup : NoDup (keys Stub.pets4).
Proof. apply (bool_decide_unpack _). vm_compute. exact I. Defined.

Lemma pets4_complete : Roster.complete Stub.pets4.
Proof.
  repeat (apply List.Forall_cons;
          [eexists _, _, _, _; repeat split; reflexivity|]).
  apply List.Forall_nil.
Defined.


(** X4. In [chatbot4.py], an entry that lacks its name, its avatar or
    its description, or is not a dict, makes the sidebar raise when the
    loop reaches it: the entries before it are managed, the entry and
    those after it are left as they are, and the uploaded file is not
    imported. The exception is [TypeError] or the [KeyError] of one of
    the three fields. *)
Theorem expert_manager4_stops_at_incomplete_entry (add : Chatbot4.add_form)
    (forms : string -> Chatbot4.expert_form) (uploaded_file : option Json.file)
    (experts : pyval) (before after : dict pyval) (k : string) (v : pyval) :
  Chatbot4.add_expert add experts = Ok (PDict (before ++ (k, v) :: after)) ->
  NoDup (keys (before ++ (k, v) :: after)) ->
  Roster.complete before ->
  ~ Roster.complete_entry v ->
  exists x,
    Chatbot4.read_entry v = Raise x
    /\ (x = TypeError
        \/ x ∈ [KeyError "name"; KeyError "avatar"; KeyError "description"])
    /\ Chatbot4.expert_manager add forms uploaded_file experts
       = (PDict (omap (Roster.edited4 forms) before ++ (k, v) :: after), Some x).
Proof.
  intros Hadd Hnd Hc Hv.
  destruct (read_entry_incomplete v Hv) as (x & Hr & Hx).
  exists x. split; [done|]. split; [done|].
  unfold Chatbot4.expert_manager. rewrite Hadd. cbn [items].
  rewrite manage_experts4_app.
  pose proof (manage_experts4_from forms before [] ((k, v) :: after) Hnd Hc) as Hm.
  cbn [app] in Hm. rewrite Hm.
  cbn [Chatbot4.manage_experts fst]. unfold Chatbot4.manage_expert. by rewrite Hr.
Qed.

Lemma expert_manager4_stops_at_incomplete_entry_witness :
  let before := [hd ("", PNone) Stub.strays] in
  let after := tl (tl Stub.strays) in
  Chatbot4.add_expert Stub.idle4 (PDict Stub.strays)
    = Ok (PDict (before ++ ("b", Stub.nameless) :: after))
  /\ NoDup (keys (before ++ ("b", Stub.nameless) :: after))
  /\ Roster.complete before
  /\ ~ Roster.complete_entry Stub.nameless
  /\ exists x,
       Chatbot4.read_entry Stub.nameless = Raise x
       /\ (x = TypeError
           \/ x ∈ [KeyError "name"; KeyError "avatar"; KeyError "description"])
       /\ Chatbot4.expert_manager Stub.idle4 Stub.forms4
            (Some (Some (Json.dumps (PDict Stub.pets4)))) (PDict Stub.strays)
          = (PDict (omap (Roster.edited4 Stub.forms4) before
                      ++ ("b", Stub.nameless) :: after), Some x).
Proof.
  intros before after.
  assert (Hnd : NoDup (keys (before ++ ("b", Stub.nameless) :: after))).
  { apply (bool_decide_unpack _). vm_compute. exact I. }
  assert (Hc : Roster.complete before).
  { apply List.Forall_cons; [|apply List.Forall_nil].
    eexists _, _, _, _. repeat split; reflexivity. }
  assert (Hv : ~ Roster.complete_entry Stub.nameless).
  { intros (fields & d & a & n & [= <-] & _ & _ & Hn). discriminate Hn. }
  split; [reflexivity|]. split; [exact Hnd|]. split; [exact Hc|]. split; [exact Hv|].
  exact (expert_manager4_stops_at_incomplete_entry Stub.idle4 Stub.forms4
           (Some (Some (Json.dumps (PDict Stub.pets4)))) (PDict Stub.strays)
           before after "b" Stub.nameless eq_refl Hnd Hc Hv).
Defined.

(** ** What an import leaves in the session state *)

Lemma dict_set_Forall {V} (P : string * V -> Prop) (k : string) (v : V) (d : dict V) :
  P (k, v) -> (forall k' v', P (k', v') -> String.eqb k' k = true -> P (k', v)) ->
  Forall P d -> Forall P (dict_set k v d).
Proof.
  intros Hv Hk. induction 1 as [|[k' v'] d Hv' Hd IH]; cbn.
  - by repeat constructor.
  - destruct (String.eqb k' k) eqn:He; constructor; try done. by eapply Hk.
Qed.

Lemma wf_dict_of_pairs (l acc : dict pyval) :
  NoDup (keys acc) -> Forall (fun kv => wf (snd kv)) acc ->
  Forall (fun kv => wf (snd kv)) l ->
  let d := fold_left (fun d kv => dict_set (fst kv) (snd kv) d) l acc in
  NoDup (keys d) /\ Forall (fun kv => wf (snd kv)) d.
Proof.
  revert acc. induction l as [|[k v] l IH]; intros acc Hnd Hacc Hl; [done|].
  apply Forall_cons in Hl as [Hv Hl]. cbn. apply IH; [|  |done].
  - by apply dict_set_nodup.
  - by apply dict_set_Forall.
Qed.

Lemma wf_value_of (j : Json.doc) : wf (Json.value_of j).
Proof.
  induction j as [| b | q | s | xs IH | ms IH] using Json.doc_nested_ind;
    try by constructor.
  - cbn. constructor. induction IH; by constructor.
  - cbn. unfold dict_of_pairs.
    destruct (wf_dict_of_pairs (map (fun kv => (fst kv, Json.value_of (snd kv))) ms) [])
      as [Hnd Hwf]; [constructor | constructor | | by constructor].
    induction IH; by constructor.
Qed.

(** X5. Whatever file is uploaded, an import leaves a roster without a
    repeated key at any level if the roster had none before, and the
    roster it leaves is reproduced by an export followed by an import. *)
Theorem imported_roster_survives_export (uploaded_file : option Json.file)
    (experts other : pyval) :
  wf experts ->
  let imported3 := fst (Chatbot3.import_experts uploaded_file experts) in
  let imported4 := fst (Chatbot4.import_experts uploaded_file experts) in
  wf imported3
  /\ fst (Chatbot3.import_experts (Some (Chatbot3.export_data imported3)) other) = imported3
  /\ wf imported4
  /\ fst (Chatbot4.import_experts (Some (Chatbot4.export_data imported4)) other) = imported4.
Proof.
  intros Hwf imported3 imported4.
  assert (H3 : wf imported3).
  { subst imported3. destruct uploaded_file as [[j|]|]; cbn; [apply wf_value_of | done | done]. }
  assert (H4 : wf imported4).
  { subst imported4. destruct uploaded_file as [[j|]|]; cbn; [apply wf_value_of | done | done]. }
  split; [done|]. split.
  { unfold Chatbot3.import_experts, Chatbot3.export_data. by rewrite load_dumps. }
  split; [done|].
  unfold Chatbot4.import_experts, Chatbot4.export_data. by rewrite load_dumps.
Qed.

Lemma imported_roster_survives_export_witness :
  let file := Some (Some (Json.JObj [("a", Json.JStr "x"); ("a", Json.JStr "y")])) in
  wf (PDict Stub.pets)
  /\ wf (fst (Chatbot3.import_experts file (PDict Stub.pets)))
  /\ fst (Chatbot3.import_experts
            (Some (Chatbot3.export_data (fst (Chatbot3.import_experts file (PDict Stub.pets)))))
            PNone)
     = fst (Chatbot3.import_experts file (PDict Stub.pets))
  /\ wf (fst (Chatbot4.import_experts file (PDict Stub.pets)))
  /\ fst (Chatbot4.import_experts
            (Some (Chatbot4.export_data (fst (Chatbot4.import_experts file (PDict Stub.pets)))))
            PNone)
     = fst (Chatbot4.import_experts file (PDict Stub.pets)).
Proof.
  intros file.
  assert (Hwf : wf (PDict Stub.pets)).
  { constructor; [exact pets_nodup | repeat constructor]. }
  split; [exact Hwf|].
  exact (imported_roster_survives_export file (PDict Stub.pets) PNone Hwf).
Defined.

(** ** The model configuration *)

Lemma list_contains_text (k : string) (xs : list Json.doc) :
  Json.JStr k ∈ xs ->
  contains k (PList (map Json.value_of xs)) = Ok true.
Proof.
  intros Hin. cbn. f_equal. apply existsb_exists.
  exists (PStr k). split; [|apply String.eqb_refl].
  apply in_map_iff. exists (Json.JStr k). split; [done|]. by apply list_elem_of_In.
Qed.

(** X6. The import of a model configuration also accepts a JSON array
    that has the texts [model_name] and [temperature] among its
    elements, and a JSON text in which both words occur: the two
    membership tests pass on them. With such a configuration the
    constructor raises [AttributeError], whatever the key and the
    roster, and the select box of the sidebar raises [TypeError]. *)
Theorem import_model_config_accepts_arrays_and_texts (xs : list Json.doc) (s : string)
    (before : pyval) :
  Json.JStr "model_name" ∈ xs ->
  Json.JStr "temperature" ∈ xs ->
  substringb "model_name" s = true ->
  substringb "temperature" s = true ->
  Chatbot4.import_model_config (Some (Some (Json.JArr xs))) before
    = (PList (map Json.value_of xs), [Success "モデル設定がインポートされました！"])
  /\ Chatbot4.import_model_config (Some (Some (Json.JStr s))) before
     = (PStr s, [Success "モデル設定がインポートされました！"])
  /\ forall model_config, model_config ∈ [PList (map Json.value_of xs); PStr s] ->
       Chatbot4.selected_index model_config = Raise TypeError
       /\ forall (B : Backend) key experts,
            @Chatbot4.init B key experts model_config = Raise AttributeError.
Proof.
  intros Hm Ht Hsm Hst. split; [|split].
  - unfold Chatbot4.import_model_config.
    cbn [Json.load mbind result_mbind rbind Json.value_of].
    change ((fix map (l : list Json.doc) : list pyval :=
               match l with [] => [] | a :: l0 => Json.value_of a :: map l0 end) xs)
      with (map Json.value_of xs).
    rewrite !list_contains_text by done. reflexivity.
  - unfold Chatbot4.import_model_config.
    cbn [Json.load mbind result_mbind rbind Json.value_of contains].
    rewrite Hsm. cbn [mbind result_mbind rbind]. by rewrite Hst.
  - intros cfg Hcfg. apply elem_of_cons in Hcfg as [->|Hcfg];
      [|apply elem_of_cons in Hcfg as [->|Hcfg]; [|by apply elem_of_nil in Hcfg]];
      (split; [done|]); intros B key experts; reflexivity.
Qed.

Lemma import_model_config_accepts_arrays_and_texts_witness :
  let xs := [Json.JStr "model_name"; Json.JStr "temperature"] in
  let s := "model_name, temperature" in
  Json.JStr "model_name" ∈ xs
  /\ Json.JStr "temperature" ∈ xs
  /\ substringb "model_name" s = true
  /\ substringb "temperature" s = true
  /\ Chatbot4.import_model_config (Some (Some (Json.JArr xs))) Chatbot4.default_model_config
     = (PList (map Json.value_of xs), [Success "モデル設定がインポートされました！"])
  /\ Chatbot4.import_model_config (Some (Some (Json.JStr s))) Chatbot4.default_model_config
     = (PStr s, [Success "モデル設定がインポートされました！"])
  /\ forall model_config, model_config ∈ [PList (map Json.value_of xs); PStr s] ->
       Chatbot4.selected_index model_config = Raise TypeError
       /\ forall (B : Backend) key experts,
            @Chatbot4.init B key experts model_config = Raise AttributeError.
Proof.
  intros xs s.
  assert (Hm : Json.JStr "model_name" ∈ xs) by apply list_elem_of_here.
  assert (Ht : Json.JStr "temperature" ∈ xs)
    by apply list_elem_of_further, list_elem_of_here.
  split; [exact Hm|]. split; [exact Ht|]. split; [reflexivity|]. split; [reflexivity|].
  exact (import_model_config_accepts_arrays_and_texts xs s Chatbot4.default_model_config
           Hm Ht eq_refl eq_refl).
Defined.

Lemma names_get (field : string) (ms : list (string * Json.doc)) :
  Json.names field ms = true ->
  exists v, getitem (Json.value_of (Json.JObj ms)) field = Ok v.
Proof.
  intros Hn. pose proof (contains_value_of_object field ms) as Hc.
  rewrite Hn in Hc. cbn in Hc |- *.
  destruct (dict_get field _) as [v|]; [by exists v | done].
Qed.

(** X7. The import of a model configuration does not look at the value
    of [model_name]: a JSON object with the two fields is accepted
    whatever model it names. When the name is not the text of one of
    the models the select box offers, the select box then raises
    [ValueError], at every run of the script from the next one on. *)
Theorem import_model_config_accepts_unknown_model (ms : list (string * Json.doc))
    (before : pyval) :
  Json.names "model_name" ms = true ->
  Json.names "temperature" ms = true ->
  (forall m, m ∈ Chatbot4.available_models ->
     getitem (Json.value_of (Json.JObj ms)) "model_name" <> Ok (PStr m)) ->
  Chatbot4.import_model_config (Some (Some (Json.JObj ms))) before
    = (Json.value_of (Json.JObj ms), [Success "モデル設定がインポートされました！"])
  /\ Chatbot4.selected_index (Json.value_of (Json.JObj ms)) = Raise ValueError.
Proof.
  intros Hm Ht Hunknown. split.
  - unfold Chatbot4.import_model_config. cbn [Json.load mbind result_mbind rbind].
    rewrite !contains_value_of_object, Hm, Ht. reflexivity.
  - unfold Chatbot4.selected_index.
    destruct (names_get _ _ Hm) as (v & Hv). rewrite Hv in Hunknown |- *.
    cbn [mbind result_mbind rbind]. unfold Chatbot4.available_models in *.
    destruct v as [| | |name| |]; try reflexivity.
    cbn [list_index]. destruct (String.eqb_spec "gpt-4o-mini" name) as [<-|_].
    { exfalso. apply (Hunknown "gpt-4o-mini"); [apply list_elem_of_here | done]. }
    destruct (String.eqb_spec "gpt-4o" name) as [<-|_]; [|done].
    exfalso. apply (Hunknown "gpt-4o"); [|done].
    apply list_elem_of_further, list_elem_of_here.
Qed.

Lemma import_model_config_accepts_unknown_model_witness :
  let ms := [("model_name", Json.JStr "gpt-5"); ("temperature", Json.JNum (1 # 2))] in
  Json.names "model_name" ms = true
  /\ Json.names "temperature" ms = true
  /\ (forall m, m ∈ Chatbot4.available_models ->
        getitem (Json.value_of (Json.JObj ms)) "model_name" <> Ok (PStr m))
  /\ Chatbot4.import_model_config (Some (Some (Json.JObj ms))) Chatbot4.default_model_config
     = (Json.value_of (Json.JObj ms), [Success "モデル設定がインポートされました！"])
  /\ Chatbot4.selected_index (Json.value_of (Json.JObj ms)) = Raise ValueError.
Proof.
  intros ms.
  assert (Hu : forall m, m ∈ Chatbot4.available_models ->
                 getitem (Json.value_of (Json.JObj ms)) "model_name" <> Ok (PStr m)).
  { intros m Hin [= <-]. revert Hin. apply (bool_decide_unpack _). vm_compute. exact I. }
  split; [reflexivity|]. split; [reflexivity|]. split; [exact Hu|].
  exact (import_model_config_accepts_unknown_model ms Chatbot4.default_model_config
           eq_refl eq_refl Hu).
Defined.

(** ** The constructor of [chatbot4.py] *)

Section Constructor4.
Context `{Backend} `{StrMethods}.

Lemma descriptions_of (d : dict pyval) :
  Forall (fun kv => Spec.has_description (snd kv)) d ->
  rmap (fun '(k, v) => d ← getitem v "description"; mret (k, d)) d
  = Ok (map (fun e => (fst e, Roster.field "description" (snd e))) d).
Proof.
  induction 1 as [|[k v] d Hv _ IH]; [done|].
  destruct Hv as (fields & x & Hv & Hx). cbn in Hv. subst v.
  cbn [rmap]. rewrite IH. unfold Roster.field. cbn. by rewrite Hx.
Qed.

Lemma expert_chains4_lookup (l : llm) (es : dict pyval) (id : string) :
  id ∈ keys es ->
  dict_item id (Chatbot4.initialize_expert_chains l es) = Ok (Roster.expert_chain l).
Proof.
  intros Hin. unfold Chatbot4.initialize_expert_chains, dict_item.
  assert (Hgen : forall acc : dict LLMChain,
            (id ∈ keys es \/ dict_get id acc = Some (Roster.expert_chain l)) ->
            dict_get id
              (fold_left
                 (fun expert_chains '(expert_id, _) =>
                    dict_set expert_id
                      {| chain_llm := l; prompt := Chatbot4.expert_prompt |} expert_chains)
                 es acc) = Some (Roster.expert_chain l)).
  { clear Hin. induction es as [|[k v] es IH]; intros acc [Hk|Hacc]; cbn.
    - by apply elem_of_nil in Hk.
    - done.
    - apply IH. cbn in Hk. apply elem_of_cons in Hk as [->|Hk]; [right|by left].
      rewrite dict_get_set. by rewrite String.eqb_refl.
    - apply IH. right. rewrite dict_get_set.
      by destruct (String.eqb k id). }
  rewrite Hgen; [done | by left].
Qed.

(** The constructor over a roster whose entries have a description. *)
Lemma init4_returns (key : string) (model_config d : dict pyval) (l : llm) :
  ChatOpenAI (default (PStr "gpt-4o-mini") (dict_get "model_name" model_config))
             (default (PNum (7 # 10)) (dict_get "temperature" model_config)) key = Ok l ->
  NoDup (keys d) ->
  Forall (fun kv => Spec.has_description (snd kv)) d ->
  exists self,
    Chatbot4.init key (PDict d) (PDict model_config) = Ok self
    /\ Chatbot4.self_llm self = l
    /\ Chatbot4.experts self = map (fun e => (fst e, Roster.field "description" (snd e))) d
    /\ Chatbot4.summary_chain self = Roster.summary_chain l
    /\ forall id, id ∈ keys d ->
         dict_item id (Chatbot4.expert_chains self) = Ok (Roster.expert_chain l).
Proof.
  intros Hl Hnd Hd. unfold Chatbot4.init. cbn [get].
  assert (Hname : (match dict_get "model_name" model_config with
                   | Some x => Ok x | None => Ok (PStr "gpt-4o-mini") end : result pyval)
                  = Ok (default (PStr "gpt-4o-mini") (dict_get "model_name" model_config)))
    by by destruct (dict_get "model_name" model_config).
  assert (Htemp : (match dict_get "temperature" model_config with
                   | Some x => Ok x | None => Ok (PNum (7 # 10)) end : result pyval)
                  = Ok (default (PNum (7 # 10)) (dict_get "temperature" model_config)))
    by by destruct (dict_get "temperature" model_config).
  rewrite Hname. cbn [mbind result_mbind rbind]. rewrite Htemp.
  cbn [mbind result_mbind rbind]. rewrite Hl. cbn [mbind result_mbind rbind items].
  rewrite (descriptions_of d Hd). cbn [mbind result_mbind rbind mret result_ret].
  assert (Hkeys : keys (map (fun e : string * pyval =>
                               (fst e, Roster.field "description" (snd e))) d) = keys d).
  { unfold keys. rewrite map_map. done. }
  rewrite dict_of_pairs_nodup by by rewrite Hkeys.
  eexists. split; [reflexivity|]. cbn. repeat split.
  intros id Hid. apply expert_chains4_lookup. by rewrite Hkeys.
Qed.

(** X8. The constructor of [chatbot4.py] needs nothing of the roster
    but the descriptions: over a dict roster with distinct identifiers
    whose entries all have a description, with a dict configuration the
    client accepts, it returns a panel that holds the descriptions in
    the order of the roster and a chain for every identifier. Names and
    avatars are not looked at. *)
Theorem init_needs_only_descriptions (key : string) (model_config d : dict pyval) (l : llm) :
  ChatOpenAI (default (PStr "gpt-4o-mini") (dict_get "model_name" model_config))
             (default (PNum (7 # 10)) (dict_get "temperature" model_config)) key = Ok l ->
  NoDup (keys d) ->
  Forall (fun kv => Spec.has_description (snd kv)) d ->
  exists self,
    Chatbot4.init key (PDict d) (PDict model_config) = Ok self
    /\ Chatbot4.self_llm self = l
    /\ Chatbot4.experts self = map (fun e => (fst e, Roster.field "description" (snd e))) d
    /\ Chatbot4.summary_chain self = Roster.summary_chain l
    /\ forall id, id ∈ keys d ->
         dict_item id (Chatbot4.expert_chains self) = Ok (Roster.expert_chain l).
Proof. apply init4_returns. Qed.

End Constructor4.

Lemma init_needs_only_descriptions_witness :
  let B := Stub.yes_backend in
  let cfg := [("model_name", PStr "gpt-4o")] in
  let d := [("b", Stub.nameless)] in
  @ChatOpenAI B (default (PStr "gpt-4o-mini") (dict_get "model_name" cfg))
     (default (PNum (7 # 10)) (dict_get "temperature" cfg)) "k" = Ok tt
  /\ NoDup (keys d)
  /\ Forall (fun kv => Spec.has_description (snd kv)) d
  /\ exists self,
       @Chatbot4.init B "k" (PDict d) (PDict cfg) = Ok self
       /\ Chatbot4.self_llm self = tt
       /\ Chatbot4.experts self = map (fun e => (fst e, Roster.field "description" (snd e))) d
       /\ Chatbot4.summary_chain self = @Roster.summary_chain B tt
       /\ forall id, id ∈ keys d ->
            dict_item id (Chatbot4.expert_chains self) = Ok (@Roster.expert_chain B tt).
Proof.
  intros B cfg d.
  assert (Hnd : NoDup (keys d)).
  { apply (bool_decide_unpack _). vm_compute. exact I. }
  assert (Hd : Forall (fun kv => Spec.has_description (snd kv)) d).
  { apply List.Forall_cons; [|apply List.Forall_nil]. eexists _, _. split; reflexivity. }
  split; [reflexivity|]. split; [exact Hnd|]. split; [exact Hd|].
  exact (@init_needs_only_descriptions B "k" cfg d tt eq_refl Hnd Hd).
Defined.

(** ** A roster that is not a dict *)

(** X9. An import accepts every JSON document. When the document is
    not an object, the roster it leaves breaks the sidebar: every later
    run raises [TypeError] at the form, if the form is submitted, and
    [AttributeError] at the loop otherwise; the roster stays as it is
    and the upload of that run is not imported. *)
Theorem non_object_roster_breaks_sidebar (j : Json.doc) (before : pyval)
    (add3 : Chatbot3.add_form) (forms3 : string -> Chatbot3.expert_form)
    (add4 : Chatbot4.add_form) (forms4 : string -> Chatbot4.expert_form)
    (uploaded_file : option Json.file) :
  (forall ms, j <> Json.JObj ms) ->
  let experts := Json.value_of j in
  Chatbot3.import_experts (Some (Some j)) before
    = (experts, [Success "設定がインポートされました！"])
  /\ Chatbot4.import_experts (Some (Some j)) before
     = (experts, [Success "設定がインポートされました！"])
  /\ Chatbot3.expert_manager add3 forms3 uploaded_file experts
     = (experts,
        Some (match Chatbot3.add_expert add3 experts with
              | Raise _ => TypeError
              | Ok _ => AttributeError
              end))
  /\ Chatbot4.expert_manager add4 forms4 uploaded_file experts
     = (experts,
        Some (match Chatbot4.add_expert add4 experts with
              | Raise _ => TypeError
              | Ok _ => AttributeError
              end)).
Proof.
  intros Hj experts. split; [done|]. split; [done|].
  assert (Hset : forall k x, setitem experts k x = Raise TypeError).
  { intros k x. subst experts. destruct j; try done. by destruct (Hj members). }
  assert (Hitems : items experts = Raise AttributeError).
  { subst experts. destruct j; try done. by destruct (Hj members). }
  split.
  - unfold Chatbot3.expert_manager, Chatbot3.add_expert.
    destruct (Chatbot3.add_clicked add3); [|by rewrite Hitems].
    destruct (_ && _); [by rewrite Hset | by rewrite Hitems].
  - unfold Chatbot4.expert_manager, Chatbot4.add_expert.
    destruct (Chatbot4.add_clicked add4); [|by rewrite Hitems].
    destruct (forallb _ _); [by rewrite Hset | by rewrite Hitems].
Qed.

Lemma non_object_roster_breaks_sidebar_witness :
  let j := Json.JArr [Json.JStr "a"] in
  let experts := Json.value_of j in
  (forall ms, j <> Json.JObj ms)
  /\ Chatbot3.import_experts (Some (Some j)) (PDict Stub.pets)
     = (experts, [Success "設定がインポートされました！"])
  /\ Chatbot4.import_experts (Some (Some j)) (PDict Stub.pets)
     = (experts, [Success "設定がインポートされました！"])
  /\ Chatbot3.expert_manager Stub.add3 Stub.forms3
       (Some (Some (Json.dumps (PDict Stub.pets)))) experts
     = (experts,
        Some (match Chatbot3.add_expert Stub.add3 experts with
              | Raise _ => TypeError
              | Ok _ => AttributeError
              end))
  /\ Chatbot4.expert_manager Stub.idle4 Stub.forms4
       (Some (Some (Json.dumps (PDict Stub.pets)))) experts
     = (experts,
        Some (match Chatbot4.add_expert Stub.idle4 experts with
              | Raise _ => TypeError
              | Ok _ => AttributeError
              end)).
Proof.
  intros j experts.
  assert (Hj : forall ms, j <> Json.JObj ms) by (intros ms; discriminate).
  split; [exact Hj|].
  exact (non_object_roster_breaks_sidebar j (PDict Stub.pets) Stub.add3 Stub.forms3
           Stub.idle4 Stub.forms4 (Some (Some (Json.dumps (PDict Stub.pets)))) Hj).
Defined.

(** ** The sequential collectors of [chatbot.py] and [chatbot2.py] *)

Section Sequential2.
Context `{Backend} `{StrMethods}.

(** The loop of [get_expert_opinions] stops at the first call that
    fails. *)
Lemma collect_loop_fails (chains : dict LLMChain) (l : llm) (question : string)
    (before after : dict pyval) (e : string * pyval) (x : exn) (acc : dict string) :
  (forall e', e' ∈ before ++ e :: after ->
     dict_item (fst e') chains = Ok (Spec.expert_chain l)) ->
  Forall (Spec.answers l question) before ->
  Spec.opinion_of l question e = Fails x ->
  for_each (before ++ e :: after)
    (fun opinions '(expert_id, expert_desc) =>
       chain ← lift (dict_item expert_id chains);
       response ← await (arun chain [("expert_role", expert_desc);
                                     ("question", PStr question)]);
       mret (dict_set expert_id response opinions)) acc
  = (Raise x,
     concat (map (fun e =>
        [Started (Spec.expert_chain l) (Spec.expert_kwargs question e);
         Finished (Spec.expert_chain l) (Spec.expert_kwargs question e)
           (Spec.opinion_of l question e)]) before)
     ++ [Started (Spec.expert_chain l) (Spec.expert_kwargs question e);
         Finished (Spec.expert_chain l) (Spec.expert_kwargs question e) (Fails x)]).
Proof.
  revert acc. induction before as [|[id desc] before IH]; intros acc Hch Hans Hx.
  - destruct e as [id desc]. cbn [app for_each].
    pose proof (Hch (id, desc) ltac:(left)) as Hc. simpl in Hc. rewrite Hc. unfold lift.
    cbn [mbind M_mbind].
    change [("expert_role", desc); ("question", PStr question)]
      with (Spec.expert_kwargs question (id, desc)).
    by rewrite await_expert, Hx.
  - apply Forall_cons in Hans as [[s Hs] Hans].
    cbn [app for_each].
    pose proof (Hch (id, desc) ltac:(left)) as Hc. simpl in Hc. rewrite Hc. unfold lift.
    cbn [mbind M_mbind].
    change [("expert_role", desc); ("question", PStr question)]
      with (Spec.expert_kwargs question (id, desc)).
    rewrite await_expert, Hs. cbn [mbind M_mbind mret M_ret app].
    rewrite IH; [|intros e' He'; apply Hch; by right | done | done].
    cbn [map concat fst snd app]. by rewrite Hs.
Qed.

(** X11. In [chatbot.py] and [chatbot2.py] the experts are asked one
    after another and nothing catches a failure: when the call of an
    expert raises, the experts before it have been called and answered,
    the experts after it are never called, no summary is asked for and
    nothing is printed; the exception leaves [get_expert_opinions] and
    [get_integrated_response]. *)
Theorem first_failure_ends_the_consultation (key question : string)
    (self : Chatbot.ExpertPanelChatbot) (before after : dict pyval)
    (e : string * pyval) (x : exn) :
  Chatbot.init key = Ok self ->
  Chatbot.experts self = before ++ e :: after ->
  let l := Chatbot.self_llm self in
  Forall (Spec.answers l question) before ->
  Spec.opinion_of l question e = Fails x ->
  let trace :=
    concat (map (fun e =>
       [Started (Spec.expert_chain l) (Spec.expert_kwargs question e);
        Finished (Spec.expert_chain l) (Spec.expert_kwargs question e)
          (Spec.opinion_of l question e)]) before)
    ++ [Started (Spec.expert_chain l) (Spec.expert_kwargs question e);
        Finished (Spec.expert_chain l) (Spec.expert_kwargs question e) (Fails x)] in
  Chatbot.get_expert_opinions self question = (Raise x, trace)
  /\ Chatbot.get_integrated_response self question = (Raise x, trace)
  /\ Chatbot2.get_expert_opinions self question = (Raise x, trace)
  /\ Chatbot2.get_integrated_response self question = (Raise x, trace)
  /\ count (started expert_variables) trace = S (length before)
  /\ count (started summary_variables) trace = 0.
Proof.
  intros Hinit Hes l Hans Hx trace.
  destruct (init_inv _ _ Hinit) as (Hexp & Hch & _).
  assert (Hrun : Chatbot.get_expert_opinions self question = (Raise x, trace)).
  { unfold Chatbot.get_expert_opinions. rewrite Hes, Hch. fold l.
    apply collect_loop_fails; [|done|done].
    intros e' He'. apply expert_chains_lookup. rewrite <- Hexp, Hes.
    unfold keys. apply list_elem_of_fmap. by exists e'. }
  split; [done|]. split.
  { unfold Chatbot.get_integrated_response. by rewrite Hrun. }
  split; [exact Hrun|]. split.
  { unfold Chatbot2.get_integrated_response.
    change (Chatbot2.get_expert_opinions self question)
      with (Chatbot.get_expert_opinions self question).
    by rewrite Hrun. }
  subst trace. rewrite !count_app.
  destruct (count_calls l question before) as (Hs & Hsum & _).
  rewrite Hs, Hsum.
  assert (Hlast : forall r,
            count (started expert_variables)
              [Started (Spec.expert_chain l) (Spec.expert_kwargs question e);
               Finished (Spec.expert_chain l) (Spec.expert_kwargs question e) r] = 1
            /\ count (started summary_variables)
                 [Started (Spec.expert_chain l) (Spec.expert_kwargs question e);
                  Finished (Spec.expert_chain l) (Spec.expert_kwargs question e) r] = 0)
    by done.
  destruct (Hlast (Fails x)) as [-> ->]. split; [lia | done].
Qed.

Lemma collect_only_calls (chains : dict LLMChain) (question : string)
    (es : dict pyval) (acc : dict string) :
  Forall (fun e => Roster.is_call e = true)
    (snd (for_each es
            (fun opinions '(expert_id, expert_desc) =>
               chain ← lift (dict_item expert_id chains);
               response ← await (arun chain [("expert_role", expert_desc);
                                             ("question", PStr question)]);
               mret (dict_set expert_id response opinions)) acc)).
Proof.
  revert acc. induction es as [|[id desc] es IH]; intros acc; [constructor|].
  cbn [for_each]. destruct (dict_item id chains) as [chain|x]; unfold lift;
    cbn [mbind M_mbind]; [|constructor].
  rewrite await_arun. destruct (generate _ _ _) as [s|x]; cbn [mbind M_mbind mret M_ret app].
  - specialize (IH (dict_set id s acc)).
    destruct (for_each _ _ _) as [r tr]. cbn [snd] in *. by repeat constructor.
  - by repeat constructor.
Qed.

Lemma filter_calls (tr : list event) :
  Forall (fun e => Roster.is_call e = true) tr -> List.filter Roster.is_call tr = tr.
Proof. induction 1 as [|e tr He _ IH]; cbn; [done|]. by rewrite He, IH. Qed.

(** X12. [get_integrated_response] of [chatbot2.py] makes the calls of
    the one of [chatbot.py], in the same order and with the same
    arguments, and displays nothing; it returns the same conclusion,
    together with the opinions that [get_expert_opinions] collected. *)
Theorem chatbot2_returns_the_opinions_too (self : Chatbot.ExpertPanelChatbot)
    (question : string) :
  let cli := Chatbot.get_integrated_response self question in
  let web := Chatbot2.get_integrated_response self question in
  fst cli = match fst web with
            | Ok (final_response, _) => Ok final_response
            | Raise x => Raise x
            end
  /\ List.filter Roster.is_call (snd cli) = snd web
  /\ match fst web with
     | Ok (_, expert_opinions) =>
         fst (Chatbot2.get_expert_opinions self question) = Ok expert_opinions
     | Raise _ => True
     end.
Proof.
  intros cli web. subst cli web.
  unfold Chatbot.get_integrated_response, Chatbot2.get_integrated_response.
  change (Chatbot2.get_expert_opinions self question)
    with (Chatbot.get_expert_opinions self question).
  pose proof (collect_only_calls (Chatbot.expert_chains self) question
                (Chatbot.experts self) []) as Hcalls.
  fold (Chatbot.get_expert_opinions self question) in Hcalls.
  destruct (Chatbot.get_expert_opinions self question) as [[opinions|x] tr];
    cbn [snd] in Hcalls.
  - rewrite !M_bind_ok. unfold emit, log. rewrite M_bind_ok, !await_arun.
    destruct (generate _ _ _) as [final|x];
      cbn [fst snd mbind M_mbind mret M_ret app];
      (split; [done|]); (split; [|done]);
      rewrite List.filter_app, (filter_calls tr Hcalls); done.
  - rewrite !M_bind_raise. cbn [fst snd]. split; [done|]. split; [|done].
    by apply filter_calls.
Qed.

End Sequential2.

Lemma first_failure_ends_the_consultation_witness :
  let B := Stub.failing_backend Stub.tech_persona in
  let U := Stub.ascii_upper in
  let self := @Stub.cli B tt in
  let before := [hd ("", PNone) Chatbot.default_experts] in
  let e := ("tech_expert", PStr Stub.tech_persona) in
  let after := tl (tl Chatbot.default_experts) in
  let x := InvokerError "timeout" in
  let trace :=
    concat (map (fun e =>
       [Started (@Spec.expert_chain B tt) (Spec.expert_kwargs "pick a pet" e);
        Finished (@Spec.expert_chain B tt) (Spec.expert_kwargs "pick a pet" e)
          (@Spec.opinion_of B tt "pick a pet" e)]) before)
    ++ [Started (@Spec.expert_chain B tt) (Spec.expert_kwargs "pick a pet" e);
        Finished (@Spec.expert_chain B tt) (Spec.expert_kwargs "pick a pet" e) (Fails x)] in
  @Chatbot.init B "k" = Ok self
  /\ Chatbot.experts self = before ++ e :: after
  /\ Forall (@Spec.answers B tt "pick a pet") before
  /\ @Spec.opinion_of B tt "pick a pet" e = Fails x
  /\ @Chatbot.get_expert_opinions B self "pick a pet" = (Raise x, trace)
  /\ @Chatbot.get_integrated_response B U self "pick a pet" = (Raise x, trace)
  /\ @Chatbot2.get_expert_opinions B self "pick a pet" = (Raise x, trace)
  /\ @Chatbot2.get_integrated_response B U self "pick a pet" = (Raise x, trace)
  /\ count (started expert_variables) trace = S (length before)
  /\ count (started summary_variables) trace = 0.
Proof.
  intros B U self before e after x trace.
  assert (Hans : Forall (@Spec.answers B tt "pick a pet") before).
  { apply List.Forall_cons; [eexists; reflexivity | apply List.Forall_nil]. }
  split; [reflexivity|]. split; [reflexivity|]. split; [exact Hans|].
  split; [reflexivity|].
  exact (@first_failure_ends_the_consultation B U "k" "pick a pet" self before after e x
           eq_refl eq_refl Hans eq_refl).
Defined.

(** ** The order in which [chatbot3.py] displays the opinions *)

Lemma omap_fmap {A B C} (f : B -> option C) (g : A -> B) (xs : list A) :
  omap f (g <$> xs) = omap (fun x => f (g x)) xs.
Proof.
  induction xs as [|x xs IH]; [done|]. cbn. rewrite IH. done.
Qed.

Lemma lookup_all {A} (es : list A) :
  omap (fun i => es !! i) (seq 0 (length es)) = es.
Proof.
  induction es as [|e es IH]; [done|].
  cbn [length seq omap list_omap lookup list_lookup]. f_equal.
  rewrite <- fmap_S_seq, omap_fmap. exact IH.
Qed.

Section Arrival.
Context `{Backend} `{StrMethods}.
Variables (l : llm) (question : string).

Local Abbreviation pending := (Spec.pending_expert l question).
Local Abbreviation settled := (Spec.settled l question).
Local Abbreviation delivery := (Spec.delivery l question).
Local Abbreviation opinion := (Spec.opinion_of l question).

(** The answers of the pending calls named by [completion] arrive, each
    once, and each is a text: the experts display their opinions in
    that order. *)
Lemma complete_in_order (es : dict pyval) (completion : list nat) :
  Forall (Spec.answers l question) es ->
  NoDup completion ->
  forall pool : list (task string),
  Forall2 settled es pool ->
  (forall i, i ∈ completion ->
     exists e, es !! i = Some e /\ pool !! i = Some (pending e)) ->
  exists pool',
    complete completion pool
    = (Ok pool', concat (map delivery (omap (fun i => es !! i) completion)))
    /\ Forall2 settled es pool'
    /\ length completion + count Spec.is_waiting pool' = count Spec.is_waiting pool.
Proof.
  intros Hans. induction completion as [|i rest IH]; intros Hnd pool Hall Hwait.
  - exists pool. by split; [|split].
  - apply NoDup_cons in Hnd as [Hi Hnd].
    destruct (Hwait i ltac:(left)) as (e & He & Hp).
    cbn [complete omap list_omap]. rewrite Hp, He. unfold Spec.pending_expert at 1.
    rewrite deliver_pending.
    assert (Hop : exists s, opinion e = Text s).
    { eapply (proj1 (Forall_forall _ _) Hans). by eapply list_elem_of_lookup_2. }
    destruct Hop as [s Hs]. rewrite Hs.
    assert (Hall' : Forall2 settled es (<[i := Done s]> pool)).
    { rewrite <- (list_insert_id es i e He). apply Forall2_insert; [done|].
      right. by exists s. }
    destruct (IH Hnd _ Hall') as (pool' & Hc & Hs' & Hn).
    { intros j Hj. destruct (Hwait j ltac:(by right)) as (e' & He' & Hp').
      exists e'. split; [done|]. rewrite list_lookup_insert_ne; [done|].
      intros ->. by apply Hi. }
    exists pool'. rewrite Hc. split; [done|]. split; [done|].
    cbn [length]. rewrite <- (waiting_insert_done pool i _ _ _ s Hp). lia.
Qed.

(** No call is pending: nothing more is delivered. *)
Lemma finish_all_done (es : dict pyval) (pool : list (task string)) :
  Forall (Spec.answers l question) es ->
  Forall2 settled es pool ->
  count Spec.is_waiting pool = 0 ->
  finish_all pool = (Ok (map (fun e => text_of (opinion e)) es), []).
Proof.
  intros Hans Hall Hn.
  destruct (finish_all_settled l question es pool Hall)
    as [(ds & Hf & _ & Hlen) | (x & e & ds & _ & He & Hx)].
  - rewrite Hn in Hlen. destruct ds; [done | discriminate].
  - destruct (proj1 (Forall_forall _ _) Hans e He) as [s Hs]. congruence.
Qed.

Lemma gather_in_order (self : Chatbot3.ExpertPanelChatbot) (es : dict pyval)
    (completion : list nat) :
  (forall e, e ∈ es ->
     dict_item (fst e) (Chatbot3.expert_chains self) = Ok (Spec.expert_chain l)) ->
  Forall (Spec.answers l question) es ->
  completion ≡ₚ seq 0 (length es) ->
  gather completion
    (map (fun '(expert_id, expert_desc) =>
            Chatbot3.get_expert_opinion self expert_id expert_desc question) es)
  = (Ok (map (fun e => text_of (opinion e)) es),
     map (fun e => Started (Spec.expert_chain l) (Spec.expert_kwargs question e)) es
     ++ concat (map delivery (omap (fun i => es !! i) completion))).
Proof.
  intros Hch Hans Hperm. unfold gather.
  rewrite (start_all_experts l question self es Hch).
  rewrite no_failure_pending. unfold log. rewrite M_bind_ok.
  destruct (complete_in_order es completion Hans) with (pool := map pending es)
    as (pool' & Hc & Hs & Hn).
  { rewrite Hperm. apply NoDup_seq. }
  { apply settled_pending. }
  { intros i Hi. rewrite Hperm in Hi. apply elem_of_seq in Hi.
    destruct (lookup_lt_is_Some_2 es i ltac:(lia)) as [e He].
    exists e. split; [done|]. by apply (list_lookup_fmap_Some_2 pending). }
  rewrite Hc, M_bind_ok.
  rewrite (finish_all_done es pool' Hans Hs).
  - cbn [fst snd]. by rewrite app_nil_r.
  - rewrite count_waiting_pending in Hn.
    rewrite (Permutation_length Hperm), length_seq in Hn. lia.
Qed.

(** X13. In [chatbot3.py], when every call is answered, each opinion
    is displayed when its answer arrives: after the starts of all the
    calls, the trace shows the deliveries in the order of completion,
    which may be any arrangement of the roster, and then the summary
    call. The opinions handed to the summary and returned are in the
    order of the roster all the same. *)
Theorem opinions_are_displayed_as_they_arrive (key : string) (es : dict pyval)
    (completion : list nat) (web : Chatbot3.ExpertPanelChatbot) :
  Chatbot3.init key (PDict es) = Ok web ->
  Chatbot3.self_llm web = l ->
  NoDup (keys es) ->
  Forall (Spec.answers l question) es ->
  completion ≡ₚ seq 0 (length es) ->
  let arrived := omap (fun i => es !! i) completion in
  let opinions := map (fun e => (fst e, text_of (opinion e))) es in
  let block := Chatbot.formatted_opinions opinions in
  arrived ≡ₚ es
  /\ Chatbot3.get_integrated_response completion web question
     = (match Spec.summary_of l question block with
        | Text final => Ok (final, opinions)
        | Fails x => Raise x
        end,
        map (fun e => Started (Spec.expert_chain l) (Spec.expert_kwargs question e)) es
        ++ concat (map delivery arrived)
        ++ [Shown (Write "📊 **統合された結論を生成中...**");
            Started (Chatbot.initialize_summary_chain l) (Spec.summary_kwargs question block);
            Finished (Chatbot.initialize_summary_chain l) (Spec.summary_kwargs question block)
              (Spec.summary_of l question block)]).
Proof.
  intros Hinit Hl Hnd Hans Hperm arrived opinions block.
  split.
  { subst arrived. rewrite Hperm. by erewrite (lookup_all (A := string * pyval)). }
  destruct (init3_inv _ _ _ Hinit) as (Hexp & Hch & Hsum). rewrite Hl in Hch, Hsum.
  unfold Chatbot3.get_integrated_response. rewrite Hexp, Hsum.
  unfold items, pykeys, lift. rewrite M_bind_ok.
  rewrite (gather_in_order web es completion); [|  |done|done].
  2:{ intros e He. rewrite Hch. apply expert_chains_lookup. unfold keys.
      apply list_elem_of_fmap. by exists e. }
  rewrite !M_bind_ok. cbn [fst snd app].
  rewrite zip_keys_texts. fold opinions.
  rewrite (dict_of_pairs_nodup opinions) by (unfold opinions; by rewrite keys_map_texts).
  fold block. unfold emit, log. rewrite M_bind_ok. rewrite await_arun.
  change (generate _ _ _) with (Spec.summary_of l question block).
  change [("original_question", PStr question); ("expert_opinions", PStr block)]
    with (Spec.summary_kwargs question block).
  fold arrived.
  destruct (Spec.summary_of l question block); cbn; by rewrite <- !app_assoc.
Qed.

End Arrival.

Lemma opinions_are_displayed_as_they_arrive_witness :
  let B := Stub.yes_backend in
  let U := Stub.ascii_upper in
  let web := @Stub.web B tt Stub.pets in
  let arrived := omap (fun i => Stub.pets !! i) [1; 0] in
  let opinions :=
    map (fun e => (fst e, text_of (@Spec.opinion_of B tt "pick a pet" e))) Stub.pets in
  let block := @Chatbot.formatted_opinions U opinions in
  @Chatbot3.init B "k" (PDict Stub.pets) = Ok web
  /\ Chatbot3.self_llm web = tt
  /\ NoDup (keys Stub.pets)
  /\ Forall (@Spec.answers B tt "pick a pet") Stub.pets
  /\ [1; 0] ≡ₚ seq 0 (length Stub.pets)
  /\ arrived = [("b", PStr "loves dogs"); ("a", PStr "loves cats")]
  /\ arrived ≡ₚ Stub.pets
  /\ @Chatbot3.get_integrated_response B U [1; 0] web "pick a pet"
     = (match @Spec.summary_of B tt "pick a pet" block with
        | Text final => Ok (final, opinions)
        | Fails x => Raise x
        end,
        map (fun e => Started (@Spec.expert_chain B tt) (Spec.expert_kwargs "pick a pet" e))
          Stub.pets
        ++ concat (map (@Spec.delivery B tt "pick a pet") arrived)
        ++ [Shown (Write "📊 **統合された結論を生成中...**");
            Started (@Chatbot.initialize_summary_chain B tt)
              (Spec.summary_kwargs "pick a pet" block);
            Finished (@Chatbot.initialize_summary_chain B tt)
              (Spec.summary_kwargs "pick a pet" block)
              (@Spec.summary_of B tt "pick a pet" block)]).
Proof.
  intros B U web arrived opinions block.
  assert (Hperm : [1; 0] ≡ₚ seq 0 (length Stub.pets)) by apply perm_swap.
  split; [reflexivity|]. split; [reflexivity|]. split; [exact pets_nodup|].
  split; [exact yes_answers_pets|]. split; [exact Hperm|]. split; [reflexivity|].
  exact (@opinions_are_displayed_as_they_arrive B U tt "pick a pet" "k" Stub.pets [1; 0] web
           eq_refl eq_refl pets_nodup yes_answers_pets Hperm).
Defined.

(** ** The prompts *)

(** X14. The prompt of an expert, in [chatbot.py] and in [chatbot4.py],
    is the fixed text of the template with the description of the
    expert inserted first and the question after it; the summary prompt
    of [chatbot4.py] has the question first and the opinions after it.
    Formatting never fails, and the inserted texts are taken as they
    are: braces in a description, a question or an opinion are not read
    as fields. *)
Theorem prompts_insert_the_texts_verbatim :
  (exists head middle tail, forall expert_role question,
     format Chatbot.expert_prompt [("expert_role", expert_role); ("question", question)]
     = Ok (head +:+ expert_role +:+ middle +:+ question +:+ tail))
  /\ (exists head middle tail, forall expert_role question,
        format Chatbot4.expert_prompt [("expert_role", expert_role); ("question", question)]
        = Ok (head +:+ expert_role +:+ middle +:+ question +:+ tail))
  /\ (exists head middle tail, forall question block,
        format Chatbot4.summary_prompt
          [("original_question", question); ("expert_opinions", block)]
        = Ok (head +:+ question +:+ middle +:+ block +:+ tail)).
Proof.
  split; [|split].
  - exists "
        あなたは", "として、以下の質問/トピックについて専門的な意見を提供してください。
        
        質問/トピック: ", "
        
        回答の際は以下の点に注意してください：
        - あなたの専門分野の観点からの分析を提供すること
        - 具体的な根拠や例を示すこと
        - 潜在的な課題や機会を指摘すること
        
        専門家としての意見:
        ".
    intros expert_role question. reflexivity.
  - exists "
        あなたは", "として、以下の質問/トピックについて意見を提供してください。
        ユーザーの質問に対してあなたの立場・あなたの観点から徹底的に考察してください。
        わからない部分に関しては、素直に「わからない」と答えてください。
        
        質問/トピック: ", "
        ".
    intros expert_role question. reflexivity.
  - exists "
        以下は異なる専門家から提供された意見です。これらの意見を統合し、バランスの取れた包括的な結論を導き出してください。
        元の質問/トピック: ", "
        
        専門家の意見:
        ", "
        
        統合された結論:
        1. 主な合意点
        2. 重要な懸念事項
        3. 推奨されるアクション
        4. 追加で検討が必要な点
        
        結論:
        ".
    intros question block. reflexivity.
Qed.

(** ** The transcript of [chatbot4.py] *)

Section Transcript.
Context `{Backend} `{StrMethods} `{Streamlit.Checks}.

Lemma render_message_missing (d : dict pyval) (model_config : pyval)
    (expert_id content : string) :
  dict_get expert_id d = None ->
  Chatbot4.render_message (PDict d) model_config (Chatbot4.ExpertMessage expert_id content)
  = (Raise (KeyError expert_id), []).
Proof. intros Hd. unfold Chatbot4.render_message. cbn [getitem]. by rewrite Hd. Qed.

(** The loop that draws the transcript does not get past a message of
    an expert the roster does not have. *)
Lemma render_missing_expert (d : dict pyval) (model_config : pyval)
    (messages : list Chatbot4.message) (expert_id content : string) :
  Chatbot4.ExpertMessage expert_id content ∈ messages ->
  dict_get expert_id d = None ->
  exists x, fst (Chatbot4.render (PDict d) model_config messages) = Raise x.
Proof.
  intros Hin Hd. unfold Chatbot4.render.
  induction messages as [|m messages IH]; [by apply elem_of_nil in Hin|].
  cbn [for_each].
  destruct (Chatbot4.render_message (PDict d) model_config m) as [[[]|x] tr] eqn:Hm.
  - apply elem_of_cons in Hin as [<-|Hin].
    + rewrite render_message_missing in Hm by done. discriminate.
    + destruct (IH Hin) as [x Hx]. exists x. rewrite M_bind_ok. exact Hx.
  - exists x. by rewrite M_bind_raise.
Qed.

Lemma deleted_not_managed (forms : string -> Chatbot4.expert_form) (d : dict pyval)
    (k : string) :
  Chatbot4.delete_clicked (forms k) = true ->
  k ∉ keys (omap (Roster.edited4 forms) d).
Proof.
  intros Hdel Hin. unfold keys in Hin. apply list_elem_of_fmap in Hin as (e' & -> & Hin).
  apply list_elem_of_omap in Hin as (e & _ & He).
  pose proof (edited4_key _ _ _ He) as Hk. unfold Roster.edited4 in He.
  rewrite <- Hk, Hdel in He. discriminate.
Qed.

(** X17. In [chatbot4.py], a message of an expert in the transcript is
    drawn by looking its expert up in the roster of now. So the
    transcript cannot be drawn once the roster lacks the expert of one
    of its messages: the loop raises and the rest of the script,
    the chat input included, is not reached. Deleting in the sidebar an
    expert that has a message in the transcript leads there. *)
Theorem deleting_an_expert_breaks_the_transcript (add : Chatbot4.add_form)
    (forms : string -> Chatbot4.expert_form) (d : dict pyval) (model_config : pyval)
    (messages : list Chatbot4.message) (expert_id content : string) :
  NoDup (keys d) ->
  Roster.complete d ->
  Chatbot4.add_clicked add = false ->
  Chatbot4.delete_clicked (forms expert_id) = true ->
  Chatbot4.ExpertMessage expert_id content ∈ messages ->
  (forall d', dict_get expert_id d' = None ->
     exists x, fst (Chatbot4.render (PDict d') model_config messages) = Raise x)
  /\ exists d',
       Chatbot4.expert_manager add forms None (PDict d) = (PDict d', None)
       /\ dict_get expert_id d' = None.
Proof.
  intros Hnd Hc Hadd Hdel Hin. split.
  { intros d' Hd'. by eapply render_missing_expert. }
  exists (omap (Roster.edited4 forms) d). split.
  - unfold Chatbot4.expert_manager, Chatbot4.add_expert. rewrite Hadd. cbn [items].
    pose proof (manage_experts4_from forms d [] []) as Hm.
    rewrite !app_nil_r in Hm. cbn [app] in Hm. by rewrite Hm.
  - apply dict_get_None_fresh. by apply deleted_not_managed.
Qed.

End Transcript.

Lemma deleting_an_expert_breaks_the_transcript_witness :
  let B := Stub.yes_backend in
  let C := Stub.checks in
  let messages :=
    [Chatbot4.UserMessage "pick a pet"; Chatbot4.ExpertMessage "a" "loves cats: yes";
     Chatbot4.ExpertMessage "b" "loves dogs: yes"; Chatbot4.SummaryMessage "summary"] in
  NoDup (keys Stub.pets4)
  /\ Roster.complete Stub.pets4
  /\ Chatbot4.add_clicked Stub.idle4 = false
  /\ Chatbot4.delete_clicked (Stub.drop4 "a") = true
  /\ Chatbot4.ExpertMessage "a" "loves cats: yes" ∈ messages
  /\ (forall d', dict_get "a" d' = None ->
        exists x, fst (@Chatbot4.render B C (PDict d') Chatbot4.default_model_config messages)
                  = Raise x)
  /\ exists d',
       Chatbot4.expert_manager Stub.idle4 Stub.drop4 None (PDict Stub.pets4)
       = (PDict d', None)
       /\ dict_get "a" d' = None.
Proof.
  intros B C messages.
  assert (Hin : Chatbot4.ExpertMessage "a" "loves cats: yes" ∈ messages)
    by apply list_elem_of_further, list_elem_of_here.
  split; [exact pets4_nodup|]. split; [exact pets4_complete|].
  split; [reflexivity|]. split; [reflexivity|]. split; [exact Hin|].
  exact (@deleting_an_expert_breaks_the_transcript B C Stub.idle4 Stub.drop4 Stub.pets4
           Chatbot4.default_model_config messages "a" "loves cats: yes"
           pets4_nodup pets4_complete eq_refl eq_refl Hin).
Defined.

(* ===================================================================== *)
(** * Part IV: whole runs of [main]                                       *)
(* ===================================================================== *)

(** ** The sidebar, the transcript and the chat input *)

Section Runs.
Context `{Backend} `{StrMethods} `{Streamlit.Checks}.

Lemma key_box_shown (api_key : string) :
  (if truthy (PStr api_key)
   then emit (Success "APIキーが設定されました！")
   else mret tt) = ((Ok tt, Roster.key_box api_key) : M unit).
Proof. unfold Roster.key_box. cbn [truthy]. by destruct (String.eqb api_key ""). Qed.

Lemma key_box_silent (api_key : string) : Roster.silent (Roster.key_box api_key).
Proof.
  unfold Roster.key_box, Roster.silent. destruct (String.eqb api_key ""); by repeat constructor.
Qed.

Lemma silent_app (a b : list event) :
  Roster.silent a -> Roster.silent b -> Roster.silent (a ++ b).
Proof. unfold Roster.silent. rewrite Forall_app. by split. Qed.

Lemma render3_run (messages : list Chatbot3.message) :
  Chatbot3.render messages = (Ok tt, map (fun m => Shown (Write (snd m))) messages).
Proof.
  unfold Chatbot3.render. induction messages as [|m messages IH]; [done|].
  cbn [for_each].
  change (emit (Write (snd m))) with ((Ok tt, [Shown (Write (snd m))]) : M unit).
  rewrite M_bind_ok, IH. done.
Qed.

Lemma render3_silent (messages : list Chatbot3.message) :
  Roster.silent (snd (Chatbot3.render messages)).
Proof.
  rewrite render3_run. cbn [snd]. unfold Roster.silent.
  induction messages; by constructor.
Qed.

(** Drawing the transcript only writes texts. *)
Lemma render_message_writes (P : event -> Prop) (experts model_config : pyval)
    (m : Chatbot4.message) :
  (forall s, P (Shown (Write s))) ->
  (forall label v, P (Shown (WriteVal label v))) ->
  Forall P (snd (Chatbot4.render_message experts model_config m)).
Proof.
  intros Hw Hv.
  destruct m as [content | expert_id content | content];
    cbn [Chatbot4.render_message]; unfold lift, emit, log.
  - by repeat constructor.
  - destruct (getitem experts expert_id) as [info|x]; [|constructor].
    rewrite M_bind_ok. cbn [fst snd app].
    destruct (getitem info "avatar") as [avatar|x]; [|constructor].
    rewrite M_bind_ok. cbn [fst snd app].
    destruct (Streamlit.chat_message avatar) as [[]|x]; [|constructor].
    rewrite M_bind_ok. cbn [fst snd app].
    destruct (getitem info "name") as [name|x]; [|constructor].
    by repeat constructor.
  - rewrite !M_bind_ok. cbn [fst snd app].
    destruct (getitem model_config "model_name") as [name|x]; [|by repeat constructor].
    rewrite M_bind_ok. cbn [fst snd app].
    destruct (getitem model_config "temperature") as [value|x]; by repeat constructor.
Qed.

Lemma render_writes (P : event -> Prop) (experts model_config : pyval)
    (messages : list Chatbot4.message) :
  (forall s, P (Shown (Write s))) ->
  (forall label v, P (Shown (WriteVal label v))) ->
  Forall P (snd (Chatbot4.render experts model_config messages)).
Proof.
  intros Hw Hv.
  unfold Chatbot4.render. induction messages as [|m messages IH]; [constructor|].
  cbn [for_each].
  pose proof (render_message_writes P experts model_config m Hw Hv) as Hm.
  destruct (Chatbot4.render_message experts model_config m) as [[[]|x] tr]; cbn [snd] in Hm.
  - rewrite M_bind_ok. cbn [snd]. rewrite Forall_app. by split.
  - by rewrite M_bind_raise.
Qed.

Lemma render4_silent (experts model_config : pyval) (messages : list Chatbot4.message) :
  Roster.silent (snd (Chatbot4.render experts model_config messages)).
Proof. by apply render_writes. Qed.

Lemma appended_app (a b : list event) :
  Roster.appended (a ++ b) = Roster.appended a ++ Roster.appended b.
Proof. apply omap_app. Qed.

Lemma appended_none (tr : list event) :
  Forall (fun e => Roster.appended [e] = []) tr -> Roster.appended tr = [].
Proof.
  induction 1 as [|e tr He _ IH]; [done|].
  change (e :: tr) with ([e] ++ tr). by rewrite appended_app, He, IH.
Qed.

Lemma render3_appends_nothing (messages : list Chatbot3.message) :
  Roster.appended (snd (Chatbot3.render messages)) = [].
Proof. rewrite render3_run. cbn [snd]. by induction messages. Qed.

Lemma render4_appends_nothing (experts model_config : pyval)
    (messages : list Chatbot4.message) :
  Roster.appended (snd (Chatbot4.render experts model_config messages)) = [].
Proof. apply appended_none. by apply render_writes. Qed.

Lemma key_box_appends_nothing (api_key : string) :
  Roster.appended (Roster.key_box api_key) = [].
Proof. unfold Roster.key_box. by destruct (String.eqb api_key ""). Qed.

(** A run whose sidebar returns: the transcript is drawn with the state
    the sidebar leaves, then the chat input is read. *)
Lemma main3_after_sidebar (completion : list nat) (w : Chatbot3.widgets)
    (experts left : pyval) (messages : list Chatbot3.message) :
  Chatbot3.expert_manager (Chatbot3.add w) (Chatbot3.forms w) (Chatbot3.uploaded_file w)
    experts = (left, None) ->
  Chatbot3.main completion w experts messages
  = mbind (fun _ : unit =>
             match Chatbot3.chat_input w with
             | None => mret tt
             | Some prompt =>
                 if truthy (PStr prompt)
                 then Chatbot3.on_prompt completion (Chatbot3.api_key w) left prompt
                 else mret tt
             end)
      ((Ok tt, Roster.key_box (Chatbot3.api_key w) ++ snd (Chatbot3.render messages)) : M unit).
Proof.
  intros Hside. unfold Chatbot3.main. rewrite key_box_shown, Hside, !M_bind_ok.
  cbn [fst snd]. rewrite render3_run, !M_bind_ok. cbn [fst snd].
  by rewrite app_assoc.
Qed.

Lemma main4_after_sidebar (w : Chatbot4.widgets) (experts model_config left saved : pyval)
    (messages : list Chatbot4.message) (drawn : list event) :
  Chatbot4.model_config_manager (Chatbot4.selected_model w) (Chatbot4.temperature w)
    (Chatbot4.config_file w) model_config = (saved, None) ->
  Chatbot4.expert_manager (Chatbot4.add w) (Chatbot4.forms w) (Chatbot4.experts_file w)
    experts = (left, None) ->
  Chatbot4.render left saved messages = (Ok tt, drawn) ->
  Chatbot4.main w experts model_config messages
  = mbind (fun _ : unit =>
             match Chatbot4.chat_input w with
             | None => mret tt
             | Some prompt =>
                 if truthy (PStr prompt)
                 then Chatbot4.on_prompt (Chatbot4.api_key w) left saved prompt
                 else mret tt
             end)
      ((Ok tt, Roster.key_box (Chatbot4.api_key w) ++ drawn) : M unit).
Proof.
  intros Hcfg Hside Hdraw. unfold Chatbot4.main.
  rewrite key_box_shown, Hcfg, Hside, Hdraw, !M_bind_ok. cbn [fst snd].
  by rewrite app_assoc.
Qed.

(** A run whose sidebar raises ends there. *)
Lemma main4_sidebar_raises (w : Chatbot4.widgets) (experts model_config left : pyval)
    (messages : list Chatbot4.message) (x : exn) :
  Chatbot4.expert_manager (Chatbot4.add w) (Chatbot4.forms w) (Chatbot4.experts_file w)
    experts = (left, Some x) ->
  exists x', Chatbot4.main w experts model_config messages
             = (Raise x', Roster.key_box (Chatbot4.api_key w)).
Proof.
  intros Hside. unfold Chatbot4.main. rewrite key_box_shown, M_bind_ok. cbn [fst snd].
  destruct (Chatbot4.model_config_manager _ _ _ _) as [saved [x0|]].
  - exists x0. unfold raise. cbn. by rewrite app_nil_r.
  - rewrite Hside. exists x. unfold raise. cbn. by rewrite app_nil_r.
Qed.

End Runs.

(** ** The guards of [main] *)

Section Guards.
Context `{Backend} `{StrMethods} `{Streamlit.Checks}.

(** C4, as the code has it. In the web variants, in a run whose sidebar
    returns and whose transcript is drawn, [main] makes no call to the
    model on an empty question or on an empty roster: an empty question
    is skipped without any error being reported, whether an API key is
    set or not; an empty roster, with an API key and a question, is
    reported and [main] stops. The roster is the one the sidebar of the
    run leaves. Each case is stated under its own premises. *)
Theorem main_guards (completion : list nat) (prompt : string)
    (w3 : Chatbot3.widgets) (experts3 left3 : pyval) (messages3 : list Chatbot3.message)
    (w4 : Chatbot4.widgets) (experts4 config4 left4 saved4 : pyval)
    (messages4 : list Chatbot4.message) (drawn4 : list event) :
  (Chatbot3.expert_manager (Chatbot3.add w3) (Chatbot3.forms w3) (Chatbot3.uploaded_file w3)
     experts3 = (left3, None) ->
   Chatbot3.chat_input w3 = Some "" ->
   let trace := Roster.key_box (Chatbot3.api_key w3) ++ snd (Chatbot3.render messages3) in
   Chatbot3.main completion w3 experts3 messages3 = (Ok tt, trace)
   /\ Roster.silent trace)
  /\ (Chatbot4.model_config_manager (Chatbot4.selected_model w4) (Chatbot4.temperature w4)
        (Chatbot4.config_file w4) config4 = (saved4, None) ->
      Chatbot4.expert_manager (Chatbot4.add w4) (Chatbot4.forms w4) (Chatbot4.experts_file w4)
        experts4 = (left4, None) ->
      Chatbot4.render left4 saved4 messages4 = (Ok tt, drawn4) ->
      Chatbot4.chat_input w4 = Some "" ->
      let trace := Roster.key_box (Chatbot4.api_key w4) ++ drawn4 in
      Chatbot4.main w4 experts4 config4 messages4 = (Ok tt, trace)
      /\ Roster.silent trace)
  /\ (Chatbot3.expert_manager (Chatbot3.add w3) (Chatbot3.forms w3) (Chatbot3.uploaded_file w3)
        experts3 = (PDict [], None) ->
      Chatbot3.api_key w3 <> "" ->
      Chatbot3.chat_input w3 = Some prompt ->
      prompt <> "" ->
      let trace :=
        Roster.key_box (Chatbot3.api_key w3) ++ snd (Chatbot3.render messages3)
        ++ [Shown (Error "少なくとも1人の専門家を設定してください！")] in
      Chatbot3.main completion w3 experts3 messages3 = (Ok tt, trace)
      /\ Roster.silent trace)
  /\ (Chatbot4.model_config_manager (Chatbot4.selected_model w4) (Chatbot4.temperature w4)
        (Chatbot4.config_file w4) config4 = (saved4, None) ->
      Chatbot4.expert_manager (Chatbot4.add w4) (Chatbot4.forms w4) (Chatbot4.experts_file w4)
        experts4 = (PDict [], None) ->
      Chatbot4.render (PDict []) saved4 messages4 = (Ok tt, drawn4) ->
      Chatbot4.api_key w4 <> "" ->
      Chatbot4.chat_input w4 = Some prompt ->
      prompt <> "" ->
      let trace :=
        Roster.key_box (Chatbot4.api_key w4) ++ drawn4
        ++ [Shown (Error "少なくとも1人の専門家を設定してください！")] in
      Chatbot4.main w4 experts4 config4 messages4 = (Ok tt, trace)
      /\ Roster.silent trace).
Proof.
  assert (Hreport : forall msg, Roster.silent [Shown (Error msg)]) by (by repeat constructor).
  split; [|split; [|split]].
  - intros Hside Hin trace. split.
    + rewrite (main3_after_sidebar completion w3 experts3 left3 messages3 Hside), Hin.
      rewrite M_bind_ok. cbn. by rewrite app_nil_r.
    + apply silent_app; [apply key_box_silent | apply render3_silent].
  - intros Hcfg Hside Hdraw Hin trace. split.
    + rewrite (main4_after_sidebar w4 experts4 config4 left4 saved4 messages4 drawn4
                 Hcfg Hside Hdraw), Hin.
      rewrite M_bind_ok. cbn. by rewrite app_nil_r.
    + apply silent_app; [apply key_box_silent|].
      pose proof (render4_silent left4 saved4 messages4) as Hs. by rewrite Hdraw in Hs.
  - intros Hside Hkey Hin Hp trace. split.
    + rewrite (main3_after_sidebar completion w3 experts3 (PDict []) messages3 Hside), Hin.
      rewrite M_bind_ok, (truthy_nonempty prompt Hp). unfold Chatbot3.on_prompt.
      rewrite (truthy_nonempty _ Hkey). cbn. by rewrite <- app_assoc.
    + apply silent_app; [apply key_box_silent|].
      apply silent_app; [apply render3_silent | apply Hreport].
  - intros Hcfg Hside Hdraw Hkey Hin Hp trace. split.
    + rewrite (main4_after_sidebar w4 experts4 config4 (PDict []) saved4 messages4 drawn4
                 Hcfg Hside Hdraw), Hin.
      rewrite M_bind_ok, (truthy_nonempty prompt Hp). unfold Chatbot4.on_prompt.
      rewrite (truthy_nonempty _ Hkey). cbn. by rewrite <- app_assoc.
    + apply silent_app; [apply key_box_silent|].
      apply silent_app; [|apply Hreport].
      pose proof (render4_silent (PDict []) saved4 messages4) as Hs. by rewrite Hdraw in Hs.
Qed.

End Guards.

(** The amended C4: runs in which no button of the sidebar is clicked,
    over a transcript of one question and its answer; the roster is
    empty from the start in the last two. *)
Lemma main_guards_witness :
  let B := Stub.yes_backend in
  let U := Stub.ascii_upper in
  let C := Stub.checks in
  let cfg := Chatbot4.default_model_config in
  let messages3 := [("user", "hello"); ("assistant", "summary")] in
  let messages4 := [Chatbot4.UserMessage "hello"; Chatbot4.SummaryMessage "summary"] in
  let drawn4 :=
    [Shown (Write "hello"); Shown (Write "**統合された結論:**"); Shown (Write "summary");
     Shown (WriteVal "使用モデル:" (PStr "gpt-4o-mini"));
     Shown (WriteVal "Temperature:" (PNum (7 # 10)))] in
  let boxed := [@Shown B (Success "APIキーが設定されました！")] in
  let report := [@Shown B (Error "少なくとも1人の専門家を設定してください！")] in
  let skip3 := Stub.run3 "" None (Some "") in
  let skip4 := Stub.run4 "" None (Some "") in
  let ask3 := Stub.run3 "k" None (Some "pick a pet") in
  let ask4 := Stub.run4 "k" None (Some "pick a pet") in
  (Chatbot3.expert_manager (Chatbot3.add skip3) (Chatbot3.forms skip3)
     (Chatbot3.uploaded_file skip3) (PDict Stub.pets) = (PDict Stub.pets, None)
   /\ Chatbot3.chat_input skip3 = Some ""
   /\ @Chatbot3.main B U [] skip3 (PDict Stub.pets) messages3
      = (Ok tt, snd (@Chatbot3.render B messages3))
   /\ Roster.silent (snd (@Chatbot3.render B messages3)))
  /\ (@Chatbot4.model_config_manager C (Chatbot4.selected_model skip4)
        (Chatbot4.temperature skip4) (Chatbot4.config_file skip4) cfg = (cfg, None)
      /\ Chatbot4.expert_manager (Chatbot4.add skip4) (Chatbot4.forms skip4)
           (Chatbot4.experts_file skip4) (PDict Stub.zoo) = (PDict Stub.zoo, None)
      /\ @Chatbot4.render B C (PDict Stub.zoo) cfg messages4 = (Ok tt, drawn4)
      /\ Chatbot4.chat_input skip4 = Some ""
      /\ @Chatbot4.main B U C skip4 (PDict Stub.zoo) cfg messages4 = (Ok tt, drawn4)
      /\ Roster.silent drawn4)
  /\ (Chatbot3.expert_manager (Chatbot3.add ask3) (Chatbot3.forms ask3)
        (Chatbot3.uploaded_file ask3) (PDict []) = (PDict [], None)
      /\ Chatbot3.api_key ask3 <> ""
      /\ Chatbot3.chat_input ask3 = Some "pick a pet"
      /\ "pick a pet" <> ""
      /\ @Chatbot3.main B U [] ask3 (PDict []) messages3
         = (Ok tt, boxed ++ snd (@Chatbot3.render B messages3) ++ report)
      /\ Roster.silent (boxed ++ snd (@Chatbot3.render B messages3) ++ report))
  /\ (@Chatbot4.model_config_manager C (Chatbot4.selected_model ask4)
        (Chatbot4.temperature ask4) (Chatbot4.config_file ask4) cfg = (cfg, None)
      /\ Chatbot4.expert_manager (Chatbot4.add ask4) (Chatbot4.forms ask4)
           (Chatbot4.experts_file ask4) (PDict []) = (PDict [], None)
      /\ @Chatbot4.render B C (PDict []) cfg messages4 = (Ok tt, drawn4)
      /\ Chatbot4.api_key ask4 <> ""
      /\ Chatbot4.chat_input ask4 = Some "pick a pet"
      /\ "pick a pet" <> ""
      /\ @Chatbot4.main B U C ask4 (PDict []) cfg messages4
         = (Ok tt, boxed ++ drawn4 ++ report)
      /\ Roster.silent (boxed ++ drawn4 ++ report)).
Proof.
  intros B U C cfg messages3 messages4 drawn4 boxed report skip3 skip4 ask3 ask4.
  assert (Hk : "k" <> "") by discriminate.
  assert (Hp : "pick a pet" <> "") by discriminate.
  pose proof (@main_guards B U C [] "pick a pet"
                skip3 (PDict Stub.pets) (PDict Stub.pets) messages3
                skip4 (PDict Stub.zoo) cfg (PDict Stub.zoo) cfg messages4 drawn4)
    as (Hskip3 & Hskip4 & _).
  pose proof (@main_guards B U C [] "pick a pet"
                ask3 (PDict []) (PDict []) messages3
                ask4 (PDict []) cfg (PDict []) cfg messages4 drawn4)
    as (_ & _ & Hask3 & Hask4).
  split; [|split; [|split]].
  - split; [reflexivity|]. split; [reflexivity|]. exact (Hskip3 eq_refl eq_refl).
  - do 4 (split; [reflexivity|]). exact (Hskip4 eq_refl eq_refl eq_refl eq_refl).
  - split; [reflexivity|]. split; [exact Hk|]. split; [reflexivity|]. split; [exact Hp|].
    exact (Hask3 eq_refl Hk eq_refl Hp).
  - do 3 (split; [reflexivity|]). split; [exact Hk|]. split; [reflexivity|].
    split; [exact Hp|]. exact (Hask4 eq_refl eq_refl eq_refl Hk eq_refl Hp).
Defined.

(** C4, as stated, fails: [get_integrated_response] of [chatbot.py]
    answers an empty question, after four expert calls and one call of
    the summary chain; and [main] of [chatbot3.py] reports no error for
    it, with or without an API key. *)
Lemma empty_question_is_not_rejected :
  let B := Stub.yes_backend in
  let U := Stub.ascii_upper in
  let cli := @Stub.cli B tt in
  let run := @Chatbot.get_integrated_response B U cli "" in
  @Chatbot.init B "k" = Ok cli
  /\ fst run = Ok "summary"
  /\ count (started expert_variables) (snd run) = 4
  /\ count (started summary_variables) (snd run) = 1
  /\ @Chatbot3.main B U [] (Stub.run3 "k" None (Some "")) (PDict Stub.pets) []
     = (Ok tt, [Shown (Success "APIキーが設定されました！")])
  /\ @Chatbot3.main B U [] (Stub.run3 "" None (Some "")) (PDict Stub.pets) []
     = (Ok tt, []).
Proof. intros B U cli run. by repeat split. Qed.

(** ** A roster with an entry that has no description *)

Section Undescribed.
Context `{Backend} `{StrMethods} `{Streamlit.Checks}.

Lemma complete_entry_described (v : pyval) :
  Roster.complete_entry v -> Spec.has_description v.
Proof. intros (fields & d & a & n & Hv & Hd & _). by exists fields, d. Qed.

(** The first entry of a roster that is not complete. *)
Lemma first_incomplete (d : dict pyval) (e : string * pyval) :
  e ∈ d ->
  ~ Roster.complete_entry (snd e) ->
  exists before k v after,
    d = before ++ (k, v) :: after
    /\ Roster.complete before
    /\ ~ Roster.complete_entry v.
Proof.
  intros Hin He. induction d as [|[k0 v0] d IH]; [by apply elem_of_nil in Hin|].
  destruct (Chatbot4.read_entry v0) as [[]|x] eqn:Hr.
  - apply read_entry_complete in Hr.
    apply elem_of_cons in Hin as [->|Hin]; [done|].
    destruct (IH Hin) as (before & k & v & after & -> & Hc & Hv).
    exists ((k0, v0) :: before), k, v, after. split; [done|]. split; [|done].
    by constructor.
  - exists [], k0, v0, d. split; [done|]. split; [constructor|].
    intros Hc. apply read_entry_complete in Hc. congruence.
Qed.

(** The sidebar raises over a roster that has an incomplete entry,
    unless the form replaces it. *)
Lemma expert_manager4_raises (add : Chatbot4.add_form)
    (forms : string -> Chatbot4.expert_form) (uploaded_file : option Json.file)
    (d : dict pyval) (e : string * pyval) :
  NoDup (keys d) ->
  e ∈ d ->
  ~ Roster.complete_entry (snd e) ->
  Chatbot4.add_clicked add = false ->
  exists left x,
    Chatbot4.expert_manager add forms uploaded_file (PDict d) = (left, Some x).
Proof.
  intros Hnd Hin He Hadd.
  destruct (first_incomplete d e Hin He) as (before & k & v & after & -> & Hc & Hv).
  destruct (read_entry_incomplete v Hv) as (x & Hr & _).
  unfold Chatbot4.expert_manager, Chatbot4.add_expert. rewrite Hadd. cbn [items].
  rewrite manage_experts4_app.
  pose proof (manage_experts4_from forms before [] ((k, v) :: after) Hnd Hc) as Hm.
  cbn [app] in Hm. rewrite Hm.
  cbn [Chatbot4.manage_experts fst]. unfold Chatbot4.manage_expert. rewrite Hr.
  by eexists _, _.
Qed.

(** C10, as the code has it. Constructing the chatbot succeeds only
    when the roster is a dict whose every value is a dict with a
    ["description"] key. With a model configuration the client accepts,
    construction over a roster that has a value without that key raises
    at the first such value, a [KeyError] when that value is a dict and
    a [TypeError] when it is not; the constructor asks nothing of the
    model. In [main], the run whose sidebar leaves such a roster in the
    session state (the import is the last step of the sidebar) and
    that has a key and a question ends at the constructor, with that
    exception, after the question was appended to the transcript and
    before any call to the model. Every later run over that roster
    ends earlier still: unless its form replaces the entry, it raises
    in the sidebar, before the transcript is drawn and the chat input
    is read. Each case is stated under its own premises. *)
Theorem init_requires_descriptions (key prompt : string) (model_config : dict pyval)
    (l : llm) (before after : dict pyval) (k : string) (v : pyval)
    (w : Chatbot4.widgets) (experts0 config0 : pyval)
    (messages : list Chatbot4.message) (drawn : list event) :
  let experts := PDict (before ++ (k, v) :: after) in
  let x := match v with PDict _ => KeyError "description" | _ => TypeError end in
  (ChatOpenAI (default (PStr "gpt-4o-mini") (dict_get "model_name" model_config))
              (default (PNum (7 # 10)) (dict_get "temperature" model_config)) key = Ok l ->
   Forall (fun kv => Spec.has_description (snd kv)) before ->
   ~ Spec.has_description v ->
   Chatbot4.init key experts (PDict model_config) = Raise x)
  /\ (forall key' experts' model_config' self,
        Chatbot4.init key' experts' model_config' = Ok self ->
        exists es, experts' = PDict es
                   /\ Forall (fun kv => Spec.has_description (snd kv)) es)
  /\ (Chatbot4.model_config_manager (Chatbot4.selected_model w) (Chatbot4.temperature w)
        (Chatbot4.config_file w) config0 = (PDict model_config, None) ->
      Chatbot4.expert_manager (Chatbot4.add w) (Chatbot4.forms w) (Chatbot4.experts_file w)
        experts0 = (experts, None) ->
      Chatbot4.render experts (PDict model_config) messages = (Ok tt, drawn) ->
      Chatbot4.api_key w <> "" ->
      Chatbot4.chat_input w = Some prompt ->
      prompt <> "" ->
      ChatOpenAI (default (PStr "gpt-4o-mini") (dict_get "model_name" model_config))
                 (default (PNum (7 # 10)) (dict_get "temperature" model_config))
                 (Chatbot4.api_key w) = Ok l ->
      Forall (fun kv => Spec.has_description (snd kv)) before ->
      ~ Spec.has_description v ->
      let trace :=
        Roster.key_box (Chatbot4.api_key w) ++ drawn
        ++ [Shown (Append "user" prompt); Shown (Write prompt)] in
      Chatbot4.main w experts0 config0 messages = (Raise x, trace)
      /\ Roster.silent trace)
  /\ (NoDup (keys (before ++ (k, v) :: after)) ->
      ~ Spec.has_description v ->
      Chatbot4.add_clicked (Chatbot4.add w) = false ->
      exists x',
        Chatbot4.main w experts config0 messages
        = (Raise x', Roster.key_box (Chatbot4.api_key w))).
Proof.
  intros experts x. split; [|split; [|split]].
  - intros Hllm Hbefore Hv. by apply (init_raises_at _ _ l).
  - intros key' experts' model_config' self. apply init_returns_described.
  - intros Hcfg Hside Hdraw Hkey Hin Hp Hllm Hbefore Hv trace. split.
    + rewrite (main4_after_sidebar w experts0 config0 experts (PDict model_config)
                 messages drawn Hcfg Hside Hdraw), Hin.
      rewrite M_bind_ok, (truthy_nonempty prompt Hp). unfold Chatbot4.on_prompt.
      rewrite (truthy_nonempty _ Hkey). cbn [negb].
      replace (truthy experts) with true by (unfold experts; by destruct before).
      cbn [negb]. unfold emit, log. rewrite !M_bind_ok.
      unfold experts. rewrite (init_raises_at _ _ l before after k v Hllm Hbefore Hv).
      cbn. by rewrite <- app_assoc.
    + apply silent_app; [apply key_box_silent|]. apply silent_app; [|by repeat constructor].
      pose proof (render4_silent experts (PDict model_config) messages) as Hs.
      by rewrite Hdraw in Hs.
  - intros Hnd Hv Hadd.
    destruct (expert_manager4_raises (Chatbot4.add w) (Chatbot4.forms w)
                (Chatbot4.experts_file w) (before ++ (k, v) :: after) (k, v))
      as (left & x' & Hside); [done | | | done |].
    { apply elem_of_app. right. left. }
    { intros Hc. by apply Hv, complete_entry_described. }
    by eapply main4_sidebar_raises.
Qed.

End Undescribed.

(** The amended C10: the run that imports a snapshot whose second entry
    has no description, and the run after it. *)
Lemma init_requires_descriptions_witness :
  let B := Stub.yes_backend in
  let U := Stub.ascii_upper in
  let C := Stub.checks in
  let cfg := [("model_name", PStr "gpt-4o-mini"); ("temperature", PNum (7 # 10))] in
  let snapshot := Some (Some (Json.dumps (PDict Stub.shoal))) in
  let importing := Stub.run4 "k" snapshot (Some "pick a pet") in
  let before := [hd ("", PNone) Stub.shoal] in
  let experts := PDict (before ++ ("c", Stub.undescribed) :: []) in
  let messages := [Chatbot4.UserMessage "hello"] in
  let drawn := [@Shown B (Write "hello")] in
  let x := KeyError "description" in
  let trace :=
    Roster.key_box (Chatbot4.api_key importing) ++ drawn
    ++ [Shown (Append "user" "pick a pet"); Shown (Write "pick a pet")] in
  (@ChatOpenAI B (default (PStr "gpt-4o-mini") (dict_get "model_name" cfg))
     (default (PNum (7 # 10)) (dict_get "temperature" cfg)) "k" = Ok tt
   /\ Forall (fun kv => Spec.has_description (snd kv)) before
   /\ ~ Spec.has_description Stub.undescribed
   /\ @Chatbot4.init B "k" experts (PDict cfg) = Raise x)
  /\ (@Chatbot4.model_config_manager C (Chatbot4.selected_model importing)
        (Chatbot4.temperature importing) (Chatbot4.config_file importing) (PDict cfg)
      = (PDict cfg, None)
      /\ Chatbot4.expert_manager (Chatbot4.add importing) (Chatbot4.forms importing)
           (Chatbot4.experts_file importing) (PDict Stub.zoo) = (experts, None)
      /\ @Chatbot4.render B C experts (PDict cfg) messages = (Ok tt, drawn)
      /\ Chatbot4.api_key importing <> ""
      /\ Chatbot4.chat_input importing = Some "pick a pet"
      /\ "pick a pet" <> ""
      /\ @Chatbot4.main B U C importing (PDict Stub.zoo) (PDict cfg) messages
         = (Raise x, trace)
      /\ Roster.silent trace)
  /\ (NoDup (keys (before ++ ("c", Stub.undescribed) :: []))
      /\ Chatbot4.add_clicked (Chatbot4.add importing) = false
      /\ exists x',
           @Chatbot4.main B U C importing experts (PDict cfg) messages
           = (Raise x', Roster.key_box (Chatbot4.api_key importing))).
Proof.
  intros B U C cfg snapshot importing before experts messages drawn x trace.
  assert (Hk : "k" <> "") by discriminate.
  assert (Hp : "pick a pet" <> "") by discriminate.
  assert (Hb : Forall (fun kv => Spec.has_description (snd kv)) before).
  { apply List.Forall_cons; [|apply List.Forall_nil]. eexists _, _. split; reflexivity. }
  assert (Hv : ~ Spec.has_description Stub.undescribed).
  { intros (f & d & [= <-] & Hd). discriminate. }
  assert (Hnd : NoDup (keys (before ++ ("c", Stub.undescribed) :: []))).
  { apply (bool_decide_unpack _). vm_compute. exact I. }
  pose proof (@init_requires_descriptions B U C "k" "pick a pet" cfg tt before [] "c"
                Stub.undescribed importing (PDict Stub.zoo) (PDict cfg) messages drawn)
    as (Hinit & _ & Hrun & Hlater).
  split; [|split].
  - split; [reflexivity|]. split; [exact Hb|]. split; [exact Hv|].
    exact (Hinit eq_refl Hb Hv).
  - do 3 (split; [reflexivity|]). split; [exact Hk|]. split; [reflexivity|].
    split; [exact Hp|].
    exact (Hrun eq_refl eq_refl eq_refl Hk eq_refl Hp eq_refl Hb Hv).
  - split; [exact Hnd|]. split; [reflexivity|]. exact (Hlater Hnd Hv eq_refl).
Defined.

(** ** The order of the guards *)

Section GuardOrder.
Context `{Backend} `{StrMethods} `{Streamlit.Checks}.

(** X10. In a run of [main] of [chatbot3.py] or [chatbot4.py] whose
    sidebar returns and whose transcript is drawn, with a question
    typed in, the API key is checked before the roster: without a key
    the missing key is reported, whatever roster the sidebar leaves;
    with a key, a roster left empty or as any other false value (the
    import, the last step of the sidebar, can leave [null], [false],
    [0], an empty text or an empty array) is reported as having no
    expert. In both cases the run returns normally, calls no model and
    appends nothing to the transcript. *)
Theorem main_checks_key_before_roster (completion : list nat) (prompt : string)
    (w3 : Chatbot3.widgets) (experts3 left3 : pyval) (messages3 : list Chatbot3.message)
    (w4 : Chatbot4.widgets) (experts4 config4 left4 saved4 : pyval)
    (messages4 : list Chatbot4.message) (drawn4 : list event) :
  (Chatbot3.expert_manager (Chatbot3.add w3) (Chatbot3.forms w3) (Chatbot3.uploaded_file w3)
     experts3 = (left3, None) ->
   Chatbot3.chat_input w3 = Some prompt ->
   prompt <> "" ->
   Chatbot3.api_key w3 = "" \/ truthy left3 = false ->
   let report :=
     if String.eqb (Chatbot3.api_key w3) ""
     then Error "OpenAI APIキーを設定してください！"
     else Error "少なくとも1人の専門家を設定してください！" in
   let trace :=
     Roster.key_box (Chatbot3.api_key w3) ++ snd (Chatbot3.render messages3)
     ++ [Shown report] in
   Chatbot3.main completion w3 experts3 messages3 = (Ok tt, trace)
   /\ Roster.silent trace
   /\ Roster.appended trace = [])
  /\ (Chatbot4.model_config_manager (Chatbot4.selected_model w4) (Chatbot4.temperature w4)
        (Chatbot4.config_file w4) config4 = (saved4, None) ->
      Chatbot4.expert_manager (Chatbot4.add w4) (Chatbot4.forms w4) (Chatbot4.experts_file w4)
        experts4 = (left4, None) ->
      Chatbot4.render left4 saved4 messages4 = (Ok tt, drawn4) ->
      Chatbot4.chat_input w4 = Some prompt ->
      prompt <> "" ->
      Chatbot4.api_key w4 = "" \/ truthy left4 = false ->
      let report :=
        if String.eqb (Chatbot4.api_key w4) ""
        then Error "OpenAI APIキーを設定してください！"
        else Error "少なくとも1人の専門家を設定してください！" in
      let trace := Roster.key_box (Chatbot4.api_key w4) ++ drawn4 ++ [Shown report] in
      Chatbot4.main w4 experts4 config4 messages4 = (Ok tt, trace)
      /\ Roster.silent trace
      /\ Roster.appended trace = []).
Proof.
  assert (Hreport : forall o, Roster.silent [Shown o]) by (by repeat constructor).
  split.
  - intros Hside Hin Hp Hguard report trace. split; [|split].
    + rewrite (main3_after_sidebar completion w3 experts3 left3 messages3 Hside), Hin.
      rewrite M_bind_ok, (truthy_nonempty prompt Hp). unfold Chatbot3.on_prompt.
      subst trace report. cbn [truthy].
      destruct (String.eqb_spec (Chatbot3.api_key w3) "") as [Hk|Hk]; cbn [negb].
      * cbn. by rewrite <- app_assoc.
      * destruct Hguard as [Hk'|Hempty]; [done|]. rewrite Hempty. cbn.
        by rewrite <- app_assoc.
    + apply silent_app; [apply key_box_silent|].
      apply silent_app; [apply render3_silent | apply Hreport].
    + subst trace. rewrite !appended_app, key_box_appends_nothing, render3_appends_nothing.
      subst report. by destruct (String.eqb _ "").
  - intros Hcfg Hside Hdraw Hin Hp Hguard report trace.
    pose proof (render4_silent left4 saved4 messages4) as Hs.
    pose proof (render4_appends_nothing left4 saved4 messages4) as Ha.
    rewrite Hdraw in Hs, Ha. cbn [snd] in Hs, Ha. split; [|split].
    + rewrite (main4_after_sidebar w4 experts4 config4 left4 saved4 messages4 drawn4
                 Hcfg Hside Hdraw), Hin.
      rewrite M_bind_ok, (truthy_nonempty prompt Hp). unfold Chatbot4.on_prompt.
      subst trace report. cbn [truthy].
      destruct (String.eqb_spec (Chatbot4.api_key w4) "") as [Hk|Hk]; cbn [negb].
      * cbn. by rewrite <- app_assoc.
      * destruct Hguard as [Hk'|Hempty]; [done|]. rewrite Hempty. cbn.
        by rewrite <- app_assoc.
    + apply silent_app; [apply key_box_silent|].
      apply silent_app; [done | apply Hreport].
    + subst trace. rewrite !appended_app, key_box_appends_nothing, Ha.
      subst report. by destruct (String.eqb _ "").
Qed.

End GuardOrder.

Lemma main_checks_key_before_roster_witness :
  let B := Stub.yes_backend in
  let U := Stub.ascii_upper in
  let C := Stub.checks in
  let cfg := Chatbot4.default_model_config in
  let emptied := Stub.run3 "k" (Some (Some (Json.JArr []))) (Some "pick a pet") in
  let keyless := Stub.run4 "" None (Some "pick a pet") in
  let messages3 := [("user", "hello"); ("assistant", "summary")] in
  let messages4 := [Chatbot4.UserMessage "hello"] in
  let drawn4 := [@Shown B (Write "hello")] in
  let trace3 :=
    Roster.key_box "k" ++ snd (@Chatbot3.render B messages3)
    ++ [Shown (Error "少なくとも1人の専門家を設定してください！")] in
  let trace4 :=
    Roster.key_box "" ++ drawn4 ++ [Shown (Error "OpenAI APIキーを設定してください！")] in
  (Chatbot3.expert_manager (Chatbot3.add emptied) (Chatbot3.forms emptied)
     (Chatbot3.uploaded_file emptied) (PDict Stub.pets) = (PList [], None)
   /\ Chatbot3.chat_input emptied = Some "pick a pet"
   /\ "pick a pet" <> ""
   /\ (Chatbot3.api_key emptied = "" \/ truthy (PList []) = false)
   /\ @Chatbot3.main B U [] emptied (PDict Stub.pets) messages3 = (Ok tt, trace3)
   /\ Roster.silent trace3
   /\ Roster.appended trace3 = [])
  /\ (@Chatbot4.model_config_manager C (Chatbot4.selected_model keyless)
        (Chatbot4.temperature keyless) (Chatbot4.config_file keyless) cfg = (cfg, None)
      /\ Chatbot4.expert_manager (Chatbot4.add keyless) (Chatbot4.forms keyless)
           (Chatbot4.experts_file keyless) (PDict Stub.zoo) = (PDict Stub.zoo, None)
      /\ @Chatbot4.render B C (PDict Stub.zoo) cfg messages4 = (Ok tt, drawn4)
      /\ Chatbot4.chat_input keyless = Some "pick a pet"
      /\ "pick a pet" <> ""
      /\ (Chatbot4.api_key keyless = "" \/ truthy (PDict Stub.zoo) = false)
      /\ @Chatbot4.main B U C keyless (PDict Stub.zoo) cfg messages4 = (Ok tt, trace4)
      /\ Roster.silent trace4
      /\ Roster.appended trace4 = []).
Proof.
  intros B U C cfg emptied keyless messages3 messages4 drawn4 trace3 trace4.
  assert (Hp : "pick a pet" <> "") by discriminate.
  assert (H3 : Chatbot3.api_key emptied = "" \/ truthy (PList []) = false)
    by (right; reflexivity).
  assert (H4 : Chatbot4.api_key keyless = "" \/ truthy (PDict Stub.zoo) = false)
    by (left; reflexivity).
  pose proof (@main_checks_key_before_roster B U C [] "pick a pet"
                emptied (PDict Stub.pets) (PList []) messages3
                keyless (PDict Stub.zoo) cfg (PDict Stub.zoo) cfg messages4 drawn4)
    as (Hrun3 & Hrun4).
  split.
  - split; [reflexivity|]. split; [reflexivity|]. split; [exact Hp|]. split; [exact H3|].
    exact (Hrun3 eq_refl eq_refl Hp H3).
  - do 4 (split; [reflexivity|]). split; [exact Hp|]. split; [exact H4|].
    exact (Hrun4 eq_refl eq_refl eq_refl eq_refl Hp H4).
Defined.

(** ** The panel of [chatbot4.py] *)

Section Panel4.
Context `{Backend} `{StrMethods} `{Streamlit.Checks}.

Lemma complete_has_description (d : dict pyval) :
  Roster.complete d -> Forall (fun kv => Spec.has_description (snd kv)) d.
Proof.
  intros Hc. eapply Forall_impl; [exact Hc|].
  intros [k v] (fields & x & a & n & Hv & Hx & _). by exists fields, x.
Qed.

(** The turn of one expert whose call is answered. *)
Lemma ask_expert_turn (chatbot : Chatbot4.ExpertPanelChatbot) (l : llm)
    (question : string) (acc : dict string) (e : string * pyval) :
  dict_item (fst e) (Chatbot4.expert_chains chatbot) = Ok (Roster.expert_chain l) ->
  Roster.complete_entry (snd e) ->
  Roster.presentable e ->
  Roster.answers l question e ->
  Chatbot4.ask_expert chatbot question acc e
  = (Ok (dict_set (fst e) (text_of (Roster.opinion_of l question e)) acc),
     Roster.turn l question e).
Proof.
  destruct e as [id v]. unfold Roster.presentable. cbn [fst snd].
  intros Hc (fields & x & a & n & -> & Hx & Ha & Hn) Hav [s Hs].
  assert (Hkw : Roster.expert_kwargs question (id, PDict fields)
                = [("expert_role", x); ("question", PStr question)]).
  { unfold Roster.expert_kwargs, Roster.field. cbn [snd getitem]. by rewrite Hx. }
  unfold Roster.field in Hav. cbn [getitem] in Hav. rewrite Ha in Hav.
  unfold Roster.turn, Roster.call. rewrite Hs. unfold Roster.opinion_of in Hs.
  rewrite Hkw in Hs |- *.
  unfold Chatbot4.ask_expert, Roster.field. cbn [fst snd getitem].
  rewrite Hn, Ha, Hx. unfold lift, emit, log. rewrite !M_bind_ok. cbn [fst snd app].
  rewrite Hav, !M_bind_ok. cbn [fst snd app].
  unfold Chatbot4.get_expert_opinion. rewrite Hc.
  cbn [show eval mbind coro_mbind coro_bind arun await mret coro_ret
       Roster.expert_chain chain_llm LangChain.prompt].
  rewrite Hs. rewrite !M_bind_ok. cbn [fst snd app mret M_ret text_of]. reflexivity.
Qed.

(** The turn of an expert whose call fails. *)
Lemma ask_expert_fails (chatbot : Chatbot4.ExpertPanelChatbot) (l : llm)
    (question : string) (acc : dict string) (e : string * pyval) (x : exn) :
  dict_item (fst e) (Chatbot4.expert_chains chatbot) = Ok (Roster.expert_chain l) ->
  Roster.complete_entry (snd e) ->
  Roster.presentable e ->
  Roster.opinion_of l question e = Fails x ->
  Chatbot4.ask_expert chatbot question acc e
  = (Raise x,
     [Shown (WriteVal "💭 が分析中..." (Roster.field "name" (snd e)));
      Shown (Announce "🤔 が考えています..." (fst e))]
     ++ Roster.call l question e).
Proof.
  destruct e as [id v]. unfold Roster.presentable. cbn [fst snd].
  intros Hc (fields & d & a & n & -> & Hd & Ha & Hn) Hav Hx.
  assert (Hkw : Roster.expert_kwargs question (id, PDict fields)
                = [("expert_role", d); ("question", PStr question)]).
  { unfold Roster.expert_kwargs, Roster.field. cbn [snd getitem]. by rewrite Hd. }
  unfold Roster.field in Hav. cbn [getitem] in Hav. rewrite Ha in Hav.
  unfold Roster.call. rewrite Hx. unfold Roster.opinion_of in Hx.
  rewrite Hkw in Hx |- *.
  unfold Chatbot4.ask_expert, Roster.field. cbn [fst snd getitem].
  rewrite Hn, Ha, Hd. unfold lift, emit, log. rewrite !M_bind_ok. cbn [fst snd app].
  rewrite Hav, !M_bind_ok. cbn [fst snd app].
  unfold Chatbot4.get_expert_opinion. rewrite Hc.
  cbn [show eval mbind coro_mbind coro_bind arun await mret coro_ret
       Roster.expert_chain chain_llm LangChain.prompt].
  rewrite Hx. rewrite M_bind_raise. reflexivity.
Qed.

(** The loop of [main] over a stretch of the roster. *)
Lemma ask_experts_run (chatbot : Chatbot4.ExpertPanelChatbot) (l : llm)
    (question : string) (es : dict pyval) (acc : dict string) :
  (forall e, e ∈ es ->
     dict_item (fst e) (Chatbot4.expert_chains chatbot) = Ok (Roster.expert_chain l)) ->
  Roster.complete es ->
  Forall Roster.presentable es ->
  Forall (Roster.answers l question) es ->
  for_each es (Chatbot4.ask_expert chatbot question) acc
  = (Ok (fold_left (fun d kv => dict_set (fst kv) (snd kv) d)
           (map (fun e => (fst e, text_of (Roster.opinion_of l question e))) es) acc),
     concat (map (Roster.turn l question) es)).
Proof.
  revert acc. induction es as [|e es IH]; intros acc Hch Hc Hav Hans; [done|].
  apply Forall_cons in Hc as [He Hc]. apply Forall_cons in Hav as [Ha Hav].
  apply Forall_cons in Hans as [Hs Hans].
  cbn [for_each].
  rewrite (ask_expert_turn chatbot l question acc e (Hch e ltac:(left)) He Ha Hs).
  rewrite M_bind_ok.
  rewrite IH; [|intros e' He'; apply Hch; by right | done | done | done].
  reflexivity.
Qed.

Lemma ask_experts_stop (chatbot : Chatbot4.ExpertPanelChatbot) (l : llm)
    (question : string) (before after : dict pyval) (e : string * pyval) (x : exn)
    (acc : dict string) :
  (forall e', e' ∈ before ++ e :: after ->
     dict_item (fst e') (Chatbot4.expert_chains chatbot) = Ok (Roster.expert_chain l)) ->
  Roster.complete (before ++ [e]) ->
  Forall Roster.presentable (before ++ [e]) ->
  Forall (Roster.answers l question) before ->
  Roster.opinion_of l question e = Fails x ->
  for_each (before ++ e :: after) (Chatbot4.ask_expert chatbot question) acc
  = (Raise x,
     concat (map (Roster.turn l question) before)
     ++ [Shown (WriteVal "💭 が分析中..." (Roster.field "name" (snd e)));
         Shown (Announce "🤔 が考えています..." (fst e))]
     ++ Roster.call l question e).
Proof.
  revert acc. induction before as [|e0 before IH]; intros acc Hch Hc Hav Hans Hx.
  - cbn [app for_each] in *. apply Forall_cons in Hc as [He _].
    apply Forall_cons in Hav as [Ha _].
    rewrite (ask_expert_fails chatbot l question acc e x (Hch e ltac:(left)) He Ha Hx).
    by rewrite M_bind_raise.
  - cbn [app] in Hc, Hav. apply Forall_cons in Hc as [He0 Hc].
    apply Forall_cons in Hav as [Ha0 Hav].
    apply Forall_cons in Hans as [Hs Hans]. cbn [app for_each].
    rewrite (ask_expert_turn chatbot l question acc e0 (Hch e0 ltac:(left)) He0 Ha0 Hs).
    rewrite M_bind_ok.
    rewrite IH; [|intros e' He'; apply Hch; by right | done | done | done | done].
    cbn [fst snd map concat]. by rewrite <- !app_assoc.
Qed.

Lemma count_turns (l : llm) (question : string) (es : dict pyval) :
  count (started expert_variables) (concat (map (Roster.turn l question) es)) = length es
  /\ count (started summary_variables) (concat (map (Roster.turn l question) es)) = 0.
Proof.
  induction es as [|e es (IH1 & IH2)]; [done|].
  cbn [map concat length]. rewrite !count_app, IH1, IH2. done.
Qed.

Lemma appended_turns (l : llm) (question : string) (es : dict pyval) :
  Roster.appended (concat (map (Roster.turn l question) es))
  = map (fun e => ("expert", text_of (Roster.opinion_of l question e))) es.
Proof.
  induction es as [|e es IH]; [done|].
  cbn [map concat]. rewrite appended_app, IH. done.
Qed.

(** X15. A run of [main] of [chatbot4.py] whose sidebar returns and
    whose transcript is drawn, with a key, a question, a configuration
    the client accepts and a roster, as the sidebar leaves it, of
    complete entries whose avatars Streamlit accepts and whose calls
    are all answered: the experts are asked one at a time in the order
    of the roster, the opinion of each is displayed and appended to
    the transcript before the next expert is asked, and the summary
    call comes last, with the opinions in the order of the roster.
    When the summary call fails, its exception leaves [main] after all
    the opinions were recorded. *)
Theorem main4_asks_the_experts_in_turn (w : Chatbot4.widgets) (experts0 config0 : pyval)
    (messages : list Chatbot4.message) (drawn : list event) (question : string)
    (d model_config : dict pyval) (model_name temperature : pyval) (l : llm) :
  Chatbot4.model_config_manager (Chatbot4.selected_model w) (Chatbot4.temperature w)
    (Chatbot4.config_file w) config0 = (PDict model_config, None) ->
  Chatbot4.expert_manager (Chatbot4.add w) (Chatbot4.forms w) (Chatbot4.experts_file w)
    experts0 = (PDict d, None) ->
  Chatbot4.render (PDict d) (PDict model_config) messages = (Ok tt, drawn) ->
  Chatbot4.api_key w <> "" ->
  Chatbot4.chat_input w = Some question ->
  question <> "" ->
  d <> [] ->
  NoDup (keys d) ->
  Roster.complete d ->
  Forall Roster.presentable d ->
  dict_get "model_name" model_config = Some model_name ->
  dict_get "temperature" model_config = Some temperature ->
  ChatOpenAI model_name temperature (Chatbot4.api_key w) = Ok l ->
  Forall (Roster.answers l question) d ->
  let opinions := map (fun e => (fst e, text_of (Roster.opinion_of l question e))) d in
  let block := Chatbot.formatted_opinions opinions in
  let summary := Roster.summary_of l question block in
  Chatbot4.main w experts0 config0 messages
  = (match summary with
     | Text _ => Ok tt
     | Fails x => Raise x
     end,
     Roster.key_box (Chatbot4.api_key w) ++ drawn
     ++ [Shown (Append "user" question); Shown (Write question)]
     ++ concat (map (Roster.turn l question) d)
     ++ [Shown (Write "### 🔄 最終的な結論を生成中...");
         Started (Roster.summary_chain l) (Spec.summary_kwargs question block);
         Finished (Roster.summary_chain l) (Spec.summary_kwargs question block) summary]
     ++ match summary with
        | Text final_response =>
            [Shown (Append "summary" final_response);
             Shown (Write "**統合された結論:**");
             Shown (Write final_response);
             Shown (WriteVal "使用モデル:" model_name);
             Shown (WriteVal "Temperature:" temperature)]
        | Fails _ => []
        end).
Proof.
  intros Hcfg Hside Hdraw Hkey Hin Hq Hd Hnd Hc Hav Hname Htemp Hl Hans
    opinions block summary.
  destruct (init4_returns (Chatbot4.api_key w) model_config d l)
    as (self & Hinit & Hsl & Hexp & Hsum & Hch).
  { by rewrite Hname, Htemp. }
  { done. }
  { by apply complete_has_description. }
  rewrite (main4_after_sidebar w experts0 config0 (PDict d) (PDict model_config)
             messages drawn Hcfg Hside Hdraw), Hin.
  rewrite M_bind_ok, (truthy_nonempty question Hq). unfold Chatbot4.on_prompt.
  rewrite (truthy_nonempty _ Hkey). cbn [negb].
  assert (Ht : truthy (PDict d) = true) by by destruct d.
  rewrite Ht. cbn [negb]. rewrite Hinit. cbn [items getitem]. rewrite Hname, Htemp.
  unfold lift, emit, log. rewrite !M_bind_ok. cbn [fst snd app].
  rewrite (ask_experts_run self l question d []); [| |done|done|done].
  2:{ intros e He. apply Hch. unfold keys. apply list_elem_of_fmap. by exists e. }
  rewrite M_bind_ok. cbn [fst snd].
  fold opinions.
  change (fold_left _ opinions []) with (dict_of_pairs opinions).
  rewrite (dict_of_pairs_nodup opinions) by (unfold opinions; by rewrite keys_map_texts).
  unfold Chatbot4.get_integrated_response. fold block.
  unfold emit, log. rewrite !M_bind_ok. rewrite await_arun, Hsum.
  change [("original_question", PStr question); ("expert_opinions", PStr block)]
    with (Spec.summary_kwargs question block).
  change (generate _ _ _) with summary.
  destruct summary as [final|x]; cbn; rewrite <- ?app_assoc; reflexivity.
Qed.

(** X16. In [chatbot4.py] nothing catches the failure of an expert's
    call, and the transcript is written as the run goes: in a run whose
    sidebar returns and whose transcript is drawn, over a roster of
    complete entries whose avatars Streamlit accepts, when the call of
    an expert raises, the question and the opinions of the experts
    before it are already appended to the transcript and stay there,
    the experts after it are not asked, and no summary is asked for. *)
Theorem main4_failure_leaves_partial_transcript (w : Chatbot4.widgets)
    (experts0 config0 : pyval) (messages : list Chatbot4.message) (drawn : list event)
    (question : string) (before after model_config : dict pyval) (e : string * pyval)
    (x : exn) (model_name temperature : pyval) (l : llm) :
  Chatbot4.model_config_manager (Chatbot4.selected_model w) (Chatbot4.temperature w)
    (Chatbot4.config_file w) config0 = (PDict model_config, None) ->
  Chatbot4.expert_manager (Chatbot4.add w) (Chatbot4.forms w) (Chatbot4.experts_file w)
    experts0 = (PDict (before ++ e :: after), None) ->
  Chatbot4.render (PDict (before ++ e :: after)) (PDict model_config) messages
    = (Ok tt, drawn) ->
  Chatbot4.api_key w <> "" ->
  Chatbot4.chat_input w = Some question ->
  question <> "" ->
  NoDup (keys (before ++ e :: after)) ->
  Roster.complete (before ++ e :: after) ->
  Forall Roster.presentable (before ++ [e]) ->
  dict_get "model_name" model_config = Some model_name ->
  dict_get "temperature" model_config = Some temperature ->
  ChatOpenAI model_name temperature (Chatbot4.api_key w) = Ok l ->
  Forall (Roster.answers l question) before ->
  Roster.opinion_of l question e = Fails x ->
  let asked :=
    [Shown (Append "user" question); Shown (Write question)]
    ++ concat (map (Roster.turn l question) before)
    ++ [Shown (WriteVal "💭 が分析中..." (Roster.field "name" (snd e)));
        Shown (Announce "🤔 が考えています..." (fst e))]
    ++ Roster.call l question e in
  Chatbot4.main w experts0 config0 messages
    = (Raise x, Roster.key_box (Chatbot4.api_key w) ++ drawn ++ asked)
  /\ count (started expert_variables) asked = S (length before)
  /\ count (started summary_variables) asked = 0
  /\ Roster.appended asked
     = ("user", question)
       :: map (fun e => ("expert", text_of (Roster.opinion_of l question e))) before.
Proof.
  intros Hcfg Hside Hdraw Hkey Hin Hq Hnd Hc Hav Hname Htemp Hl Hans Hx asked.
  destruct (init4_returns (Chatbot4.api_key w) model_config (before ++ e :: after) l)
    as (self & Hinit & Hsl & Hexp & Hsum & Hch).
  { by rewrite Hname, Htemp. }
  { done. }
  { by apply complete_has_description. }
  split.
  { rewrite (main4_after_sidebar w experts0 config0 (PDict (before ++ e :: after))
               (PDict model_config) messages drawn Hcfg Hside Hdraw), Hin.
    rewrite M_bind_ok, (truthy_nonempty question Hq). unfold Chatbot4.on_prompt.
    rewrite (truthy_nonempty _ Hkey). cbn [negb].
    assert (Ht : truthy (PDict (before ++ e :: after)) = true) by by destruct before.
    rewrite Ht. cbn [negb]. rewrite Hinit. cbn [items].
    unfold lift, emit, log. rewrite !M_bind_ok. cbn [fst snd app].
    rewrite (ask_experts_stop self l question before after e x []); [| |  |done|done|done].
    - rewrite M_bind_raise. cbn [fst snd]. by rewrite <- !app_assoc.
    - intros e' He'. apply Hch. unfold keys. apply list_elem_of_fmap. by exists e'.
    - unfold Roster.complete in *. rewrite Forall_app in Hc |- *.
      destruct Hc as [Hb Hc]. apply Forall_cons in Hc as [He _]. by repeat constructor. }
  subst asked. rewrite !count_app, !appended_app, appended_turns.
  destruct (count_turns l question before) as [-> ->].
  split; [|split]; [| done | by rewrite app_nil_r].
  change (count (started expert_variables) (Roster.call l question e)) with 1.
  cbn [count started]. lia.
Qed.

End Panel4.

Lemma zoo_nodup : NoDup (keys Stub.zoo).
Proof. apply (bool_decide_unpack _). vm_compute. exact I. Defined.

Lemma zoo_complete : Roster.complete Stub.zoo.
Proof.
  repeat (apply List.Forall_cons;
          [eexists _, _, _, _; repeat split; reflexivity|]).
  apply List.Forall_nil.
Defined.

Lemma zoo_presentable : Forall (@Roster.presentable Stub.checks) Stub.zoo.
Proof. repeat (apply List.Forall_cons; [reflexivity|]). apply List.Forall_nil. Defined.

Lemma yes_answers_zoo :
  Forall (@Roster.answers Stub.yes_backend tt "pick a pet") Stub.zoo.
Proof. repeat (apply List.Forall_cons; [eexists; reflexivity|]). apply List.Forall_nil. Defined.

Lemma main4_asks_the_experts_in_turn_witness :
  let B := Stub.yes_backend in
  let U := Stub.ascii_upper in
  let C := Stub.checks in
  let cfg := [("model_name", PStr "gpt-4o-mini"); ("temperature", PNum (7 # 10))] in
  let w := Stub.run4 "k" None (Some "pick a pet") in
  let messages := [Chatbot4.UserMessage "hello"] in
  let drawn := [@Shown B (Write "hello")] in
  let opinions :=
    map (fun e => (fst e, text_of (@Roster.opinion_of B tt "pick a pet" e))) Stub.zoo in
  let block := @Chatbot.formatted_opinions U opinions in
  let summary := @Roster.summary_of B tt "pick a pet" block in
  @Chatbot4.model_config_manager C (Chatbot4.selected_model w) (Chatbot4.temperature w)
    (Chatbot4.config_file w) (PDict cfg) = (PDict cfg, None)
  /\ Chatbot4.expert_manager (Chatbot4.add w) (Chatbot4.forms w) (Chatbot4.experts_file w)
       (PDict Stub.zoo) = (PDict Stub.zoo, None)
  /\ @Chatbot4.render B C (PDict Stub.zoo) (PDict cfg) messages = (Ok tt, drawn)
  /\ Chatbot4.api_key w <> ""
  /\ Chatbot4.chat_input w = Some "pick a pet"
  /\ "pick a pet" <> ""
  /\ Stub.zoo <> []
  /\ NoDup (keys Stub.zoo)
  /\ Roster.complete Stub.zoo
  /\ Forall (@Roster.presentable C) Stub.zoo
  /\ dict_get "model_name" cfg = Some (PStr "gpt-4o-mini")
  /\ dict_get "temperature" cfg = Some (PNum (7 # 10))
  /\ @ChatOpenAI B (PStr "gpt-4o-mini") (PNum (7 # 10)) (Chatbot4.api_key w) = Ok tt
  /\ Forall (@Roster.answers B tt "pick a pet") Stub.zoo
  /\ @Chatbot4.main B U C w (PDict Stub.zoo) (PDict cfg) messages
     = (match summary with
        | Text _ => Ok tt
        | Fails x => Raise x
        end,
        Roster.key_box (Chatbot4.api_key w) ++ drawn
        ++ [Shown (Append "user" "pick a pet"); Shown (Write "pick a pet")]
        ++ concat (map (@Roster.turn B tt "pick a pet") Stub.zoo)
        ++ [Shown (Write "### 🔄 最終的な結論を生成中...");
            Started (@Roster.summary_chain B tt) (Spec.summary_kwargs "pick a pet" block);
            Finished (@Roster.summary_chain B tt) (Spec.summary_kwargs "pick a pet" block)
              summary]
        ++ match summary with
           | Text final_response =>
               [Shown (Append "summary" final_response);
                Shown (Write "**統合された結論:**");
                Shown (Write final_response);
                Shown (WriteVal "使用モデル:" (PStr "gpt-4o-mini"));
                Shown (WriteVal "Temperature:" (PNum (7 # 10)))]
           | Fails _ => []
           end).
Proof.
  intros B U C cfg w messages drawn opinions block summary.
  assert (Hk : Chatbot4.api_key w <> "") by discriminate.
  assert (Hq : "pick a pet" <> "") by discriminate.
  assert (Hd : Stub.zoo <> []) by discriminate.
  do 3 (split; [reflexivity|]). split; [exact Hk|]. split; [reflexivity|].
  split; [exact Hq|]. split; [exact Hd|].
  split; [exact zoo_nodup|]. split; [exact zoo_complete|]. split; [exact zoo_presentable|].
  do 3 (split; [reflexivity|]). split; [exact yes_answers_zoo|].
  exact (@main4_asks_the_experts_in_turn B U C w (PDict Stub.zoo) (PDict cfg) messages drawn
           "pick a pet" Stub.zoo cfg (PStr "gpt-4o-mini") (PNum (7 # 10)) tt
           eq_refl eq_refl eq_refl Hk eq_refl Hq Hd zoo_nodup zoo_complete zoo_presentable
           eq_refl eq_refl eq_refl yes_answers_zoo).
Defined.

Lemma main4_failure_leaves_partial_transcript_witness :
  let B := Stub.failing_backend "loves dogs" in
  let U := Stub.ascii_upper in
  let C := Stub.checks in
  let cfg := [("model_name", PStr "gpt-4o-mini"); ("temperature", PNum (7 # 10))] in
  let w := Stub.run4 "k" None (Some "pick a pet") in
  let messages := [Chatbot4.UserMessage "hello"] in
  let drawn := [@Shown B (Write "hello")] in
  let before := [hd ("", PNone) Stub.zoo] in
  let e := hd ("", PNone) (tl Stub.zoo) in
  let x := InvokerError "timeout" in
  let asked :=
    [Shown (Append "user" "pick a pet"); Shown (Write "pick a pet")]
    ++ concat (map (@Roster.turn B tt "pick a pet") before)
    ++ [Shown (WriteVal "💭 が分析中..." (Roster.field "name" (snd e)));
        Shown (Announce "🤔 が考えています..." (fst e))]
    ++ @Roster.call B tt "pick a pet" e in
  @Chatbot4.model_config_manager C (Chatbot4.selected_model w) (Chatbot4.temperature w)
    (Chatbot4.config_file w) (PDict cfg) = (PDict cfg, None)
  /\ Chatbot4.expert_manager (Chatbot4.add w) (Chatbot4.forms w) (Chatbot4.experts_file w)
       (PDict Stub.zoo) = (PDict (before ++ e :: []), None)
  /\ @Chatbot4.render B C (PDict (before ++ e :: [])) (PDict cfg) messages = (Ok tt, drawn)
  /\ Chatbot4.api_key w <> ""
  /\ Chatbot4.chat_input w = Some "pick a pet"
  /\ "pick a pet" <> ""
  /\ NoDup (keys (before ++ e :: []))
  /\ Roster.complete (before ++ e :: [])
  /\ Forall (@Roster.presentable C) (before ++ [e])
  /\ dict_get "model_name" cfg = Some (PStr "gpt-4o-mini")
  /\ dict_get "temperature" cfg = Some (PNum (7 # 10))
  /\ @ChatOpenAI B (PStr "gpt-4o-mini") (PNum (7 # 10)) (Chatbot4.api_key w) = Ok tt
  /\ Forall (@Roster.answers B tt "pick a pet") before
  /\ @Roster.opinion_of B tt "pick a pet" e = Fails x
  /\ @Chatbot4.main B U C w (PDict Stub.zoo) (PDict cfg) messages
     = (Raise x, Roster.key_box (Chatbot4.api_key w) ++ drawn ++ asked)
  /\ count (started expert_variables) asked = S (length before)
  /\ count (started summary_variables) asked = 0
  /\ Roster.appended asked
     = ("user", "pick a pet")
       :: map (fun e => ("expert", text_of (@Roster.opinion_of B tt "pick a pet" e))) before.
Proof.
  intros B U C cfg w messages drawn before e x asked.
  assert (Hk : Chatbot4.api_key w <> "") by discriminate.
  assert (Hq : "pick a pet" <> "") by discriminate.
  assert (Hans : Forall (@Roster.answers B tt "pick a pet") before).
  { apply List.Forall_cons; [eexists; reflexivity | apply List.Forall_nil]. }
  do 3 (split; [reflexivity|]). split; [exact Hk|]. split; [reflexivity|].
  split; [exact Hq|].
  split; [exact zoo_nodup|]. split; [exact zoo_complete|]. split; [exact zoo_presentable|].
  do 3 (split; [reflexivity|]). split; [exact Hans|]. split; [reflexivity|].
  exact (@main4_failure_leaves_partial_transcript B U C w (PDict Stub.zoo) (PDict cfg)
           messages drawn "pick a pet" before [] cfg e x (PStr "gpt-4o-mini")
           (PNum (7 # 10)) tt eq_refl eq_refl eq_refl Hk eq_refl Hq zoo_nodup zoo_complete
           zoo_presentable eq_refl eq_refl eq_refl Hans eq_refl).
Defined.
